(** * The cluster node of influxd: bootstrap, join and shutdown

    A shallow embedding of [cmd/influxd/node.go].  The node talks to
    collaborators that live in other packages (the raft log, the broker, the
    data server, the messaging client, network listeners, the logger).  Their
    behaviour is not fixed here: it is an interface, [Collaborators], over an
    abstract world.  Every call the node makes is threaded through the world
    and written, with its answer, to a trace of events; the theorems are about
    those traces and about the node's own fields. *)

From Stdlib Require Import List String Ascii Bool Arith NArith ZArith Lia.
From Stdlib Require Import DecimalString.
Import ListNotations.
Local Open Scope string_scope.
Local Open Scope list_scope.

(** ** Values that cross the interface *)

(** Go [error] values.  The node compares errors by identity with two
    sentinels, [raft.ErrInitialized] and [influxdb.ErrDataNodeNotFound];
    [AddrError] is what [net.SplitHostPort] returns; everything else is
    [ErrOther]. *)
Inductive error : Type :=
| ErrInitialized
| ErrDataNodeNotFound
| AddrError (why addr : string)
| ErrOther (msg : string).

(** [url.URL], with the two fields this file sets. *)
Record URL : Type := mkURL { Scheme : string; Host : string }.

(** A pointer to an object owned by another package. *)
Definition ref : Type := nat.

Inductive obj : Type :=
| OListener (r : ref)
| OBroker (r : ref)
| OLog (r : ref)
| OClock (r : ref)
| OClient (r : ref)
| OServer (r : ref)
| OAdmin (r : ref)
| OGraphite (r : ref)
| OOpenTSDB (r : ref)
| OHandler (r : ref).

(** Values written to fields of foreign objects or passed to the logger. *)
Inductive value : Type :=
| VBool (b : bool)
| VInt (z : Z)
| VUint (n : N)
| VDuration (d : Z)
| VString (s : string)
| VURL (u : URL)
| VError (e : error)
| VRef (o : obj)
| VRaftFSM (broker : ref).

(** What a goroutine dies of when the node does not return normally. *)
Inductive panic_value : Type :=
| PNilDereference
| PError (e : error).

(** ** Events: one per call that leaves the file, with the answer it got *)
Inductive event : Type :=
| EListen (addr : string) (r : ref + error)
| EServe (desc addr : string) (l h : ref)
| EListenerAddr (l : ref) (a : string)
| ENewBroker (b : ref)
| ENewLog (l : ref)
| ENewClock (c : ref)
| ENewMessagingClient (u : URL) (c : ref)
| ENewServer (n : ref)
| ENewAdminServer (addr : string) (a : ref)
| ESet (o : obj) (field : string) (v : value)
| ELogSetURL (l : ref) (u : URL)
| EBrokerOpen (b : ref) (path : string) (r : option error)
| ELogOpen (l : ref) (path : string) (r : option error)
| ELastLogIndexTerm (l : ref) (index term : N)
| ELogInitialize (l : ref) (r : option error)
| ELogJoin (l : ref) (u : URL) (r : option error)
| EBrokerURL (b : ref) (u : URL)
| EClientSetURLs (c : ref) (urls : list URL)
| EClientOpen (c : ref) (path : string) (r : option error)
| EClientURLs (c : ref) (urls : list URL)
| EServerOpen (n : ref) (dir : string) (c : ref) (r : option error)
| EServerID (n : ref) (id : N)
| EServerJoin (n : ref) (u joinURL : URL) (r : option error)
| EServerInitialize (n : ref) (u : URL) (r : option error)
| EListenAndServe (o : obj) (r : option error)
| EClose (o : obj) (r : option error)
| EPrintf (fmt : string) (args : list value)
| ESleep (d : Z).

(** ** The collaborators

    One field per foreign function or method the file calls.  A call takes the
    world and gives back its answer and the next world; reads give only the
    answer. *)
Class Collaborators (W : Type) : Type := {
  (* package net *)
  net_Listen : string -> W -> (ref + error) * W;
  http_Serve : string -> string -> ref -> ref -> W -> W;
  listener_Addr : ref -> W -> string;
  (* constructors *)
  influxdb_NewBroker : W -> ref * W;
  raft_NewLog : W -> ref * W;
  raft_NewClock : W -> ref * W;
  influxdb_NewMessagingClient : URL -> W -> ref * W;
  influxdb_NewServer : W -> ref * W;
  admin_NewServer : string -> W -> ref * W;
  (* assignment to an exported field of a foreign object *)
  set_field : obj -> string -> value -> W -> W;
  (* raft.Log and influxdb.Broker *)
  log_SetURL : ref -> URL -> W -> W;
  broker_Open : ref -> string -> W -> option error * W;
  log_Open : ref -> string -> W -> option error * W;
  log_LastLogIndexTerm : ref -> W -> N * N;
  log_Initialize : ref -> W -> option error * W;
  log_Join : ref -> URL -> W -> option error * W;
  broker_URL : ref -> W -> URL;
  (* messaging client and influxdb.Server *)
  client_SetURLs : ref -> list URL -> W -> W;
  client_Open : ref -> string -> W -> option error * W;
  client_URLs : ref -> W -> list URL;
  server_Open : ref -> string -> ref -> W -> option error * W;
  server_ID : ref -> W -> N;
  server_Join : ref -> URL -> URL -> W -> option error * W;
  server_Initialize : ref -> URL -> W -> option error * W;
  (* ListenAndServe of the admin server and of the ingest servers *)
  obj_ListenAndServe : obj -> W -> option error * W;
  (* Close of any closable object *)
  obj_Close : obj -> W -> option error * W;
  (* time.Sleep *)
  time_Sleep : Z -> W -> W
}.

(** ** Go's [net.SplitHostPort] and [net.JoinHostPort]

    Standard-library functions of the language, called by [ClusterURL].  They
    are pure functions on strings and are written out so that [ClusterURL]
    computes. *)

(** [strings.IndexByte]: position of the first [c], [None] for Go's [-1]. *)
Fixpoint IndexByte (s : string) (c : ascii) : option nat :=
  match s with
  | EmptyString => None
  | String a s' =>
      if Ascii.eqb a c then Some 0
      else match IndexByte s' c with
           | Some i => Some (S i)
           | None => None
           end
  end.

(** [strings.LastIndexByte]: position of the last [c]. *)
Fixpoint LastIndexByte (s : string) (c : ascii) : option nat :=
  match s with
  | EmptyString => None
  | String a s' =>
      match LastIndexByte s' c with
      | Some i => Some (S i)
      | None => if Ascii.eqb a c then Some 0 else None
      end
  end.

(** [s[i:j]] and [s[i:]]. *)
Definition slice (s : string) (i j : nat) : string := substring i (j - i) s.
Definition slice_from (s : string) (i : nat) : string :=
  substring i (String.length s - i) s.

Definition missingPort : string := "missing port in address".
Definition tooManyColons : string := "too many colons in address".

Definition addrErr (addr why : string) : (string * string) + error :=
  inr (AddrError why addr).

(** [s[i] == c]; every index the function below asks for is in range. *)
Definition byte_is (s : string) (i : nat) (c : ascii) : bool :=
  match String.get i s with
  | Some a => Ascii.eqb a c
  | None => false
  end.

Definition SplitHostPort (hostport : string) : (string * string) + error :=
  (* The port starts after the last colon. *)
  match LastIndexByte hostport ":" with
  | None => addrErr hostport missingPort
  | Some i =>
      (* the last part of the function, reached with host, j and k set *)
      let finish (host : string) (j k : nat) :=
        match IndexByte (slice_from hostport j) "[" with
        | Some _ => addrErr hostport "unexpected '[' in address"
        | None =>
            match IndexByte (slice_from hostport k) "]" with
            | Some _ => addrErr hostport "unexpected ']' in address"
            | None => inl (host, slice_from hostport (i + 1))
            end
        end in
      if byte_is hostport 0 "[" then
        (* Expect the first ']' just before the last ':'. *)
        match IndexByte hostport "]" with
        | None => addrErr hostport "missing ']' in address"
        | Some e =>
            if Nat.eqb (e + 1) (String.length hostport) then
              (* There can't be a ':' behind the ']' now. *)
              addrErr hostport missingPort
            else if Nat.eqb (e + 1) i then
              (* The expected result. *)
              finish (slice hostport 1 e) 1 (e + 1)
            else if byte_is hostport (e + 1) ":" then
              addrErr hostport tooManyColons
            else
              addrErr hostport missingPort
        end
      else
        let host := slice hostport 0 i in
        match IndexByte host ":" with
        | Some _ => addrErr hostport tooManyColons
        | None => finish host 0 0
        end
  end.

(** We assume that host is a literal IPv6 address if host has colons. *)
Definition JoinHostPort (host port : string) : string :=
  match IndexByte host ":" with
  | Some _ => "[" ++ host ++ "]:" ++ port
  | None => host ++ ":" ++ port
  end.

(** The string has no byte [c]. *)
Definition lacks (c : ascii) (s : string) : Prop := IndexByte s c = None.

(** [strconv.Itoa]. *)
Definition Itoa (z : Z) : string := NilZero.string_of_int (Z.to_int z).

(** ** The node *)

(** The configuration is declared in another file of the command; these are
    the settings [node.go] reads.  [BrokerDir] stands for the result of the
    method of that name. *)
Record Config : Type := mkConfig {
  BrokerDir : string;
  Logging_RaftTracing : bool;
  Logging_WriteTracing : bool;
  Broker_TruncationInterval : Z;
  Broker_MaxTopicSize : Z;
  Broker_MaxSegmentSize : Z;
  Raft_ApplyInterval : Z;
  Raft_ElectionTimeout : Z;
  Raft_HeartbeatInterval : Z;
  Raft_ReconnectTimeout : Z;
  Data_Dir : string;
  Data_RetentionAutoCreate : bool;
  ContinuousQuery_RecomputePreviousN : Z;
  ContinuousQuery_RecomputeNoOlderThan : Z;
  ContinuousQuery_ComputeRunsPerInterval : Z;
  ContinuousQuery_ComputeNoMoreThan : Z
}.

(** [type Node struct]: pointers and interfaces are [option ref] ([None] is
    [nil]), the slice of graphite servers is a list. *)
Record Node : Type := mkNode {
  Broker : option ref;
  DataNode : option ref;
  raftLog : option ref;
  config : option Config;
  hostname : string;
  adminServer : option ref;
  clusterListener : option ref;
  apiListener : option ref;
  GraphiteServers : list ref;
  OpenTSDBServer : option ref
}.

Definition NewNodeWithConfig (c : option Config) : Node :=
  mkNode None None None c "" None None None [] None.

Definition set_Broker (v : option ref) (s : Node) : Node :=
  mkNode v (DataNode s) (raftLog s) (config s) (hostname s) (adminServer s)
         (clusterListener s) (apiListener s) (GraphiteServers s) (OpenTSDBServer s).
Definition set_DataNode (v : option ref) (s : Node) : Node :=
  mkNode (Broker s) v (raftLog s) (config s) (hostname s) (adminServer s)
         (clusterListener s) (apiListener s) (GraphiteServers s) (OpenTSDBServer s).
Definition set_raftLog (v : option ref) (s : Node) : Node :=
  mkNode (Broker s) (DataNode s) v (config s) (hostname s) (adminServer s)
         (clusterListener s) (apiListener s) (GraphiteServers s) (OpenTSDBServer s).
Definition set_config (v : option Config) (s : Node) : Node :=
  mkNode (Broker s) (DataNode s) (raftLog s) v (hostname s) (adminServer s)
         (clusterListener s) (apiListener s) (GraphiteServers s) (OpenTSDBServer s).
Definition set_adminServer (v : option ref) (s : Node) : Node :=
  mkNode (Broker s) (DataNode s) (raftLog s) (config s) (hostname s) v
         (clusterListener s) (apiListener s) (GraphiteServers s) (OpenTSDBServer s).
Definition set_clusterListener (v : option ref) (s : Node) : Node :=
  mkNode (Broker s) (DataNode s) (raftLog s) (config s) (hostname s) (adminServer s)
         v (apiListener s) (GraphiteServers s) (OpenTSDBServer s).
Definition set_apiListener (v : option ref) (s : Node) : Node :=
  mkNode (Broker s) (DataNode s) (raftLog s) (config s) (hostname s) (adminServer s)
         (clusterListener s) v (GraphiteServers s) (OpenTSDBServer s).
Definition set_GraphiteServers (v : list ref) (s : Node) : Node :=
  mkNode (Broker s) (DataNode s) (raftLog s) (config s) (hostname s) (adminServer s)
         (clusterListener s) (apiListener s) v (OpenTSDBServer s).
Definition set_OpenTSDBServer (v : option ref) (s : Node) : Node :=
  mkNode (Broker s) (DataNode s) (raftLog s) (config s) (hostname s) (adminServer s)
         (clusterListener s) (apiListener s) (GraphiteServers s) v.

(** ** The monad: node and world threaded, events written, exits caught *)

(** How a call ends: it returns, the process exits through [log.Fatalf], or
    the goroutine panics. *)
Inductive outcome (A : Type) : Type :=
| Ret (a : A)
| Fatal (fmt : string) (args : list value)
| Panic (p : panic_value).
Arguments Ret {A} a.
Arguments Fatal {A} fmt args.
Arguments Panic {A} p.

Definition returned {A} (o : outcome A) : bool :=
  match o with Ret _ => true | _ => false end.

Definition process_dies {A} (o : outcome A) : Prop :=
  match o with Ret _ => False | _ => True end.

Declare Scope go_scope.
Delimit Scope go_scope with go.

Section Program.

Context {W : Type} `{Collaborators W}.

Record state : Type := mkState { node : Node; world : W }.

Definition M (A : Type) : Type := state -> list event * outcome A * state.

Definition ret {A} (a : A) : M A := fun st => ([], Ret a, st).

Definition bind {A B} (m : M A) (k : A -> M B) : M B :=
  fun st =>
    match m st with
    | (ev, Ret a, st1) =>
        match k a st1 with
        | (ev', o, st2) => (ev ++ ev', o, st2)
        end
    | (ev, Fatal f a, st1) => (ev, Fatal f a, st1)
    | (ev, Panic p, st1) => (ev, Panic p, st1)
    end.

(** The three projections of a run. *)
Definition events {A} (r : list event * outcome A * state) : list event := fst (fst r).
Definition result {A} (r : list event * outcome A * state) : outcome A := snd (fst r).
Definition final {A} (r : list event * outcome A * state) : state := snd r.

Notation "x <- c1 ;; c2" := (bind c1 (fun x => c2))
  (at level 100, c1 at next level, right associativity) : go_scope.
Notation "c1 ;; c2" := (bind c1 (fun _ => c2))
  (at level 100, right associativity) : go_scope.
Local Open Scope go_scope.

(** ** The code of [node.go] *)

(** Package-level names declared in other files of the command, and
    [filepath.Join] of the standard library. *)
Variables (version commit messagingClientFile : string).
Variable filepath_Join : string -> string -> string.

(** *** Primitive steps *)

Definition emit (e : event) : M unit := fun st => ([e], Ret tt, st).

Definition fatal {A} (fmt : string) (args : list value) : M A :=
  fun st => ([], Fatal fmt args, st).

Definition panic {A} (p : panic_value) : M A :=
  fun st => ([], Panic p, st).

Definition get_node : M Node := fun st => ([], Ret (node st), st).

Definition modify_node (f : Node -> Node) : M unit :=
  fun st => ([], Ret tt, mkState (f (node st)) (world st)).

(** A call that may change the world. *)
Definition call {A} (f : W -> A * W) (ev : A -> event) : M A :=
  fun st =>
    let aw := f (world st) in
    ([ev (fst aw)], Ret (fst aw), mkState (node st) (snd aw)).

(** A call without an answer. *)
Definition call_ (f : W -> W) (ev : event) : M unit :=
  fun st => ([ev], Ret tt, mkState (node st) (f (world st))).

(** A call that only reads. *)
Definition read {A} (f : W -> A) (ev : A -> event) : M A :=
  fun st => ([ev (f (world st))], Ret (f (world st)), st).

Definition Printf (fmt : string) (args : list value) : M unit :=
  emit (EPrintf fmt args).

Definition set (o : obj) (field : string) (v : value) : M unit :=
  call_ (set_field o field v) (ESet o field v).

(** [s.config], dereferenced. *)
Definition the_config : M Config :=
  s <- get_node ;;
  match config s with
  | Some c => ret c
  | None => panic PNilDereference
  end.

(** [if err != nil { log.Fatalf(fmt, args...) }] *)
Definition fatal_if (err : option error) (fmt : string)
    (args : error -> list value) : M unit :=
  match err with
  | Some e => fatal fmt (args e)
  | None => ret tt
  end.

(** [if err := m; err != nil { return err }] followed by [k]. *)
Definition check (m : M (option error)) (k : M (option error)) : M (option error) :=
  err <- m ;;
  match err with
  | Some e => ret (Some e)
  | None => k
  end.

(** *** [ClusterAddr], [ClusterURL] (lines 42-60) *)

(** The address is kept in the form its [String] method renders. *)
Definition ClusterAddr : M string :=
  s <- get_node ;;
  match clusterListener s with
  | None => panic PNilDereference
  | Some l => read (listener_Addr l) (EListenerAddr l)
  end.

Definition ClusterURL : M URL :=
  a <- ClusterAddr ;;
  match SplitHostPort a with
  | inr e => panic (PError e)
  | inl (_, p) =>
      s <- get_node ;;
      let h := JoinHostPort (hostname s) p in
      ret {| Scheme := "http"; Host := h |}
  end.

(** *** [joinLog] (lines 129-143) *)

(** The [range] loop, with the statement after the loop as its empty case. *)
Fixpoint joinLog (l : ref) (brokerURLs : list URL) : M unit :=
  match brokerURLs with
  | [] => fatal "join: failed to connect raft log to any specified server" []
  | u :: rest =>
      err <- call (log_Join l u) (ELogJoin l u) ;;
      match err with
      | Some ErrInitialized => ret tt
      | Some e =>
          Printf "join: failed to connect to raft cluster: %s: %s" [VURL u; VError e] ;;
          joinLog l rest
      | None =>
          Printf "join: connected raft log to %s" [VURL u] ;;
          ret tt
      end
  end.

(** *** [openBroker] (lines 62-127) *)

Definition openBroker (brokerURLs : list URL) (h : ref) : M unit :=
  c <- the_config ;;
  let path := BrokerDir c in
  u <- ClusterURL ;;
  let raftTracing := Logging_RaftTracing c in
  (* Create broker *)
  b <- call influxdb_NewBroker ENewBroker ;;
  set (OBroker b) "TruncationInterval" (VDuration (Broker_TruncationInterval c)) ;;
  set (OBroker b) "MaxTopicSize" (VInt (Broker_MaxTopicSize c)) ;;
  set (OBroker b) "MaxSegmentSize" (VInt (Broker_MaxSegmentSize c)) ;;
  modify_node (set_Broker (Some b)) ;;
  (* Create raft log. *)
  l <- call raft_NewLog ENewLog ;;
  call_ (log_SetURL l u) (ELogSetURL l u) ;;
  set (OLog l) "DebugEnabled" (VBool raftTracing) ;;
  set (OBroker b) "Log" (VRef (OLog l)) ;;
  modify_node (set_raftLog (Some l)) ;;
  (* Create Raft clock. *)
  clk <- call raft_NewClock ENewClock ;;
  set (OClock clk) "ApplyInterval" (VDuration (Raft_ApplyInterval c)) ;;
  set (OClock clk) "ElectionTimeout" (VDuration (Raft_ElectionTimeout c)) ;;
  set (OClock clk) "HeartbeatInterval" (VDuration (Raft_HeartbeatInterval c)) ;;
  set (OClock clk) "ReconnectTimeout" (VDuration (Raft_ReconnectTimeout c)) ;;
  set (OLog l) "Clock" (VRef (OClock clk)) ;;
  (* Open broker so it can feed last index data to the log. *)
  err <- call (broker_Open b path) (EBrokerOpen b path) ;;
  fatal_if err "failed to open broker at %s : %s" (fun e => [VString path; VError e]) ;;
  Printf "broker opened at %s" [VString path] ;;
  (* Attach the broker as the finite state machine of the raft log. *)
  set (OLog l) "FSM" (VRaftFSM b) ;;
  (* Open raft log inside broker directory. *)
  err <- call (log_Open l (filepath_Join path "raft"))
              (ELogOpen l (filepath_Join path "raft")) ;;
  fatal_if err "raft: %s" (fun e => [VError e]) ;;
  (* Attach broker and log to handler. *)
  set (OHandler h) "Broker" (VRef (OBroker b)) ;;
  set (OHandler h) "Log" (VRef (OLog l)) ;;
  (* Checks to see if the raft index is 0. *)
  it <- read (log_LastLogIndexTerm l)
             (fun it => ELastLogIndexTerm l (fst it) (snd it)) ;;
  let index := fst it in
  if N.eqb index 0 then
    if Nat.ltb 0 (List.length brokerURLs) then
      joinLog l brokerURLs
    else
      err <- call (log_Initialize l) (ELogInitialize l) ;;
      fatal_if err "initialize raft log: %s" (fun e => [VError e]) ;;
      u <- read (broker_URL b) (EBrokerURL b) ;;
      Printf "initialized broker: %s\n" [VURL u]
  else
    Printf "broker already member of cluster.  Using existing state and ignoring join URLs" [].

(** *** Closing (lines 145-190, 277-282, 315-322, 333-340) *)

Definition closeAdminServer : M (option error) :=
  s <- get_node ;;
  match adminServer s with
  | Some a => call (obj_Close (OAdmin a)) (EClose (OAdmin a))
  | None => ret None
  end.

Definition closeAPIListener : M (option error) :=
  s <- get_node ;;
  match apiListener s with
  | Some l =>
      err <- call (obj_Close (OListener l)) (EClose (OListener l)) ;;
      modify_node (set_apiListener None) ;;
      ret err
  | None => ret None
  end.

Definition closeClusterListener : M (option error) :=
  s <- get_node ;;
  match clusterListener s with
  | Some l =>
      err <- call (obj_Close (OListener l)) (EClose (OListener l)) ;;
      modify_node (set_clusterListener None) ;;
      ret err
  | None => ret None
  end.

(** [if p != nil { if err := p.Close(); err != nil { return err } }] *)
Definition close_if_set (p : option obj) : M (option error) :=
  match p with
  | Some o => call (obj_Close o) (EClose o)
  | None => ret None
  end.

(** The loop over [s.GraphiteServers]. *)
Fixpoint close_GraphiteServers (gs : list ref) : M (option error) :=
  match gs with
  | [] => ret None
  | g :: rest =>
      check (call (obj_Close (OGraphite g)) (EClose (OGraphite g)))
            (close_GraphiteServers rest)
  end.

Definition Close : M (option error) :=
  check closeClusterListener (
  check closeAPIListener (
  check closeAdminServer (
  check (s <- get_node ;; close_GraphiteServers (GraphiteServers s)) (
  check (s <- get_node ;; close_if_set (option_map OOpenTSDB (OpenTSDBServer s))) (
  check (s <- get_node ;; close_if_set (option_map OServer (DataNode s))) (
  check (s <- get_node ;; close_if_set (option_map OLog (raftLog s))) (
  check (s <- get_node ;; close_if_set (option_map OBroker (Broker s))) (
  ret None)))))))).

(** *** [joinOrInitializeServer] (lines 238-268) *)

(** [n.Initialize(u)], fatal on failure, logged on success; [tag] tells the
    two call sites apart in the fatal message. *)
Definition initialize_data_node (n : ref) (u : URL) (tag : string) : M unit :=
  err <- call (server_Initialize n u) (EServerInitialize n u) ;;
  fatal_if err tag (fun e => [VError e]) ;;
  Printf "initialized data node: %s\n" [VURL u].

(** The [range] loop over [joinURLs]; [after] is the code behind the loop. *)
Fixpoint join_each (n : ref) (u : URL) (joinURLs : list URL) (after : M unit)
    : M unit :=
  match joinURLs with
  | [] => after
  | joinURL :: rest =>
      err <- call (server_Join n u joinURL) (EServerJoin n u joinURL) ;;
      match err with
      | Some ErrDataNodeNotFound =>
          (* No data nodes could be found to join.  We're the first. *)
          initialize_data_node n u "server initialization error(1): %s"
      | Some e =>
          (* does not return so that the next joinURL can be tried *)
          Printf "join: failed to connect data node: %s: %s" [VURL u; VError e] ;;
          join_each n u rest after
      | None =>
          Printf "join: connected data node to %s" [VURL u]
      end
  end.

Definition joinOrInitializeServer (n : ref) (u : URL) (joinURLs : list URL)
    : M unit :=
  join_each n u joinURLs (
    if Nat.eqb (List.length joinURLs) 0 then
      initialize_data_node n u "server initialization error(2): %s"
    else
      fatal "join: failed to connect data node to any specified server" []).

(** *** [openServer] (lines 192-236) *)

Definition second : Z := 1000000000.

Definition openServer (joinURLs : list URL) : M ref :=
  (* Create messaging client to the brokers. *)
  u <- ClusterURL ;;
  c <- call (influxdb_NewMessagingClient u) (ENewMessagingClient u) ;;
  call_ (client_SetURLs c joinURLs) (EClientSetURLs c joinURLs) ;;
  cfg <- the_config ;;
  let file := filepath_Join (Data_Dir cfg) messagingClientFile in
  err <- call (client_Open c file) (EClientOpen c file) ;;
  fatal_if err "messaging client error: %s" (fun e => [VError e]) ;;
  (* If no URLs exist on the client the return an error since we cannot
     reach a broker. *)
  urls <- read (client_URLs c) (EClientURLs c) ;;
  (if Nat.eqb (List.length urls) 0
   then fatal "messaging client has no broker URLs" []
   else ret tt) ;;
  (* Create and open the server. *)
  n <- call influxdb_NewServer ENewServer ;;
  set (OServer n) "WriteTrace" (VBool (Logging_WriteTracing cfg)) ;;
  set (OServer n) "RetentionAutoCreate" (VBool (Data_RetentionAutoCreate cfg)) ;;
  set (OServer n) "RecomputePreviousN" (VInt (ContinuousQuery_RecomputePreviousN cfg)) ;;
  set (OServer n) "RecomputeNoOlderThan"
      (VDuration (ContinuousQuery_RecomputeNoOlderThan cfg)) ;;
  set (OServer n) "ComputeRunsPerInterval"
      (VInt (ContinuousQuery_ComputeRunsPerInterval cfg)) ;;
  set (OServer n) "ComputeNoMoreThan"
      (VDuration (ContinuousQuery_ComputeNoMoreThan cfg)) ;;
  set (OServer n) "Version" (VString version) ;;
  set (OServer n) "CommitHash" (VString commit) ;;
  (* Open server with data directory and broker client. *)
  err <- call (server_Open n (Data_Dir cfg) c) (EServerOpen n (Data_Dir cfg) c) ;;
  fatal_if err "failed to open data node: %v" (fun e => [VError e]) ;;
  id <- read (server_ID n) (EServerID n) ;;
  Printf "data node(%d) opened at %s" [VUint id; VString (Data_Dir cfg)] ;;
  (* Give brokers time to elect a leader if entire cluster is being
     restarted. *)
  call_ (time_Sleep (1 * second)) (ESleep (1 * second)) ;;
  id <- read (server_ID n) (EServerID n) ;;
  (if N.eqb id 0 then
     u <- ClusterURL ;;
     joinOrInitializeServer n u joinURLs
   else
     Printf "data node already member of cluster. Using existing state and ignoring join URLs" []) ;;
  ret n.

(** *** Admin server and listeners (lines 270-313, 324-331) *)

Definition openAdminServer (port : Z) : M (option error) :=
  let addr := JoinHostPort "" (Itoa port) in
  a <- call (admin_NewServer addr) (ENewAdminServer addr) ;;
  modify_node (set_adminServer (Some a)) ;;
  call (obj_ListenAndServe (OAdmin a)) (EListenAndServe (OAdmin a)).

(** The goroutine that serves the listener is started and left to the
    world: [EServe] marks its start, nothing it does later is followed. *)
Definition openListener (desc addr : string) (h : ref) : M (ref + error) :=
  r <- call (net_Listen addr) (EListen addr) ;;
  match r with
  | inr err => ret (inr err)
  | inl listener =>
      call_ (http_Serve desc addr listener h) (EServe desc addr listener h) ;;
      ret (inl listener)
  end.

(** [(listener, err)] as the two values Go assigns. *)
Definition listener_of (r : ref + error) : option ref :=
  match r with inl l => Some l | inr _ => None end.
Definition error_of (r : ref + error) : option error :=
  match r with inl _ => None | inr e => Some e end.

Definition openAPIListener (addr : string) (h : ref) : M (option error) :=
  r <- openListener "API" addr h ;;
  modify_node (set_apiListener (listener_of r)) ;;
  match error_of r with
  | Some err => ret (Some err)
  | None => ret None
  end.

Definition openClusterListener (addr : string) (h : ref) : M (option error) :=
  r <- openListener "Cluster" addr h ;;
  modify_node (set_clusterListener (listener_of r)) ;;
  match error_of r with
  | Some err => ret (Some err)
  | None => ret None
  end.

(** *** The start sequence *)

(** Modelled from the spec: starting one auxiliary ingest server, which the
    run command does and [node.go] does not contain.  Section 6 gives the
    servers [listenAndServe()] and [close()]; the handle of a server that
    started is appended to [GraphiteServers], the slice [Close] goes
    through. *)
Definition start_graphite (g : ref) : M (option error) :=
  err <- call (obj_ListenAndServe (OGraphite g)) (EListenAndServe (OGraphite g)) ;;
  match err with
  | Some e => ret (Some e)
  | None =>
      s <- get_node ;;
      modify_node (set_GraphiteServers (GraphiteServers s ++ [g])) ;;
      ret None
  end.

(** Modelled from the spec: the ingest servers started one after the other,
    the first failure ending the start. *)
Fixpoint start_graphites (gs : list ref) : M (option error) :=
  match gs with
  | [] => ret None
  | g :: rest => check (start_graphite g) (start_graphites rest)
  end.

(** Modelled from the spec: the same for the OpenTSDB server, present only
    if configured. *)
Definition start_opentsdb (o : option ref) : M (option error) :=
  match o with
  | None => ret None
  | Some t =>
      err <- call (obj_ListenAndServe (OOpenTSDB t)) (EListenAndServe (OOpenTSDB t)) ;;
      match err with
      | Some e => ret (Some e)
      | None => modify_node (set_OpenTSDBServer (Some t)) ;; ret None
      end
  end.

(** Modelled from the spec: the start sequence of the orchestrator, which the
    run command performs and [node.go] does not contain.  Section 4.3 gives
    the order: cluster listener and API listener, replicated-log layer, grace
    delay, data layer, administrative server, auxiliary ingest servers.  Each
    step is the function of [node.go] that opens that subsystem; the grace
    delay is the sleep inside [openServer]; the ingest servers are started
    through their [ListenAndServe]. *)
Definition Start (clusterAddr apiAddr : string) (h : ref)
    (brokerURLs joinURLs : list URL) (adminPort : Z)
    (graphite : list ref) (opentsdb : option ref) : M (option error) :=
  check (openClusterListener clusterAddr h) (
  check (openAPIListener apiAddr h) (
  openBroker brokerURLs h ;;
  n <- openServer joinURLs ;;
  modify_node (set_DataNode (Some n)) ;;
  check (openAdminServer adminPort) (
  check (start_graphites graphite) (
  check (start_opentsdb opentsdb) (
  ret None))))).

(** *** Pieces of the functions above, named for the proofs *)

(** [openBroker] from the test of the index on (lines 111-126). *)
Definition bootstrap_log (b l : ref) (index : N) (brokerURLs : list URL) : M unit :=
  if N.eqb index 0 then
    if Nat.ltb 0 (List.length brokerURLs) then
      joinLog l brokerURLs
    else
      err <- call (log_Initialize l) (ELogInitialize l) ;;
      fatal_if err "initialize raft log: %s" (fun e => [VError e]) ;;
      u <- read (broker_URL b) (EBrokerURL b) ;;
      Printf "initialized broker: %s\n" [VURL u]
  else
    Printf "broker already member of cluster.  Using existing state and ignoring join URLs" [].

(** [openServer] from the test of the identity on (lines 229-235). *)
Definition bootstrap_server (n : ref) (id : N) (joinURLs : list URL) : M ref :=
  (if N.eqb id 0 then
     u <- ClusterURL ;;
     joinOrInitializeServer n u joinURLs
   else
     Printf "data node already member of cluster. Using existing state and ignoring join URLs" []) ;;
  ret n.

(** [Close] behind the two listeners (lines 155-189). *)
Definition Close_services : M (option error) :=
  check closeAdminServer (
  check (s <- get_node ;; close_GraphiteServers (GraphiteServers s)) (
  check (s <- get_node ;; close_if_set (option_map OOpenTSDB (OpenTSDBServer s))) (
  check (s <- get_node ;; close_if_set (option_map OServer (DataNode s))) (
  check (s <- get_node ;; close_if_set (option_map OLog (raftLog s))) (
  check (s <- get_node ;; close_if_set (option_map OBroker (Broker s))) (
  ret None)))))).

(** The code behind the loop of [joinOrInitializeServer] (lines 259-267). *)
Definition after_join_loop (n : ref) (u : URL) (joinURLs : list URL) : M unit :=
  if Nat.eqb (List.length joinURLs) 0 then
    initialize_data_node n u "server initialization error(2): %s"
  else
    fatal "join: failed to connect data node to any specified server" [].

End Program.

Arguments state W : clear implicits.
Arguments M W A : clear implicits.

(** ** Reading traces *)

(** The entries of a trace that [f] picks, in order. *)
Fixpoint pick {X : Type} (f : event -> option X) (evs : list event) : list X :=
  match evs with
  | [] => []
  | e :: rest =>
      match f e with
      | Some x => x :: pick f rest
      | None => pick f rest
      end
  end.

Definition log_join_of (e : event) : option (URL * option error) :=
  match e with ELogJoin _ u r => Some (u, r) | _ => None end.
Definition log_initialize_of (e : event) : option (option error) :=
  match e with ELogInitialize _ r => Some r | _ => None end.
Definition index_read_of (e : event) : option N :=
  match e with ELastLogIndexTerm _ i _ => Some i | _ => None end.
Definition server_join_of (e : event) : option (URL * URL * option error) :=
  match e with EServerJoin _ u j r => Some (u, j, r) | _ => None end.
Definition server_initialize_of (e : event) : option (URL * option error) :=
  match e with EServerInitialize _ u r => Some (u, r) | _ => None end.
Definition id_read_of (e : event) : option N :=
  match e with EServerID _ i => Some i | _ => None end.
Definition close_of (e : event) : option (obj * option error) :=
  match e with EClose o r => Some (o, r) | _ => None end.

(** Join attempts of the log layer: seed and answer. *)
Definition log_joins : list event -> list (URL * option error) := pick log_join_of.
(** Answers to [Initialize] of the raft log. *)
Definition log_initializes : list event -> list (option error) := pick log_initialize_of.
(** Indices read from the raft log. *)
Definition index_reads : list event -> list N := pick index_read_of.
(** Join attempts of the data layer: local URL, candidate and answer. *)
Definition server_joins : list event -> list (URL * URL * option error) :=
  pick server_join_of.
(** [Initialize] calls of the data node: URL and answer. *)
Definition server_initializes : list event -> list (URL * option error) :=
  pick server_initialize_of.
(** Identities read from the data node. *)
Definition id_reads : list event -> list N := pick id_read_of.
(** [Close] calls: handle and answer. *)
Definition closes : list event -> list (obj * option error) := pick close_of.

(** A handle is acquired by the call that opens it, when that call succeeds;
    it is released by its [Close]. *)
Definition acquired_by (e : event) : option obj :=
  match e with
  | EListen _ (inl l) => Some (OListener l)
  | EBrokerOpen b _ None => Some (OBroker b)
  | ELogOpen l _ None => Some (OLog l)
  | EServerOpen n _ _ None => Some (OServer n)
  | EListenAndServe o None => Some o
  | _ => None
  end.
Definition acquired : list event -> list obj := pick acquired_by.
Definition released : list event -> list obj :=
  pick (fun e => option_map fst (close_of e)).

(** An answer of a join call that sends the loop of [joinLog] on to the next
    seed: an error other than [raft.ErrInitialized]. *)
Definition log_join_retry (r : option error) : bool :=
  match r with
  | Some ErrInitialized => false
  | Some _ => true
  | None => false
  end.

(** The same for the data layer: an error other than
    [influxdb.ErrDataNodeNotFound]. *)
Definition server_join_retry (r : option error) : bool :=
  match r with
  | Some ErrDataNodeNotFound => false
  | Some _ => true
  | None => false
  end.

(** The handles [Close] goes through, in its order, [nil] ones left out. *)
Definition opt_obj (mk : ref -> obj) (p : option ref) : list obj :=
  match p with Some r => [mk r] | None => [] end.

Definition close_plan (s : Node) : list obj :=
  opt_obj OListener (clusterListener s) ++
  opt_obj OListener (apiListener s) ++
  opt_obj OAdmin (adminServer s) ++
  map OGraphite (GraphiteServers s) ++
  opt_obj OOpenTSDB (OpenTSDBServer s) ++
  opt_obj OServer (DataNode s) ++
  opt_obj OLog (raftLog s) ++
  opt_obj OBroker (Broker s).

(** ** A scripted world

    A world whose collaborators answer from a script, used to run the node on
    concrete inputs. *)
Module Script.

Record world : Type := mkWorld {
  fresh : ref;                               (* next pointer handed out *)
  bound : string;                            (* address every listener reports *)
  index_term : N * N;                        (* what the raft log has persisted *)
  identity : N;                              (* what the data node has persisted *)
  broker_urls : list URL;                    (* URLs kept by the messaging client *)
  log_join_answers : list (option error);    (* answers of successive log joins *)
  server_join_answers : list (option error); (* answers of successive data joins *)
  log_initialize_answer : option error;
  server_initialize_answer : option error;
  close_answer : obj -> option error
}.

Definition refused : option error := Some (ErrOther "connection refused").

Definition alloc (w : world) : ref * world :=
  (fresh w,
   mkWorld (S (fresh w)) (bound w) (index_term w) (identity w) (broker_urls w)
           (log_join_answers w) (server_join_answers w)
           (log_initialize_answer w) (server_initialize_answer w) (close_answer w)).

Definition set_urls (urls : list URL) (w : world) : world :=
  mkWorld (fresh w) (bound w) (index_term w) (identity w) urls
          (log_join_answers w) (server_join_answers w)
          (log_initialize_answer w) (server_initialize_answer w) (close_answer w).

Definition next_log_join (w : world) : option error * world :=
  match log_join_answers w with
  | [] => (refused, w)
  | r :: rest =>
      (r, mkWorld (fresh w) (bound w) (index_term w) (identity w) (broker_urls w)
                  rest (server_join_answers w)
                  (log_initialize_answer w) (server_initialize_answer w)
                  (close_answer w))
  end.

Definition next_server_join (w : world) : option error * world :=
  match server_join_answers w with
  | [] => (refused, w)
  | r :: rest =>
      (r, mkWorld (fresh w) (bound w) (index_term w) (identity w) (broker_urls w)
                  (log_join_answers w) rest
                  (log_initialize_answer w) (server_initialize_answer w)
                  (close_answer w))
  end.

#[export] Instance collaborators : Collaborators world := {|
  net_Listen := fun _ w => (inl (fresh w), snd (alloc w));
  http_Serve := fun _ _ _ _ w => w;
  listener_Addr := fun _ w => bound w;
  influxdb_NewBroker := alloc;
  raft_NewLog := alloc;
  raft_NewClock := alloc;
  influxdb_NewMessagingClient := fun _ => alloc;
  influxdb_NewServer := alloc;
  admin_NewServer := fun _ => alloc;
  set_field := fun _ _ _ w => w;
  log_SetURL := fun _ _ w => w;
  broker_Open := fun _ _ w => (None, w);
  log_Open := fun _ _ w => (None, w);
  log_LastLogIndexTerm := fun _ w => index_term w;
  log_Initialize := fun _ w => (log_initialize_answer w, w);
  log_Join := fun _ _ => next_log_join;
  broker_URL := fun _ _ => mkURL "http" "localhost:8086";
  client_SetURLs := fun _ urls w => match urls with [] => w | _ => set_urls urls w end;
  client_Open := fun _ _ w => (None, w);
  client_URLs := fun _ w => broker_urls w;
  server_Open := fun _ _ _ w => (None, w);
  server_ID := fun _ w => identity w;
  server_Join := fun _ _ _ => next_server_join;
  server_Initialize := fun _ _ w => (server_initialize_answer w, w);
  obj_ListenAndServe := fun _ w => (None, w);
  obj_Close := fun o w => (close_answer w o, w);
  time_Sleep := fun _ w => w
|}.

(** A fresh store: nothing persisted, every call succeeds, no join answered. *)
Definition blank : world :=
  mkWorld 1 "[::]:8086" (0%N, 0%N) 0%N [] [] [] None None (fun _ => None).

Definition with_index (i : N) (w : world) : world :=
  mkWorld (fresh w) (bound w) (i, 1%N) (identity w) (broker_urls w)
          (log_join_answers w) (server_join_answers w)
          (log_initialize_answer w) (server_initialize_answer w) (close_answer w).

Definition with_identity (i : N) (w : world) : world :=
  mkWorld (fresh w) (bound w) (index_term w) i (broker_urls w)
          (log_join_answers w) (server_join_answers w)
          (log_initialize_answer w) (server_initialize_answer w) (close_answer w).

Definition with_bound (a : string) (w : world) : world :=
  mkWorld (fresh w) a (index_term w) (identity w) (broker_urls w)
          (log_join_answers w) (server_join_answers w)
          (log_initialize_answer w) (server_initialize_answer w) (close_answer w).

Definition with_broker_urls (urls : list URL) (w : world) : world := set_urls urls w.

Definition with_log_joins (rs : list (option error)) (w : world) : world :=
  mkWorld (fresh w) (bound w) (index_term w) (identity w) (broker_urls w)
          rs (server_join_answers w)
          (log_initialize_answer w) (server_initialize_answer w) (close_answer w).

Definition with_server_joins (rs : list (option error)) (w : world) : world :=
  mkWorld (fresh w) (bound w) (index_term w) (identity w) (broker_urls w)
          (log_join_answers w) rs
          (log_initialize_answer w) (server_initialize_answer w) (close_answer w).

Definition with_initialize (rl rs : option error) (w : world) : world :=
  mkWorld (fresh w) (bound w) (index_term w) (identity w) (broker_urls w)
          (log_join_answers w) (server_join_answers w) rl rs (close_answer w).

Definition with_close (f : obj -> option error) (w : world) : world :=
  mkWorld (fresh w) (bound w) (index_term w) (identity w) (broker_urls w)
          (log_join_answers w) (server_join_answers w)
          (log_initialize_answer w) (server_initialize_answer w) f.

Definition cfg : Config :=
  mkConfig "/var/influxdb/broker" false false 0 0 0 0 0 0 0
           "/var/influxdb/data" true 0 0 0 0.

(** A node as the command builds it, with a host name and a cluster
    listener already bound (pointer 0). *)
Definition node0 : Node :=
  mkNode None None None (Some cfg) "db1" None (Some 0) None [] None.

Definition seed (h : string) : URL := mkURL "http" h.
Definition s1 : URL := seed "a:8086".
Definition s2 : URL := seed "b:8086".
Definition s3 : URL := seed "c:8086".

Definition join_path (a b : string) : string := a ++ "/" ++ b.

Definition run_openBroker (urls : list URL) (n : Node) (w : world) :=
  openBroker join_path urls 7 (mkState n w).
Definition run_openServer (urls : list URL) (n : Node) (w : world) :=
  openServer "0.9.0" "abc" "messaging" join_path urls (mkState n w).

(** Worlds and nodes for the runs below. *)
Definition join_world : world := with_log_joins [refused; Some ErrInitialized] blank.
Definition member_world : world := with_index 5 blank.
Definition founder_world : world := with_broker_urls [s1] blank.
Definition first_node_world : world :=
  with_server_joins [refused; Some ErrDataNodeNotFound] founder_world.
Definition accepting_world : world := with_log_joins [None] blank.

(** A node just built by the command: no handle yet. *)
Definition new_node : Node :=
  mkNode None None None (Some cfg) "db1" None None None [] None.

(** A full start in the stated order, with two graphite servers and an
    OpenTSDB server. *)
Definition started :=
  Start "0.9.0" "abc" "messaging" join_path ":8086" ":8087" 7 [] [] 8083
        [20; 21] (Some 30) (mkState new_node founder_world).

(** The runs the theorems are tried on. *)
Definition join_run := run_openBroker [s1; s2; s3] node0 join_world.
Definition member_run := run_openBroker [s1] node0 member_world.
Definition founder_log_run := run_openBroker [] node0 blank.
Definition founder_data_run := run_openServer [] node0 founder_world.
Definition first_node_state : state world := mkState node0 first_node_world.
Definition local : URL := seed "db1:8086".
Definition first_node_run := joinOrInitializeServer 5 local [s1; s2] first_node_state.
Definition first_node_open := run_openServer [s1; s2] node0 first_node_world.
Definition seedless_run := run_openBroker [] node0 accepting_world.
Definition seeded_run := run_openBroker [s1] node0 accepting_world.

(** A node with both listeners open, in a world where closing listener 1
    fails. *)
Definition two_listeners : Node :=
  mkNode None None None (Some cfg) "db1" None (Some 1) (Some 2) [] None.
Definition stuck_close (o : obj) : option error :=
  match o with
  | OListener 1 => Some (ErrOther "close failed")
  | _ => None
  end.
Definition stuck_state : state world := mkState two_listeners (with_close stuck_close blank).

(** A data node that has persisted identity 3, started with two candidates. *)
Definition member_data_world : world := with_identity 3 founder_world.
Definition member_data_run := run_openServer [s1; s2] node0 member_data_world.

(** A node that holds a handle of every kind. *)
Definition serving_node : Node :=
  mkNode (Some 3) (Some 5) (Some 4) (Some cfg) "db1" (Some 6) (Some 1) (Some 2)
         [20; 21] (Some 30).

End Script.

(** ** Shapes of runs and of answer lists *)

(** Every answer in the list sends the loop on. *)
Definition all_retry (retry : option error -> bool) (answers : list (option error))
    : Prop :=
  Forall (fun r => retry r = true) answers.

(** The last answer ends the loop and every one before it sent the loop on. *)
Definition ends_loop (retry : option error -> bool) (answers : list (option error))
    : Prop :=
  exists init a, answers = init ++ [a] /\ all_retry retry init /\ retry a = false.

(** Events that are none of the log layer's membership calls. *)
Definition quiet_log (e : event) : bool :=
  match e with
  | ELastLogIndexTerm _ _ _ | ELogJoin _ _ _ | ELogInitialize _ _ => false
  | _ => true
  end.

(** Events that are neither a membership call of the data layer nor the
    grace delay. *)
Definition quiet_data (e : event) : bool :=
  match e with
  | EServerJoin _ _ _ _ | EServerInitialize _ _ _ | ESleep _ => false
  | _ => true
  end.

(** Events that read neither the index nor the identity. *)
Definition no_read (e : event) : bool :=
  match e with
  | ELastLogIndexTerm _ _ _ | EServerID _ _ => false
  | _ => true
  end.

(** The part of a trace behind the first [time.Sleep]. *)
Fixpoint after_sleep (evs : list event) : list event :=
  match evs with
  | [] => []
  | ESleep _ :: rest => rest
  | _ :: rest => after_sleep rest
  end.

(** The identity the data node reports right after the grace delay: the
    one [openServer] decides on. *)
Definition decisive_id (evs : list event) : option N :=
  match after_sleep evs with
  | EServerID _ id :: _ => Some id
  | _ => None
  end.

(** The outcome of a call that returns [b] once the call before it returned. *)
Definition returning {A B} (b : B) (o : outcome A) : outcome B :=
  match o with
  | Ret _ => Ret b
  | Fatal fmt args => Fatal fmt args
  | Panic p => Panic p
  end.

(** Answers that report success. *)
Definition succeeded (answers : list (option error)) : list (option error) :=
  filter (fun a => match a with None => true | Some _ => false end) answers.

(** What the loop of [joinOrInitializeServer] writes for the candidates that
    answered with an ordinary error: the call and the log line, one pair per
    candidate. *)
Definition failed_attempt (n : ref) (u : URL) (je : URL * error) : list event :=
  [EServerJoin n u (fst je) (Some (snd je));
   EPrintf "join: failed to connect data node: %s: %s" [VURL u; VError (snd je)]].

Definition failed_attempts (n : ref) (u : URL) (fails : list (URL * error))
    : list event :=
  flat_map (failed_attempt n u) fails.

(** What [n.Initialize(u)] and the lines around it write and how they end,
    given the answer [a] of the call. *)
Definition initialize_trace (n : ref) (u : URL) (a : option error) : list event :=
  EServerInitialize n u a ::
  match a with
  | Some _ => []
  | None => [EPrintf "initialized data node: %s\n" [VURL u]]
  end.

Definition initialize_outcome (tag : string) (a : option error) : outcome unit :=
  match a with
  | Some e => Fatal tag [VError e]
  | None => Ret tt
  end.

(** Events that are no join call of the data layer. *)
Definition no_server_join (e : event) : bool :=
  match e with
  | EServerJoin _ _ _ _ => false
  | _ => true
  end.

Section Shapes.

Context {W : Type} `{Collaborators W}.

(** A run with [evs] written before it. *)
Definition prepend {A} (evs : list event) (r : list event * outcome A * state W)
    : list event * outcome A * state W :=
  (evs ++ events r, result r, final r).

(** What a run of [openBroker] from node [n0] looks like: the process dies
    before the index is read, with no membership call made, or the index is
    read once and the rest is [bootstrap_log]; by then the broker and the
    raft log have been opened, in this order ([pending] lists what was
    opened before the run starts). *)
Definition log_run (brokerURLs : list URL) (n0 : Node) (pending : list obj)
    (r : list event * outcome unit * state W) : Prop :=
  (process_dies (result r) /\ forallb quiet_log (events r) = true)
  \/ exists pre b l st1,
       forallb quiet_log pre = true /\
       node st1 = set_raftLog (Some l) (set_Broker (Some b) n0) /\
       pending ++ acquired pre = [OBroker b; OLog l] /\
       let it := log_LastLogIndexTerm l (world st1) in
       r = prepend (pre ++ [ELastLogIndexTerm l (fst it) (snd it)])
                   (bootstrap_log b l (fst it) brokerURLs st1).

(** The same for [openServer]: the process dies before the grace delay, or
    the identity is read after the delay and the rest is
    [bootstrap_server]; by then the data node has been opened. *)
Definition data_run (joinURLs : list URL) (n0 : Node) (pending : list obj)
    (r : list event * outcome ref * state W) : Prop :=
  (process_dies (result r) /\ forallb quiet_data (events r) = true)
  \/ exists pre n st1,
       forallb quiet_data pre = true /\
       node st1 = n0 /\
       pending ++ acquired pre = [OServer n] /\
       let id := server_ID n (world st1) in
       r = prepend (pre ++ [ESleep (1 * second); EServerID n id])
                   (bootstrap_server n id joinURLs st1).

(** Closing the handles of a list one after the other and stopping at the
    first error: the events, the value returned and the world left. *)
Fixpoint close_seq (os : list obj) (w : W) : list event * option error * W :=
  match os with
  | [] => ([], None, w)
  | o :: rest =>
      let a := obj_Close o w in
      match fst a with
      | Some e => ([EClose o (Some e)], Some e, snd a)
      | None =>
          let c := close_seq rest (snd a) in
          (EClose o None :: fst (fst c), snd (fst c), snd c)
      end
  end.

(** [m] does what [close_seq] does on the handles [plan] picks from the
    node. *)
Definition closing (m : M W (option error)) (plan : Node -> list obj) : Prop :=
  forall n w,
    let c := close_seq (plan n) w in
    let r := m (mkState n w) in
    events r = fst (fst c) /\ result r = Ret (snd (fst c)) /\ world (final r) = snd c.

(** [m] leaves the fields of the node as they are. *)
Definition keeps_node {A} (m : M W A) : Prop :=
  forall st, node (final (m st)) = node st.

End Shapes.

(** ** Further readings of nodes and traces *)

(** The handles [Close] goes through behind the two listeners. *)
Definition service_plan (s : Node) : list obj :=
  opt_obj OAdmin (adminServer s) ++
  map OGraphite (GraphiteServers s) ++
  opt_obj OOpenTSDB (OpenTSDBServer s) ++
  opt_obj OServer (DataNode s) ++
  opt_obj OLog (raftLog s) ++
  opt_obj OBroker (Broker s).

(** Two nodes that differ at most in their two listener fields. *)
Definition same_services (n n' : Node) : Prop :=
  Broker n' = Broker n /\ DataNode n' = DataNode n /\ raftLog n' = raftLog n /\
  config n' = config n /\ hostname n' = hostname n /\
  adminServer n' = adminServer n /\ GraphiteServers n' = GraphiteServers n /\
  OpenTSDBServer n' = OpenTSDBServer n.

(** Two nodes that differ at most in [Broker] and [raftLog]. *)
Definition same_but_log_layer (n n' : Node) : Prop :=
  DataNode n' = DataNode n /\ config n' = config n /\ hostname n' = hostname n /\
  adminServer n' = adminServer n /\ clusterListener n' = clusterListener n /\
  apiListener n' = apiListener n /\ GraphiteServers n' = GraphiteServers n /\
  OpenTSDBServer n' = OpenTSDBServer n.

(** The goroutines started, the listens tried and the closes called. *)
Definition serve_of (e : event) : option (string * string * ref * ref) :=
  match e with EServe d a l h => Some (d, a, l, h) | _ => None end.
Definition serves : list event -> list (string * string * ref * ref) := pick serve_of.

(** The calls that open something, with their answers: broker, raft log,
    messaging client, data node. *)
Definition open_of (e : event) : option (obj * option error) :=
  match e with
  | EBrokerOpen b _ r => Some (OBroker b, r)
  | ELogOpen l _ r => Some (OLog l, r)
  | EClientOpen c _ r => Some (OClient c, r)
  | EServerOpen n _ _ r => Some (OServer n, r)
  | _ => None
  end.
Definition opens : list event -> list (obj * option error) := pick open_of.

(** What each of these calls was given: the path, and for the data node
    the messaging client as well. *)
Definition open_arg_of (e : event) : option (obj * string * option ref) :=
  match e with
  | EBrokerOpen b p _ => Some (OBroker b, p, None)
  | ELogOpen l p _ => Some (OLog l, p, None)
  | EClientOpen c p _ => Some (OClient c, p, None)
  | EServerOpen n p c _ => Some (OServer n, p, Some c)
  | _ => None
  end.
Definition open_args : list event -> list (obj * string * option ref) :=
  pick open_arg_of.

(** What was written to fields of the handler. *)
Definition handler_write_of (e : event) : option (ref * string * value) :=
  match e with
  | ESet (OHandler h) f v => Some (h, f, v)
  | _ => None
  end.
Definition handler_writes : list event -> list (ref * string * value) :=
  pick handler_write_of.

(** Data nodes created, and the lists of broker URLs the messaging client
    reported. *)
Definition new_server_of (e : event) : option ref :=
  match e with ENewServer n => Some n | _ => None end.
Definition new_servers : list event -> list ref := pick new_server_of.
Definition client_urls_of (e : event) : option (list URL) :=
  match e with EClientURLs _ us => Some us | _ => None end.
Definition client_urls_reads : list event -> list (list URL) := pick client_urls_of.

(** The candidates of the data layer's join calls, and the local URLs the
    calls were given. *)
Definition join_candidates (evs : list event) : list URL :=
  map (fun x => snd (fst x)) (server_joins evs).
Definition join_answers (evs : list event) : list (option error) :=
  map snd (server_joins evs).

(** Events [openBroker] writes while it creates and configures broker, raft
    log and clock, before it opens anything. *)
Definition broker_setup_event (e : event) : bool :=
  match e with
  | EListenerAddr _ _ | ENewBroker _ | ENewLog _ | ENewClock _ | ELogSetURL _ _ => true
  | ESet (OHandler _) _ _ => false
  | ESet _ _ _ => true
  | _ => false
  end.

(** Events of the log layer's bootstrap: joins, initialize, and the lines
    around them. *)
Definition log_bootstrap_event (e : event) : bool :=
  match e with
  | ELogJoin _ _ _ | ELogInitialize _ _ | EBrokerURL _ _ | EPrintf _ _ => true
  | _ => false
  end.

(** Events [openServer] writes before it opens the messaging client. *)
Definition client_setup_event (e : event) : bool :=
  match e with
  | EListenerAddr _ _ | ENewMessagingClient _ _ | EClientSetURLs _ _ => true
  | _ => false
  end.

(** Assignments to fields of one data node. *)
Definition server_field_event (n : ref) (e : event) : bool :=
  match e with
  | ESet (OServer n') _ _ => Nat.eqb n' n
  | _ => false
  end.

(** Events of the data layer's bootstrap. *)
Definition data_bootstrap_event (e : event) : bool :=
  match e with
  | EListenerAddr _ _ | EServerJoin _ _ _ _ | EServerInitialize _ _ _
  | EPrintf _ _ => true
  | _ => false
  end.

Section Stages.

Context {W : Type} `{Collaborators W}.
Variable messagingClientFile : string.
Variable filepath_Join : string -> string -> string.

(** A run of [openBroker] from the creation of the broker on, for a node
    [n0] with configuration [c]: the set-up, then the broker fails to open,
    or the raft log fails to open, or both open, the handler is given both
    and the index is read. *)
Definition broker_open_run (brokerURLs : list URL) (h : ref) (c : Config) (n0 : Node)
    (r : list event * outcome unit * state W) : Prop :=
  let path := BrokerDir c in
  exists setup b l,
    forallb broker_setup_event setup = true /\
    ((exists e st',
         node st' = set_raftLog (Some l) (set_Broker (Some b) n0) /\
         r = (setup ++ [EBrokerOpen b path (Some e)],
              Fatal "failed to open broker at %s : %s" [VString path; VError e],
              st'))
     \/ (exists e st',
           node st' = set_raftLog (Some l) (set_Broker (Some b) n0) /\
           r = (setup ++
                [EBrokerOpen b path None;
                 EPrintf "broker opened at %s" [VString path];
                 ESet (OLog l) "FSM" (VRaftFSM b);
                 ELogOpen l (filepath_Join path "raft") (Some e)],
                Fatal "raft: %s" [VError e],
                st'))
     \/ (exists st1,
           node st1 = set_raftLog (Some l) (set_Broker (Some b) n0) /\
           let it := log_LastLogIndexTerm l (world st1) in
           r = prepend
                 (setup ++
                  [EBrokerOpen b path None;
                   EPrintf "broker opened at %s" [VString path];
                   ESet (OLog l) "FSM" (VRaftFSM b);
                   ELogOpen l (filepath_Join path "raft") None;
                   ESet (OHandler h) "Broker" (VRef (OBroker b));
                   ESet (OHandler h) "Log" (VRef (OLog l));
                   ELastLogIndexTerm l (fst it) (snd it)])
                 (bootstrap_log b l (fst it) brokerURLs st1))).

(** A run of [openServer] from the creation of data node [n] on, with
    messaging client [c]: the fields are set, then the data node fails to
    open, or it opens, its identity is logged, and after the grace delay the
    identity is read again. *)
Definition server_open_run (joinURLs : list URL) (cfg : Config) (n0 : Node) (c n : ref)
    (r : list event * outcome ref * state W) : Prop :=
  let dir := Data_Dir cfg in
  exists sets,
    forallb (server_field_event n) sets = true /\
    ((exists e st',
         node st' = n0 /\
         r = (sets ++ [EServerOpen n dir c (Some e)],
              Fatal "failed to open data node: %v" [VError e],
              st'))
     \/ (exists id0 st1,
           node st1 = n0 /\
           let id := server_ID n (world st1) in
           r = prepend
                 (sets ++
                  [EServerOpen n dir c None;
                   EServerID n id0;
                   EPrintf "data node(%d) opened at %s" [VUint id0; VString dir];
                   ESleep (1 * second);
                   EServerID n id])
                 (bootstrap_server n id joinURLs st1))).

(** A run of [openServer] from the creation of the messaging client on. *)
Definition client_open_run (joinURLs : list URL) (n0 : Node)
    (r : list event * outcome ref * state W) : Prop :=
  exists setup,
    forallb client_setup_event setup = true /\
    ((exists st',
         config n0 = None /\ node st' = n0 /\
         r = (setup, Panic PNilDereference, st'))
     \/ (exists cfg c,
           config n0 = Some cfg /\
           let file := filepath_Join (Data_Dir cfg) messagingClientFile in
           ((exists e st',
                node st' = n0 /\
                r = (setup ++ [EClientOpen c file (Some e)],
                     Fatal "messaging client error: %s" [VError e],
                     st'))
            \/ (exists st',
                  node st' = n0 /\
                  r = (setup ++ [EClientOpen c file None; EClientURLs c []],
                       Fatal "messaging client has no broker URLs" [],
                       st'))
            \/ (exists us n r',
                  us <> [] /\
                  server_open_run joinURLs cfg n0 c n r' /\
                  r = prepend (setup ++
                               [EClientOpen c file None; EClientURLs c us; ENewServer n])
                              r')))).

End Stages.

(** * Proofs *)

(** ** The library functions on concrete addresses *)

Example SplitHostPort_v6 : SplitHostPort "[::]:8086" = inl ("::", "8086").
Proof. reflexivity. Qed.
Example SplitHostPort_v4 : SplitHostPort "127.0.0.1:8086" = inl ("127.0.0.1", "8086").
Proof. reflexivity. Qed.
Example SplitHostPort_no_port : SplitHostPort "localhost" = inr (AddrError missingPort "localhost").
Proof. reflexivity. Qed.
Example Itoa_positive : Itoa 8083 = "8083". Proof. reflexivity. Qed.
Example Itoa_negative : Itoa (-5) = "-5". Proof. reflexivity. Qed.

(** ** Splitting what was joined *)

Section Strings.
Local Open Scope string_scope.

Lemma length_app (a b : string) : String.length (a ++ b) = String.length a + String.length b.
Proof. induction a as [|c a IH]; cbn; [reflexivity | rewrite IH; reflexivity]. Qed.

Lemma substring_all (s : string) : substring 0 (String.length s) s = s.
Proof. induction s as [|c s IH]; cbn; [reflexivity | rewrite IH; reflexivity]. Qed.

Lemma substring_prefix (a b : string) : substring 0 (String.length a) (a ++ b) = a.
Proof.
  induction a as [|c a IH]; cbn.
  - destruct b; reflexivity.
  - rewrite IH. reflexivity.
Qed.

Lemma substring_skip (a b : string) n m :
  substring (String.length a + n) m (a ++ b) = substring n m b.
Proof. induction a as [|c a IH]; cbn; [reflexivity | exact IH]. Qed.

Lemma slice_from_skip (a b : string) :
  slice_from (a ++ b) (String.length a) = b.
Proof.
  unfold slice_from. rewrite length_app.
  replace (String.length a + String.length b - String.length a) with (String.length b) by lia.
  rewrite <- (Nat.add_0_r (String.length a)) at 1.
  rewrite substring_skip. apply substring_all.
Qed.

Lemma IndexByte_app_none (a b : string) c :
  IndexByte a c = None -> IndexByte b c = None -> IndexByte (a ++ b) c = None.
Proof.
  intros Ha Hb. induction a as [|x a IH]; cbn in *; [exact Hb|].
  destruct (Ascii.eqb x c); [discriminate Ha|].
  destruct (IndexByte a c); [discriminate Ha|]. rewrite IH; reflexivity.
Qed.

Lemma IndexByte_app_first (a b : string) c :
  IndexByte a c = None -> IndexByte (a ++ String c b) c = Some (String.length a).
Proof.
  intros Ha. induction a as [|x a IH]; cbn in *.
  - rewrite Ascii.eqb_refl. reflexivity.
  - destruct (Ascii.eqb x c); [discriminate Ha|].
    destruct (IndexByte a c); [discriminate Ha|]. rewrite IH; reflexivity.
Qed.

Lemma LastIndexByte_none (s : string) c : IndexByte s c = None -> LastIndexByte s c = None.
Proof.
  induction s as [|x s IH]; cbn; [reflexivity|].
  destruct (Ascii.eqb x c); [discriminate|].
  destruct (IndexByte s c); [discriminate|]. intros _. rewrite IH; reflexivity.
Qed.

Lemma LastIndexByte_app_last (a b : string) c :
  IndexByte b c = None -> LastIndexByte (a ++ String c b) c = Some (String.length a).
Proof.
  intros Hb. induction a as [|x a IH]; cbn.
  - rewrite (LastIndexByte_none _ _ Hb), Ascii.eqb_refl. reflexivity.
  - rewrite IH. reflexivity.
Qed.

Lemma lacks_cons x s c : lacks c (String x s) -> Ascii.eqb x c = false /\ lacks c s.
Proof.
  unfold lacks. cbn. destruct (Ascii.eqb x c); [discriminate|].
  destruct (IndexByte s c); [discriminate|]. split; reflexivity.
Qed.

Lemma append_assoc' (a b c : string) : (a ++ b) ++ c = a ++ (b ++ c).
Proof. induction a as [|x a IH]; cbn; [reflexivity | rewrite IH; reflexivity]. Qed.

Lemma slice_from_port (a port : string) c :
  slice_from (a ++ String c port) (String.length a + 1) = port.
Proof.
  change (a ++ String c port) with (a ++ (String c "" ++ port)).
  rewrite <- append_assoc'.
  replace (String.length a + 1) with (String.length (a ++ String c "")).
  - apply slice_from_skip.
  - rewrite length_app. reflexivity.
Qed.

Lemma slice_from_0 (s : string) : slice_from s 0 = s.
Proof. unfold slice_from. rewrite Nat.sub_0_r. apply substring_all. Qed.

Lemma SplitHostPort_plain (host port : string) :
  lacks ":" host -> lacks "[" host -> lacks "]" host ->
  lacks ":" port -> lacks "[" port -> lacks "]" port ->
  SplitHostPort (host ++ ":" ++ port) = inl (host, port).
Proof.
  intros Hc Hl Hr Pc Pl Pr. unfold SplitHostPort.
  change (host ++ ":" ++ port) with (host ++ String ":" port).
  rewrite (LastIndexByte_app_last host port ":" Pc).
  assert (H0 : byte_is (host ++ String ":" port) 0 "[" = false).
  { destruct host as [|x host]; [reflexivity|]. apply lacks_cons in Hl as [Hx _]. exact Hx. }
  rewrite H0. unfold slice. rewrite Nat.sub_0_r, substring_prefix, Hc.
  rewrite slice_from_0.
  rewrite (IndexByte_app_none host (String ":" port) "[" Hl)
    by (cbn; rewrite Pl; reflexivity).
  rewrite (IndexByte_app_none host (String ":" port) "]" Hr)
    by (cbn; rewrite Pr; reflexivity).
  rewrite slice_from_port. reflexivity.
Qed.

Lemma SplitHostPort_bracketed (host port : string) :
  lacks "[" host -> lacks "]" host ->
  lacks ":" port -> lacks "[" port -> lacks "]" port ->
  SplitHostPort ("[" ++ host ++ "]:" ++ port) = inl (host, port).
Proof.
  intros Hl Hr Pc Pl Pr. unfold SplitHostPort.
  set (a := String "[" host).
  assert (Hs : "[" ++ host ++ "]:" ++ port = (a ++ String "]" "") ++ String ":" port).
  { unfold a. cbn. f_equal. rewrite append_assoc'. reflexivity. }
  rewrite Hs.
  rewrite (LastIndexByte_app_last (a ++ String "]" "") port ":" Pc).
  assert (H0 : byte_is ((a ++ String "]" "") ++ String ":" port) 0 "[" = true) by reflexivity.
  rewrite H0.
  assert (He : IndexByte ((a ++ String "]" "") ++ String ":" port) "]" = Some (String.length a)).
  { rewrite append_assoc'. apply IndexByte_app_first. unfold a. cbn. rewrite Hr. reflexivity. }
  rewrite He.
  assert (Hlen : String.length ((a ++ String "]" "") ++ String ":" port)
                 = String.length a + 1 + S (String.length port)).
  { rewrite !length_app. reflexivity. }
  rewrite Hlen.
  replace (Nat.eqb (String.length a + 1) (String.length a + 1 + S (String.length port))) with false
    by (symmetry; apply Nat.eqb_neq; lia).
  rewrite length_app. cbn [String.length]. rewrite Nat.eqb_refl.
  assert (Hhost : slice ((a ++ String "]" "") ++ String ":" port) 1 (String.length a) = host).
  { unfold slice, a. cbn [String.length]. rewrite Nat.sub_succ, Nat.sub_0_r.
    cbn [append substring]. rewrite append_assoc'. apply substring_prefix. }
  rewrite Hhost.
  assert (H1 : slice_from ((a ++ String "]" "") ++ String ":" port) 1
               = host ++ String "]" (String ":" port)).
  { change 1 with (String.length "[").
    unfold a. change (String "[" host) with ("[" ++ host).
    rewrite !append_assoc'. rewrite slice_from_skip. reflexivity. }
  rewrite H1.
  rewrite (IndexByte_app_none host _ "[" Hl) by (cbn; rewrite Pl; reflexivity).
  assert (H2 : slice_from ((a ++ String "]" "") ++ String ":" port) (String.length a + 1)
               = String ":" port).
  { rewrite append_assoc'. cbn [append]. apply slice_from_port. }
  rewrite H2. cbn [IndexByte Ascii.eqb Bool.eqb]. rewrite Pr.
  assert (H3 : slice_from ((a ++ String "]" "") ++ String ":" port)
                 (String.length a + 1 + 1) = port).
  { replace (String.length a + 1) with (String.length (a ++ String "]" ""))
      by (rewrite length_app; reflexivity).
    apply slice_from_port. }
  rewrite H3. reflexivity.
Qed.

Lemma SplitHostPort_JoinHostPort (host port : string) :
  lacks "[" host -> lacks "]" host ->
  lacks ":" port -> lacks "[" port -> lacks "]" port ->
  SplitHostPort (JoinHostPort host port) = inl (host, port).
Proof.
  intros Hl Hr Pc Pl Pr. unfold JoinHostPort.
  destruct (IndexByte host ":") eqn:Hc.
  - apply SplitHostPort_bracketed; assumption.
  - apply SplitHostPort_plain; assumption.
Qed.
End Strings.

(** ** Running the monad one step at a time *)

Section Steps.
Context {W : Type} `{Collaborators W}.

Lemma run_eta {A} (r : list event * outcome A * state W) :
  r = (events r, result r, final r).
Proof. destruct r as [[e o] s]. reflexivity. Qed.

Lemma prepend_nil {A} (r : list event * outcome A * state W) : prepend [] r = r.
Proof. destruct r as [[e o] s]. reflexivity. Qed.

Lemma events_prepend {A} evs (r : list event * outcome A * state W) :
  events (prepend evs r) = evs ++ events r.
Proof. reflexivity. Qed.

Lemma result_prepend {A} evs (r : list event * outcome A * state W) :
  result (prepend evs r) = result r.
Proof. reflexivity. Qed.

Lemma final_prepend {A} evs (r : list event * outcome A * state W) :
  final (prepend evs r) = final r.
Proof. reflexivity. Qed.

Lemma prepend_prepend {A} e1 e2 (r : list event * outcome A * state W) :
  prepend e1 (prepend e2 r) = prepend (e1 ++ e2) r.
Proof. unfold prepend. cbn. rewrite app_assoc. reflexivity. Qed.

Lemma bind_ret {A B} (a : A) (k : A -> M W B) st : bind (ret a) k st = k a st.
Proof. unfold bind, ret. destruct (k a st) as [[e o] s]. reflexivity. Qed.

Lemma bind_fatal {A B} fmt args (k : A -> M W B) st :
  bind (fatal fmt args) k st = ([], Fatal fmt args, st).
Proof. reflexivity. Qed.

Lemma bind_panic {A B} p (k : A -> M W B) st :
  bind (panic p) k st = ([], Panic p, st).
Proof. reflexivity. Qed.

Lemma bind_get_node {B} (k : Node -> M W B) st :
  bind get_node k st = k (node st) st.
Proof. unfold bind, get_node. destruct (k (node st) st) as [[e o] s]. reflexivity. Qed.

Lemma bind_modify_node {B} f (k : unit -> M W B) st :
  bind (modify_node f) k st = k tt (mkState (f (node st)) (world st)).
Proof. unfold bind, modify_node. destruct (k tt _) as [[e o] s]. reflexivity. Qed.

Lemma bind_call {A B} (f : W -> A * W) ev (k : A -> M W B) st :
  bind (call f ev) k st =
  prepend [ev (fst (f (world st)))]
          (k (fst (f (world st))) (mkState (node st) (snd (f (world st))))).
Proof. unfold bind, call, prepend. destruct (k _ _) as [[e o] s]. reflexivity. Qed.

Lemma bind_call_ {B} (f : W -> W) ev (k : unit -> M W B) st :
  bind (call_ f ev) k st = prepend [ev] (k tt (mkState (node st) (f (world st)))).
Proof. unfold bind, call_, prepend. destruct (k _ _) as [[e o] s]. reflexivity. Qed.

Lemma bind_set {B} o fld v (k : unit -> M W B) st :
  bind (set o fld v) k st =
  prepend [ESet o fld v] (k tt (mkState (node st) (set_field o fld v (world st)))).
Proof. apply bind_call_. Qed.

Lemma bind_read {A B} (f : W -> A) ev (k : A -> M W B) st :
  bind (read f ev) k st = prepend [ev (f (world st))] (k (f (world st)) st).
Proof. unfold bind, read, prepend. destruct (k _ _) as [[e o] s]. reflexivity. Qed.

Lemma bind_Printf {B} fmt args (k : unit -> M W B) st :
  bind (Printf fmt args) k st = prepend [EPrintf fmt args] (k tt st).
Proof. unfold bind, Printf, emit, prepend. destruct (k _ _) as [[e o] s]. reflexivity. Qed.

Lemma bind_fatal_if {B} err fmt args (k : unit -> M W B) st :
  bind (fatal_if err fmt args) k st =
  match err with
  | Some e => ([], Fatal fmt (args e), st)
  | None => k tt st
  end.
Proof. destruct err; [reflexivity | apply bind_ret]. Qed.

Lemma bind_assoc {A B C} (m : M W A) (f : A -> M W B) (g : B -> M W C) st :
  bind (bind m f) g st = bind m (fun a => bind (f a) g) st.
Proof.
  unfold bind. destruct (m st) as [[e [a|fm ar|p]] s]; try reflexivity.
  destruct (f a s) as [[e' [b|fm ar|p]] s']; try reflexivity.
  destruct (g b s') as [[e'' o] s'']. rewrite app_assoc. reflexivity.
Qed.

Lemma bind_ret_r {A} (m : M W A) st : bind m ret st = m st.
Proof.
  unfold bind. destruct (m st) as [[e [a|fm ar|p]] s]; try reflexivity.
  cbn. rewrite app_nil_r. reflexivity.
Qed.

Lemma bind_prepend {A B} (m : M W A) (k : A -> M W B) st :
  bind m k st =
  match result (m st) with
  | Ret a => prepend (events (m st)) (k a (final (m st)))
  | Fatal f a => (events (m st), Fatal f a, final (m st))
  | Panic p => (events (m st), Panic p, final (m st))
  end.
Proof.
  unfold bind, prepend. destruct (m st) as [[e [a|fm ar|p]] s]; cbn; try reflexivity.
  destruct (k a s) as [[e' o] s']. reflexivity.
Qed.

End Steps.

Ltac step :=
  first
    [ rewrite bind_assoc
    | rewrite bind_ret
    | rewrite bind_get_node
    | rewrite bind_modify_node
    | rewrite bind_call
    | rewrite bind_call_
    | rewrite bind_set
    | rewrite bind_read
    | rewrite bind_Printf
    | rewrite bind_fatal_if
    | rewrite bind_fatal
    | rewrite bind_panic ];
  cbn [node world].


(** Forgetting how a world was reached, and naming the answer of a call. *)
Ltac forget_world :=
  match goal with
  | |- context [mkState ?n ?w] =>
      tryif is_var w then fail else (generalize w; intro)
  end.

Ltac split_call :=
  match goal with
  | |- context [fst (?f ?w)] =>
      let a := fresh "a" in
      let w' := fresh "w" in
      destruct (f w) as [a w']; cbn [fst snd]
  end.

(** ** Traces *)

Lemma pick_app {X} (f : event -> option X) (a b : list event) :
  pick f (a ++ b) = pick f a ++ pick f b.
Proof.
  induction a as [|e a IH]; cbn; [reflexivity|].
  destruct (f e); cbn; rewrite IH; reflexivity.
Qed.

Lemma pick_quiet {X} (f : event -> option X) (q : event -> bool) (evs : list event) :
  (forall e, q e = true -> f e = None) ->
  forallb q evs = true -> pick f evs = [].
Proof.
  intros Hq. induction evs as [|e evs IH]; cbn; [reflexivity|].
  intros Hall. apply andb_true_iff in Hall as [He Hall].
  rewrite (Hq e He). auto.
Qed.

Lemma quiet_log_picks (evs : list event) :
  forallb quiet_log evs = true ->
  log_joins evs = [] /\ log_initializes evs = [] /\ index_reads evs = [].
Proof.
  intros Hq. repeat split;
    (apply (pick_quiet _ quiet_log); [intros [] He; (reflexivity || discriminate He) | exact Hq]).
Qed.

Lemma quiet_log_no_index (evs : list event) l i t :
  forallb quiet_log evs = true -> ~ In (ELastLogIndexTerm l i t) evs.
Proof.
  intros Hq Hin. rewrite forallb_forall in Hq. specialize (Hq _ Hin). discriminate Hq.
Qed.

(** ** The log layer *)

Section LogLayer.
Context {W : Type} `{Collaborators W}.
Variable filepath_Join : string -> string -> string.

Lemma log_run_cons urls n0 pending e (r : list event * outcome unit * state W) :
  quiet_log e = true ->
  log_run urls n0 (pending ++ acquired [e]) r ->
  log_run urls n0 pending (prepend [e] r).
Proof.
  intros He [[Hd Hq]|(pre & b & l & st1 & Hq & Hn & Ha & Hr)].
  - left. split; [exact Hd|]. cbn. rewrite He. exact Hq.
  - right. exists (e :: pre), b, l, st1. split; [cbn; rewrite He; exact Hq|].
    split; [exact Hn|]. split.
    + rewrite <- Ha, <- app_assoc. f_equal.
      change (e :: pre) with ([e] ++ pre). apply pick_app.
    + cbn zeta in *. rewrite Hr. rewrite prepend_prepend. reflexivity.
Qed.

Lemma log_run_dies urls n0 pending (o : outcome unit) (st : state W) :
  process_dies o -> log_run urls n0 pending ([], o, st).
Proof. intros Hd. left. split; [exact Hd | reflexivity]. Qed.

Lemma openBroker_run urls h (st : state W) :
  log_run urls (node st) [] (openBroker filepath_Join urls h st).
Proof.
  destruct st as [n w]. cbn [node].
  unfold openBroker, the_config, ClusterURL, ClusterAddr.
  repeat step.
  destruct (config n) as [c|]; [|step; apply log_run_dies; exact I].
  repeat step.
  destruct (clusterListener n) as [cl|]; [|repeat step; apply log_run_dies; exact I].
  repeat step.
  apply log_run_cons; [reflexivity|].
  destruct (SplitHostPort _) as [[hh p]|e]; [|repeat step; apply log_run_dies; exact I].
  do 3 step.
  repeat
    (lazymatch goal with
     | |- log_run _ _ _ (bind (read (log_LastLogIndexTerm _) _) _ _) => fail
     | |- log_run _ _ _ (bind _ _ _) =>
         step; try split_call; try (apply log_run_cons; [reflexivity|]);
         try forget_world
     | |- log_run _ _ _ (match ?x with Some _ => _ | None => _ end) =>
         destruct x; [apply log_run_dies; exact I|]
     end).
  right.
  match goal with
  | |- context [bind (read (log_LastLogIndexTerm ?l) _) _ ?st] =>
      match goal with
      | |- context [EBrokerURL ?b] => exists [], b, l, st
      end
  end.
  split; [reflexivity|]. split; [reflexivity|]. split; [reflexivity|].
  cbn zeta. rewrite bind_read. reflexivity.
Qed.

Lemma all_retry_cons retry a answers :
  retry a = true -> all_retry retry answers -> all_retry retry (a :: answers).
Proof. intros Ha Hall. constructor; assumption. Qed.

Lemma ends_loop_one retry a : retry a = false -> ends_loop retry [a].
Proof. intros Ha. exists [], a. repeat split; [constructor | exact Ha]. Qed.

Lemma ends_loop_cons retry a answers :
  retry a = true -> ends_loop retry answers -> ends_loop retry (a :: answers).
Proof.
  intros Ha (init & b & -> & Hall & Hb).
  exists (a :: init), b. repeat split; [constructor; assumption | exact Hb].
Qed.

(** The loop of [joinLog]: the seeds tried are a prefix of the list, in its
    order; the loop returns at the first answer that is no ordinary error and
    is fatal when every seed answered with one. *)
Lemma joinLog_run l urls (st : state W) :
  let r := joinLog l urls st in
  index_reads (events r) = [] /\ log_initializes (events r) = [] /\
  node (final r) = node st /\
  exists rest, urls = map fst (log_joins (events r)) ++ rest /\
    ((result r = Ret tt /\
      ends_loop log_join_retry (map snd (log_joins (events r))))
     \/ (result r = Fatal "join: failed to connect raft log to any specified server" [] /\
         rest = [] /\
         all_retry log_join_retry (map snd (log_joins (events r))))).
Proof.
  cbn zeta. revert st. induction urls as [|u urls IH]; intros st; cbn [joinLog].
  - repeat split. exists []. split; [reflexivity|]. right. repeat split. constructor.
  - rewrite bind_call.
    destruct (log_Join l u (world st)) as [r w'] eqn:Ej. cbn [fst snd].
    destruct r as [e|].
    + assert (Hretry : e <> ErrInitialized ->
        let r := prepend [ELogJoin l u (Some e)]
                   (bind (Printf "join: failed to connect to raft cluster: %s: %s"
                                 [VURL u; VError e])
                         (fun _ => joinLog l urls) (mkState (node st) w')) in
        index_reads (events r) = [] /\ log_initializes (events r) = [] /\
        node (final r) = node st /\
        exists rest, u :: urls = map fst (log_joins (events r)) ++ rest /\
          ((result r = Ret tt /\
            ends_loop log_join_retry (map snd (log_joins (events r))))
           \/ (result r = Fatal "join: failed to connect raft log to any specified server" [] /\
               rest = [] /\
               all_retry log_join_retry (map snd (log_joins (events r)))))).
      { intros Hne. cbn zeta. rewrite bind_Printf.
        destruct (IH (mkState (node st) w')) as (Hi & Hini & Hn & rest & Hu & Hc).
        rewrite !events_prepend, !result_prepend, !final_prepend.
        unfold index_reads, log_initializes, log_joins in *.
        rewrite !pick_app. cbn [pick index_read_of log_initialize_of log_join_of app map fst snd].
        repeat split; try assumption.
        exists rest. split; [f_equal; exact Hu|].
        assert (Hr : log_join_retry (Some e) = true) by (destruct e; congruence || reflexivity).
        destruct Hc as [[Hres Hend]|(Hres & Hrest & Hall)].
        - left. split; [exact Hres|]. apply ends_loop_cons; assumption.
        - right. repeat split; try assumption. apply all_retry_cons; assumption. }
      destruct e; try (apply Hretry; discriminate).
      clear Hretry. unfold ret, prepend. cbn.
      repeat split. exists urls. split; [reflexivity|]. left. split; [reflexivity|].
      apply ends_loop_one. reflexivity.
    + rewrite bind_Printf. unfold ret, prepend. cbn.
      repeat split. exists urls. split; [reflexivity|]. left. split; [reflexivity|].
      apply ends_loop_one. reflexivity.
Qed.

Lemma index_reads_none (evs : list event) l i t :
  index_reads evs = [] -> ~ In (ELastLogIndexTerm l i t) evs.
Proof.
  unfold index_reads. induction evs as [|e evs IH]; cbn; [tauto|].
  intros Hp [He|Hin].
  - subst e. discriminate Hp.
  - destruct (index_read_of e); [discriminate Hp | exact (IH Hp Hin)].
Qed.

(** The three ways [openBroker] goes on once the index is read. *)
Lemma bootstrap_log_member b l index urls (st : state W) :
  index <> 0%N ->
  bootstrap_log b l index urls st =
  ([EPrintf "broker already member of cluster.  Using existing state and ignoring join URLs" []],
   Ret tt, st).
Proof.
  intros Hi. unfold bootstrap_log. apply N.eqb_neq in Hi. rewrite Hi. reflexivity.
Qed.

Lemma bootstrap_log_join b l urls (st : state W) :
  urls <> [] -> bootstrap_log b l 0%N urls st = joinLog l urls st.
Proof.
  intros Hu. unfold bootstrap_log. destruct urls; [congruence | reflexivity].
Qed.

Lemma bootstrap_log_initialize b l (st : state W) :
  bootstrap_log b l 0%N [] st =
  let a := log_Initialize l (world st) in
  let st' := mkState (node st) (snd a) in
  match fst a with
  | Some e =>
      ([ELogInitialize l (Some e)], Fatal "initialize raft log: %s" [VError e], st')
  | None =>
      ([ELogInitialize l None; EBrokerURL b (broker_URL b (snd a));
        EPrintf "initialized broker: %s\n" [VURL (broker_URL b (snd a))]],
       Ret tt, st')
  end.
Proof.
  unfold bootstrap_log. cbn [N.eqb Nat.ltb Nat.leb List.length].
  rewrite bind_call. destruct (log_Initialize l (world st)) as [[e|] w']; cbn [fst snd].
  - rewrite bind_fatal_if. reflexivity.
  - rewrite bind_fatal_if, bind_read. reflexivity.
Qed.

Lemma bootstrap_log_reads_no_index b l index urls (st : state W) :
  index_reads (events (bootstrap_log b l index urls st)) = [].
Proof.
  destruct (N.eq_dec index 0) as [->|Hi].
  - destruct urls as [|u urls].
    + rewrite bootstrap_log_initialize. cbn zeta.
      destruct (fst (log_Initialize l (world st))); reflexivity.
    + rewrite bootstrap_log_join by discriminate.
      apply (joinLog_run l (u :: urls) st).
  - rewrite bootstrap_log_member by exact Hi. reflexivity.
Qed.

(** When the trace of [openBroker] shows a read of the index, the run is the
    set-up, that read, and [bootstrap_log] on the index read. *)
Lemma openBroker_index_read urls h (st : state W) l index term :
  In (ELastLogIndexTerm l index term) (events (openBroker filepath_Join urls h st)) ->
  exists pre b st1,
    forallb quiet_log pre = true /\
    node st1 = set_raftLog (Some l) (set_Broker (Some b) (node st)) /\
    log_LastLogIndexTerm l (world st1) = (index, term) /\
    openBroker filepath_Join urls h st =
    prepend (pre ++ [ELastLogIndexTerm l index term])
            (bootstrap_log b l index urls st1).
Proof.
  intros Hin.
  destruct (openBroker_run urls h st) as [[_ Hq]|(pre & b & l' & st1 & Hq & Hn & _ & Hr)].
  - exfalso. exact (quiet_log_no_index _ _ _ _ Hq Hin).
  - cbn zeta in Hr. rewrite Hr in Hin. rewrite events_prepend in Hin.
    apply in_app_or in Hin as [Hin|Hin].
    + apply in_app_or in Hin as [Hin|[Heq|[]]].
      * exfalso. exact (quiet_log_no_index _ _ _ _ Hq Hin).
      * injection Heq as -> Hi Ht.
        exists pre, b, st1. repeat split; try assumption.
        -- rewrite (surjective_pairing (log_LastLogIndexTerm l (world st1))).
           rewrite Hi, Ht. reflexivity.
        -- rewrite Hr, Hi, Ht. reflexivity.
    + exfalso.
      exact (index_reads_none _ _ _ _ (bootstrap_log_reads_no_index _ _ _ _ _) Hin).
Qed.

(** The trace of [openBroker] cut at the read of the index. *)
Lemma log_picks_split pre l index term (tail : list event) :
  forallb quiet_log pre = true ->
  log_joins ((pre ++ [ELastLogIndexTerm l index term]) ++ tail) = log_joins tail /\
  log_initializes ((pre ++ [ELastLogIndexTerm l index term]) ++ tail)
  = log_initializes tail /\
  index_reads ((pre ++ [ELastLogIndexTerm l index term]) ++ tail)
  = index :: index_reads tail.
Proof.
  intros Hq. destruct (quiet_log_picks pre Hq) as (Hj & Hi & Hr).
  unfold log_joins, log_initializes, index_reads in *.
  rewrite !pick_app, Hj, Hi, Hr. repeat split.
Qed.

(** C2.  When the raft log opened by [openBroker] reports a last index other
    than 0, no seed is tried and [Initialize] is not called, whatever the
    list of seeds; the call returns, and the last thing it does is to log
    that the broker is already a member of the cluster. *)
Theorem openBroker_member_ignores_seeds urls h (st : state W) l index term :
  In (ELastLogIndexTerm l index term) (events (openBroker filepath_Join urls h st)) ->
  index <> 0%N ->
  let run := openBroker filepath_Join urls h st in
  log_joins (events run) = [] /\
  log_initializes (events run) = [] /\
  result run = Ret tt /\
  exists pre,
    events run = pre ++
      [EPrintf "broker already member of cluster.  Using existing state and ignoring join URLs" []].
Proof.
  intros Hin Hi. cbn zeta.
  destruct (openBroker_index_read urls h st l index term Hin)
    as (pre & b & st1 & Hq & _ & _ & Hrun).
  rewrite Hrun, (bootstrap_log_member b l index urls st1 Hi).
  rewrite events_prepend, result_prepend.
  destruct (log_picks_split pre l index term
              [EPrintf "broker already member of cluster.  Using existing state and ignoring join URLs" []] Hq)
    as (Hj & Hini & _).
  change (events (A:=unit)
            ([EPrintf "broker already member of cluster.  Using existing state and ignoring join URLs" []],
             Ret tt, st1))
    with [EPrintf "broker already member of cluster.  Using existing state and ignoring join URLs" []].
  repeat split; try assumption.
  eexists. reflexivity.
Qed.

(** C1.  When the raft log opened by [openBroker] reports last index 0 and
    the list of seeds is not empty, the seeds joined are a prefix of the list,
    in the order of the list, one attempt per entry.  Either the call returns,
    and then the last attempt is the only one whose answer is not an ordinary
    error (it is [nil] or [raft.ErrInitialized]) while every attempt before it
    got an ordinary error; or every entry of the list was tried, each got an
    ordinary error, and the process exits through [log.Fatalf]. *)
Theorem openBroker_joins_seeds_in_order urls h (st : state W) l term :
  In (ELastLogIndexTerm l 0%N term) (events (openBroker filepath_Join urls h st)) ->
  urls <> [] ->
  let run := openBroker filepath_Join urls h st in
  let attempts := log_joins (events run) in
  exists rest,
    urls = map fst attempts ++ rest /\
    ((result run = Ret tt /\ ends_loop log_join_retry (map snd attempts))
     \/ (result run = Fatal "join: failed to connect raft log to any specified server" [] /\
         rest = [] /\
         all_retry log_join_retry (map snd attempts))).
Proof.
  intros Hin Hu. cbn zeta.
  destruct (openBroker_index_read urls h st l 0%N term Hin)
    as (pre & b & st1 & Hq & _ & _ & Hrun).
  rewrite Hrun, (bootstrap_log_join b l urls st1 Hu).
  rewrite events_prepend, result_prepend.
  destruct (log_picks_split pre l 0%N term (events (joinLog l urls st1)) Hq) as (Hj & _ & _).
  rewrite Hj.
  destruct (joinLog_run l urls st1) as (_ & _ & _ & rest & Hrest & Hc).
  exists rest. split; assumption.
Qed.

(** What [bootstrap_log] calls, whatever the world answers. *)
Lemma bootstrap_log_picks b l index urls (st : state W) :
  let t := events (bootstrap_log b l index urls st) in
  index_reads t = [] /\
  (index <> 0%N -> log_joins t = [] /\ log_initializes t = []) /\
  (urls = [] -> log_joins t = []) /\
  (urls <> [] -> log_initializes t = []) /\
  (List.length (log_initializes t) <= 1)%nat.
Proof.
  cbn zeta. split; [apply bootstrap_log_reads_no_index|].
  destruct (N.eq_dec index 0) as [->|Hi].
  - destruct urls as [|u urls].
    + rewrite bootstrap_log_initialize. cbn zeta.
      destruct (fst (log_Initialize l (world st))); cbn;
        repeat split; intros; auto; congruence.
    + rewrite bootstrap_log_join by discriminate.
      destruct (joinLog_run l (u :: urls) st) as (_ & Hini & _).
      rewrite Hini. cbn. repeat split; intros; auto; congruence.
  - rewrite (bootstrap_log_member b l index urls st Hi). cbn.
    repeat split; intros; auto.
Qed.

End LogLayer.

(** ** The data layer *)

Section DataLayer.
Context {W : Type} `{Collaborators W}.
Variables (version commit messagingClientFile : string).
Variable filepath_Join : string -> string -> string.

Lemma initialize_data_node_run n u tag (st : state W) :
  initialize_data_node n u tag st =
  (initialize_trace n u (fst (server_Initialize n u (world st))),
   initialize_outcome tag (fst (server_Initialize n u (world st))),
   mkState (node st) (snd (server_Initialize n u (world st)))).
Proof.
  unfold initialize_data_node. rewrite bind_call.
  destruct (server_Initialize n u (world st)) as [[e|] w']; cbn [fst snd].
  - rewrite bind_fatal_if. reflexivity.
  - rewrite bind_fatal_if. reflexivity.
Qed.

(** The loop of [joinOrInitializeServer], event by event.  Some candidates
    answer with an ordinary error; then the list is used up and the code
    behind the loop runs, or a candidate answers "no data nodes found" and the
    node initializes itself, or a candidate accepts the join. *)
Lemma join_each_run n u urls (after : M W unit) (st : state W) :
  let r := join_each n u urls after st in
  exists fails,
    Forall (fun je => snd je <> ErrDataNodeNotFound) fails /\
    ((exists st',
        urls = map fst fails /\ node st' = node st /\
        r = prepend (failed_attempts n u fails) (after st'))
     \/ (exists j rest a,
           urls = map fst fails ++ j :: rest /\
           events r = failed_attempts n u fails ++
                      EServerJoin n u j (Some ErrDataNodeNotFound) ::
                      initialize_trace n u a /\
           result r = initialize_outcome "server initialization error(1): %s" a /\
           node (final r) = node st)
     \/ (exists j rest,
           urls = map fst fails ++ j :: rest /\
           events r = failed_attempts n u fails ++
                      [EServerJoin n u j None;
                       EPrintf "join: connected data node to %s" [VURL u]] /\
           result r = Ret tt /\
           node (final r) = node st)).
Proof.
  cbn zeta. revert st. induction urls as [|j urls IH]; intros st; cbn [join_each].
  - exists []. split; [constructor|]. left. exists st. repeat split.
    cbn. rewrite prepend_nil. reflexivity.
  - rewrite bind_call.
    destruct (server_Join n u j (world st)) as [r w'] eqn:Ej. cbn [fst snd].
    destruct r as [e|].
    + assert (Hretry : e <> ErrDataNodeNotFound ->
        let r := prepend [EServerJoin n u j (Some e)]
                   (bind (Printf "join: failed to connect data node: %s: %s"
                                 [VURL u; VError e])
                         (fun _ => join_each n u urls after)
                         (mkState (node st) w')) in
        exists fails,
          Forall (fun je => snd je <> ErrDataNodeNotFound) fails /\
          ((exists st',
              j :: urls = map fst fails /\ node st' = node st /\
              r = prepend (failed_attempts n u fails) (after st'))
           \/ (exists j' rest a,
                 j :: urls = map fst fails ++ j' :: rest /\
                 events r = failed_attempts n u fails ++
                            EServerJoin n u j' (Some ErrDataNodeNotFound) ::
                            initialize_trace n u a /\
                 result r = initialize_outcome "server initialization error(1): %s" a /\
                 node (final r) = node st)
           \/ (exists j' rest,
                 j :: urls = map fst fails ++ j' :: rest /\
                 events r = failed_attempts n u fails ++
                            [EServerJoin n u j' None;
                             EPrintf "join: connected data node to %s" [VURL u]] /\
                 result r = Ret tt /\
                 node (final r) = node st))).
      { intros Hne. cbn zeta. rewrite bind_Printf, prepend_prepend.
        destruct (IH (mkState (node st) w')) as (fails & Hf & Hc).
        exists ((j, e) :: fails). split; [constructor; [exact Hne | exact Hf]|].
        cbn [node] in Hc.
        destruct Hc as [(st' & Hu & Hn & Hr)|[(j' & rest & a & Hu & He & Hres & Hn)
                                             |(j' & rest & Hu & He & Hres & Hn)]].
        - left. exists st'. repeat split; [cbn; f_equal; exact Hu | exact Hn |].
          rewrite Hr, prepend_prepend. reflexivity.
        - right. left. exists j', rest, a.
          rewrite events_prepend, result_prepend, final_prepend, He.
          repeat split; [cbn; f_equal; exact Hu | exact Hres | exact Hn].
        - right. right. exists j', rest.
          rewrite events_prepend, result_prepend, final_prepend, He.
          repeat split; [cbn; f_equal; exact Hu | exact Hres | exact Hn]. }
      destruct e; try (apply Hretry; discriminate).
      clear Hretry. exists []. split; [constructor|]. right. left.
      rewrite initialize_data_node_run. cbn [node world].
      exists j, urls, (fst (server_Initialize n u w')). repeat split.
    + exists []. split; [constructor|]. right. right. exists j, urls. repeat split.
Qed.

Lemma data_run_cons urls n0 pending e (r : list event * outcome ref * state W) :
  quiet_data e = true ->
  data_run urls n0 (pending ++ acquired [e]) r ->
  data_run urls n0 pending (prepend [e] r).
Proof.
  intros He [[Hd Hq]|(pre & n & st1 & Hq & Hn & Ha & Hr)].
  - left. split; [exact Hd|]. cbn. rewrite He. exact Hq.
  - right. exists (e :: pre), n, st1. split; [cbn; rewrite He; exact Hq|].
    split; [exact Hn|]. split.
    + rewrite <- Ha, <- app_assoc. f_equal.
      change (e :: pre) with ([e] ++ pre). apply pick_app.
    + cbn zeta in *. rewrite Hr. rewrite prepend_prepend. reflexivity.
Qed.

Lemma data_run_dies urls n0 pending (o : outcome ref) (st : state W) :
  process_dies o -> data_run urls n0 pending ([], o, st).
Proof. intros Hd. left. split; [exact Hd | reflexivity]. Qed.

Lemma openServer_run urls (st : state W) :
  data_run urls (node st) []
    (openServer version commit messagingClientFile filepath_Join urls st).
Proof.
  destruct st as [n0 w]. cbn [node].
  unfold openServer, the_config, ClusterURL, ClusterAddr.
  repeat
    (lazymatch goal with
     | |- data_run _ _ _ (bind (call_ (time_Sleep _) _) _ _) => fail
     | |- data_run _ _ _ (bind (match ?x with Some _ => _ | None => _ end) _ _) =>
         destruct x; [|step; apply data_run_dies; exact I]
     | |- data_run _ _ _ (bind (match ?x with inl _ => _ | inr _ => _ end) _ _) =>
         destruct x as [[? ?]|?]; [|step; apply data_run_dies; exact I]
     | |- data_run _ _ _ (bind (if ?c then _ else _) _ _) =>
         destruct c; [step; apply data_run_dies; exact I|]
     | |- data_run _ _ _ (bind _ _ _) =>
         step; try split_call; try (apply data_run_cons; [reflexivity|]);
         try forget_world
     | |- data_run _ _ _ (match ?x with Some _ => _ | None => _ end) =>
         destruct x; [apply data_run_dies; exact I|]
     end).
  right.
  match goal with
  | |- context [EServerID ?n] =>
      match goal with
      | |- context [mkState ?n1 ?w1] =>
          exists [], n, (mkState n1 (time_Sleep (1 * second) w1))
      end
  end.
  split; [reflexivity|]. split; [reflexivity|]. split; [reflexivity|].
  cbn zeta. rewrite bind_call_, bind_read, prepend_prepend.
  unfold bootstrap_server. reflexivity.
Qed.

Lemma ClusterURL_run (st : state W) :
  ClusterURL st =
  match clusterListener (node st) with
  | None => ([], Panic PNilDereference, st)
  | Some l =>
      let a := listener_Addr l (world st) in
      match SplitHostPort a with
      | inr e => ([EListenerAddr l a], Panic (PError e), st)
      | inl (_, p) =>
          ([EListenerAddr l a],
           Ret {| Scheme := "http"; Host := JoinHostPort (hostname (node st)) p |},
           st)
      end
  end.
Proof.
  unfold ClusterURL, ClusterAddr. rewrite bind_assoc, bind_get_node.
  destruct (clusterListener (node st)) as [l|]; [|reflexivity].
  rewrite bind_read. cbn zeta.
  destruct (SplitHostPort (listener_Addr l (world st))) as [[hh p]|e]; [|reflexivity].
  rewrite bind_get_node. reflexivity.
Qed.

(** [ClusterURL] changes nothing, writes at most the read of the address,
    and returns or panics. *)
Lemma ClusterURL_cases (st : state W) :
  exists evs,
    forallb quiet_data evs = true /\ forallb no_read evs = true /\
    ((exists u, ClusterURL st = (evs, Ret u, st))
     \/ (exists p, ClusterURL st = (evs, Panic p, st))).
Proof.
  rewrite ClusterURL_run.
  destruct (clusterListener (node st)) as [l|].
  - cbn zeta. destruct (SplitHostPort _) as [[hh p]|e];
      (eexists; split; [|split]; [| |(left; eexists; reflexivity) || (right; eexists; reflexivity)];
       reflexivity).
  - exists []. repeat split. right. eexists. reflexivity.
Qed.

(** [joinOrInitializeServer], event by event: the four ways it ends. *)
Lemma joinOrInitializeServer_run n u urls (st : state W) :
  let r := joinOrInitializeServer n u urls st in
  node (final r) = node st /\
  exists fails,
    Forall (fun je => snd je <> ErrDataNodeNotFound) fails /\
    ((exists a,
        urls = [] /\ fails = [] /\
        events r = initialize_trace n u a /\
        result r = initialize_outcome "server initialization error(2): %s" a)
     \/ (urls <> [] /\ urls = map fst fails /\
         events r = failed_attempts n u fails /\
         result r = Fatal "join: failed to connect data node to any specified server" [])
     \/ (exists j rest a,
           urls = map fst fails ++ j :: rest /\
           events r = failed_attempts n u fails ++
                      EServerJoin n u j (Some ErrDataNodeNotFound) ::
                      initialize_trace n u a /\
           result r = initialize_outcome "server initialization error(1): %s" a)
     \/ (exists j rest,
           urls = map fst fails ++ j :: rest /\
           events r = failed_attempts n u fails ++
                      [EServerJoin n u j None;
                       EPrintf "join: connected data node to %s" [VURL u]] /\
           result r = Ret tt)).
Proof.
  cbn zeta. unfold joinOrInitializeServer.
  destruct (join_each_run n u urls
              (if Nat.eqb (List.length urls) 0
               then initialize_data_node n u "server initialization error(2): %s"
               else fatal "join: failed to connect data node to any specified server" [])
              st) as (fails & Hf & Hc).
  cbn zeta in Hc.
  destruct Hc as [(st' & Hu & Hn & Hr)|[(j & rest & a & Hu & He & Hres & Hn)
                                       |(j & rest & Hu & He & Hres & Hn)]].
  - rewrite Hr. destruct urls as [|j urls].
    + destruct fails; [|discriminate Hu].
      cbn [List.length Nat.eqb]. rewrite initialize_data_node_run.
      split; [exact Hn|]. exists []. split; [constructor|]. left.
      eexists. repeat split.
    + cbn [List.length Nat.eqb].
      split; [exact Hn|]. exists fails. split; [exact Hf|]. right. left.
      repeat split; [discriminate | exact Hu |].
      unfold prepend, fatal. cbn. apply app_nil_r.
  - split; [exact Hn|]. exists fails. split; [exact Hf|]. right. right. left.
    exists j, rest, a. repeat split; assumption.
  - split; [exact Hn|]. exists fails. split; [exact Hf|]. right. right. right.
    exists j, rest. repeat split; assumption.
Qed.

Lemma failed_attempts_no_first_node n u fails n' u' j :
  Forall (fun je => snd je <> ErrDataNodeNotFound) fails ->
  ~ In (EServerJoin n' u' j (Some ErrDataNodeNotFound)) (failed_attempts n u fails).
Proof.
  intros Hf Hin. unfold failed_attempts in Hin. apply in_flat_map in Hin as (je & Hje & Hin).
  rewrite Forall_forall in Hf. specialize (Hf je Hje).
  destruct Hin as [Heq|[Heq|[]]]; [|discriminate Heq].
  injection Heq as _ _ _ He. exact (Hf He).
Qed.

Lemma initialize_trace_no_join n u a e :
  In e (initialize_trace n u a) -> no_server_join e = true.
Proof.
  unfold initialize_trace. destruct a; cbn; intros Hin;
    repeat (destruct Hin as [<-|Hin]; [reflexivity|]); destruct Hin.
Qed.

(** The loop of [joinOrInitializeServer] at the answer "no data nodes
    found". *)
Lemma first_node_in_loop n u urls (st : state W) n' u' j :
  In (EServerJoin n' u' j (Some ErrDataNodeNotFound))
     (events (joinOrInitializeServer n u urls st)) ->
  let run := joinOrInitializeServer n u urls st in
  n' = n /\ u' = u /\
  exists fails a,
    Forall (fun je => snd je <> ErrDataNodeNotFound) fails /\
    events run =
      failed_attempts n u fails ++
      [EServerJoin n u j (Some ErrDataNodeNotFound); EServerInitialize n u a] ++
      match a with
      | Some _ => []
      | None => [EPrintf "initialized data node: %s\n" [VURL u]]
      end /\
    result run =
      match a with
      | Some e => Fatal "server initialization error(1): %s" [VError e]
      | None => Ret tt
      end.
Proof.
  intros Hin. cbn zeta.
  destruct (joinOrInitializeServer_run n u urls st) as (_ & fails & Hf & Hc).
  cbn zeta in Hc.
  destruct Hc as [(a & _ & _ & He & _)|[(_ & _ & He & _)|[(j' & rest & a & _ & He & Hres)
                                                       |(j' & rest & _ & He & _)]]];
    rewrite He in Hin.
  - apply initialize_trace_no_join in Hin. discriminate Hin.
  - exfalso. exact (failed_attempts_no_first_node _ _ _ _ _ _ Hf Hin).
  - apply in_app_or in Hin as [Hin|[Heq|Hin]].
    + exfalso. exact (failed_attempts_no_first_node _ _ _ _ _ _ Hf Hin).
    + injection Heq as -> -> ->. repeat split.
      exists fails, a. split; [exact Hf|]. split; [exact He | exact Hres].
    + apply initialize_trace_no_join in Hin. discriminate Hin.
  - apply in_app_or in Hin as [Hin|[Heq|[Heq|[]]]]; try discriminate Heq.
    exfalso. exact (failed_attempts_no_first_node _ _ _ _ _ _ Hf Hin).
Qed.

Lemma after_sleep_quiet (evs : list event) :
  forallb quiet_data evs = true -> after_sleep evs = [].
Proof.
  induction evs as [|e evs IH]; cbn; [reflexivity|].
  intros Hq. apply andb_true_iff in Hq as [He Hq].
  destruct e; try discriminate He; exact (IH Hq).
Qed.

Lemma after_sleep_app (pre : list event) d (rest : list event) :
  forallb quiet_data pre = true -> after_sleep (pre ++ ESleep d :: rest) = rest.
Proof.
  induction pre as [|e pre IH]; cbn; [reflexivity|].
  intros Hq. apply andb_true_iff in Hq as [He Hq].
  destruct e; try discriminate He; exact (IH Hq).
Qed.

(** The two ways [openServer] goes on once the identity is read. *)
Lemma bootstrap_server_member n id urls (st : state W) :
  id <> 0%N ->
  bootstrap_server n id urls st =
  ([EPrintf "data node already member of cluster. Using existing state and ignoring join URLs" []],
   Ret n, st).
Proof.
  intros Hi. unfold bootstrap_server. apply N.eqb_neq in Hi. rewrite Hi.
  rewrite bind_Printf. reflexivity.
Qed.

Lemma bootstrap_server_zero n urls (st : state W) :
  exists evs,
    forallb quiet_data evs = true /\ forallb no_read evs = true /\
    ((exists p, bootstrap_server n 0%N urls st = (evs, Panic p, st))
     \/ (exists u,
           ClusterURL st = (evs, Ret u, st) /\
           let r := joinOrInitializeServer n u urls st in
           bootstrap_server n 0%N urls st =
           (evs ++ events r, returning n (result r), final r))).
Proof.
  destruct (ClusterURL_cases st) as (evs & Hq & Hr & [[u Hu]|[p Hp]]);
    exists evs; (split; [exact Hq|]); (split; [exact Hr|]).
  - right. exists u. split; [exact Hu|]. cbn zeta.
    unfold bootstrap_server. cbn [N.eqb]. rewrite bind_assoc.
    rewrite (bind_prepend ClusterURL), Hu. cbn [result events final fst snd].
    rewrite bind_prepend.
    destruct (joinOrInitializeServer n u urls st) as [[e [[]|fm ar|p]] s];
      unfold prepend, ret; cbn [result events final fst snd returning];
      rewrite ?app_nil_r; reflexivity.
  - left. exists p. unfold bootstrap_server. cbn [N.eqb]. rewrite bind_assoc.
    rewrite (bind_prepend ClusterURL), Hp. reflexivity.
Qed.

(** When the trace of [openServer] shows the identity read after the grace
    delay, the run is the set-up, the delay, that read, and
    [bootstrap_server] on the identity read. *)
Lemma openServer_decision urls (st : state W) id :
  decisive_id
    (events (openServer version commit messagingClientFile filepath_Join urls st))
  = Some id ->
  exists pre n st1,
    forallb quiet_data pre = true /\
    node st1 = node st /\
    server_ID n (world st1) = id /\
    openServer version commit messagingClientFile filepath_Join urls st =
    prepend (pre ++ [ESleep (1 * second); EServerID n id])
            (bootstrap_server n id urls st1).
Proof.
  intros Hd.
  destruct (openServer_run urls st) as [[_ Hq]|(pre & n & st1 & Hq & Hn & _ & Hr)].
  - unfold decisive_id in Hd. rewrite (after_sleep_quiet _ Hq) in Hd. discriminate Hd.
  - cbn zeta in Hr. rewrite Hr in Hd. unfold decisive_id in Hd.
    rewrite events_prepend, <- app_assoc in Hd. cbn [app] in Hd.
    rewrite (after_sleep_app _ _ _ Hq) in Hd. injection Hd as Hid.
    exists pre, n, st1. repeat split; try assumption.
    rewrite Hr, Hid. reflexivity.
Qed.

Lemma ClusterURL_returns (st : state W) evs u :
  ClusterURL st = (evs, Ret u, st) ->
  exists p, u = {| Scheme := "http"; Host := JoinHostPort (hostname (node st)) p |}.
Proof.
  rewrite ClusterURL_run. destruct (clusterListener (node st)); [|discriminate].
  cbn zeta. destruct (SplitHostPort _) as [[hh p]|e]; [|discriminate].
  intros Heq. injection Heq as _ <-. exists p. reflexivity.
Qed.

Lemma quiet_data_no_join (evs : list event) n u j r :
  forallb quiet_data evs = true -> ~ In (EServerJoin n u j r) evs.
Proof.
  intros Hq Hin. rewrite forallb_forall in Hq. specialize (Hq _ Hin). discriminate Hq.
Qed.

(** C3.  In the loop of [joinOrInitializeServer], when the join call for a
    candidate answers [influxdb.ErrDataNodeNotFound], every candidate before
    it got an ordinary error, the very next call is [Initialize] with the
    URL [u] that the join calls were given as the node's own, and no join
    follows.  If that [Initialize] fails the process exits through
    [log.Fatalf]; if it succeeds the function logs it and returns: the answer
    "no data nodes found" is not fatal by itself.  Seen from [openServer],
    which runs the loop: the URL is the one [ClusterURL] derives for the node,
    and after a successful [Initialize] the data node is returned. *)
Theorem joinOrInitializeServer_first_node :
  (forall n u urls (st : state W) n' u' j,
      let run := joinOrInitializeServer n u urls st in
      In (EServerJoin n' u' j (Some ErrDataNodeNotFound)) (events run) ->
      n' = n /\ u' = u /\
      exists fails a,
        Forall (fun je => snd je <> ErrDataNodeNotFound) fails /\
        events run =
          failed_attempts n u fails ++
          [EServerJoin n u j (Some ErrDataNodeNotFound); EServerInitialize n u a] ++
          match a with
          | Some _ => []
          | None => [EPrintf "initialized data node: %s\n" [VURL u]]
          end /\
        result run =
          match a with
          | Some e => Fatal "server initialization error(1): %s" [VError e]
          | None => Ret tt
          end)
  /\
  (forall urls (st : state W) n u j,
      let run := openServer version commit messagingClientFile filepath_Join urls st in
      In (EServerJoin n u j (Some ErrDataNodeNotFound)) (events run) ->
      exists pre a p,
        u = {| Scheme := "http"; Host := JoinHostPort (hostname (node st)) p |} /\
        events run =
          pre ++
          [EServerJoin n u j (Some ErrDataNodeNotFound); EServerInitialize n u a] ++
          match a with
          | Some _ => []
          | None => [EPrintf "initialized data node: %s\n" [VURL u]]
          end /\
        result run =
          match a with
          | Some e => Fatal "server initialization error(1): %s" [VError e]
          | None => Ret n
          end).
Proof.
  split.
  - intros n u urls st n' u' j. cbn zeta. apply first_node_in_loop.
  - intros urls st n' u' j. cbn zeta. intros Hin.
    destruct (openServer_run urls st) as [[_ Hq]|(pre & n & st1 & Hq & Hn & _ & Hr)].
    { exfalso. exact (quiet_data_no_join _ _ _ _ _ Hq Hin). }
    cbn zeta in Hr. rewrite Hr in Hin |- *. rewrite events_prepend, result_prepend in *.
    apply in_app_or in Hin as [Hin|Hin].
    { exfalso. apply in_app_or in Hin as [Hin|[Heq|[Heq|[]]]]; try discriminate Heq.
      exact (quiet_data_no_join _ _ _ _ _ Hq Hin). }
    destruct (N.eq_dec (server_ID n (world st1)) 0) as [Hz|Hnz].
    2:{ exfalso. rewrite (bootstrap_server_member n _ urls st1 Hnz) in Hin.
        destruct Hin as [Heq|[]]. discriminate Heq. }
    rewrite Hz in *.
    destruct (bootstrap_server_zero n urls st1) as (evs & Hqe & _ & [[p Hp]|[u [Hu Hb]]]).
    { exfalso. rewrite Hp in Hin. exact (quiet_data_no_join _ _ _ _ _ Hqe Hin). }
    cbn zeta in Hb. rewrite Hb in Hin |- *. cbn [events result fst snd] in *.
    apply in_app_or in Hin as [Hin|Hin].
    { exfalso. exact (quiet_data_no_join _ _ _ _ _ Hqe Hin). }
    destruct (first_node_in_loop n u urls st1 n' u' j Hin)
      as (-> & -> & fails & a & _ & He & Hres).
    destruct (ClusterURL_returns st1 evs u Hu) as [p Hp]. rewrite Hn in Hp.
    exists ((pre ++ [ESleep (1 * second); EServerID n 0%N]) ++ evs ++ failed_attempts n u fails),
           a, p.
    split; [exact Hp|]. split.
    + rewrite He, <- !app_assoc. reflexivity.
    + rewrite Hres. destruct a; reflexivity.
Qed.

Lemma quiet_data_picks (evs : list event) :
  forallb quiet_data evs = true ->
  server_joins evs = [] /\ server_initializes evs = [].
Proof.
  intros Hq. split;
    (apply (pick_quiet _ quiet_data); [intros [] He; (reflexivity || discriminate He) | exact Hq]).
Qed.

Lemma no_read_picks (evs : list event) :
  forallb no_read evs = true -> id_reads evs = [] /\ index_reads evs = [].
Proof.
  intros Hq. split;
    (apply (pick_quiet _ no_read); [intros [] He; (reflexivity || discriminate He) | exact Hq]).
Qed.

(** The trace of [openServer] cut behind the read of the identity. *)
Lemma data_picks_split pre d n id (tail : list event) :
  forallb quiet_data pre = true ->
  server_joins ((pre ++ [ESleep d; EServerID n id]) ++ tail) = server_joins tail /\
  server_initializes ((pre ++ [ESleep d; EServerID n id]) ++ tail)
  = server_initializes tail /\
  after_sleep ((pre ++ [ESleep d; EServerID n id]) ++ tail) = EServerID n id :: tail.
Proof.
  intros Hq. destruct (quiet_data_picks pre Hq) as (Hj & Hi).
  unfold server_joins, server_initializes in *.
  rewrite !pick_app, Hj, Hi. repeat split.
  rewrite <- !app_assoc. cbn [app]. apply after_sleep_app. exact Hq.
Qed.

Lemma initialize_trace_picks n u a :
  server_joins (initialize_trace n u a) = [] /\
  server_initializes (initialize_trace n u a) = [(u, a)] /\
  id_reads (initialize_trace n u a) = [].
Proof. destruct a; repeat split. Qed.

Lemma failed_attempts_picks n u fails :
  server_joins (failed_attempts n u fails)
  = map (fun je => (u, fst je, Some (snd je))) fails /\
  server_initializes (failed_attempts n u fails) = [] /\
  id_reads (failed_attempts n u fails) = [].
Proof.
  induction fails as [|je fails (IHj & IHi & IHr)]; [repeat split|].
  unfold failed_attempts, server_joins, server_initializes, id_reads in *.
  cbn. rewrite IHj, IHi, IHr. repeat split.
Qed.

(** C4.  With no candidate at all and nothing persisted, each layer makes
    itself the founding member.  Log layer: when the raft log opened by
    [openBroker] reports last index 0 and the list of seeds is empty, no join
    is tried and [Initialize] is called once; its failure ends the process
    through [log.Fatalf], its success lets the call return.  Data layer: when
    the data node opened by [openServer] reports identity 0 after the grace
    delay and the list of candidates is empty, no join is tried and
    [Initialize] is called once, with the same two endings (the derivation of
    the cluster URL, which sits between the read and the call, is taken not
    to panic). *)
Theorem founding_member_without_candidates :
  (forall h (st : state W) l term,
      In (ELastLogIndexTerm l 0%N term) (events (openBroker filepath_Join [] h st)) ->
      let run := openBroker filepath_Join [] h st in
      log_joins (events run) = [] /\
      exists a,
        log_initializes (events run) = [a] /\
        result run = match a with
                     | Some e => Fatal "initialize raft log: %s" [VError e]
                     | None => Ret tt
                     end)
  /\
  (forall (st : state W),
      let run := openServer version commit messagingClientFile filepath_Join [] st in
      decisive_id (events run) = Some 0%N ->
      (forall p, result run <> Panic p) ->
      server_joins (events run) = [] /\
      exists n u a,
        server_initializes (events run) = [(u, a)] /\
        result run = match a with
                     | Some e => Fatal "server initialization error(2): %s" [VError e]
                     | None => Ret n
                     end).
Proof.
  split.
  - intros h st l term Hin. cbn zeta.
    destruct (openBroker_index_read filepath_Join [] h st l 0%N term Hin)
      as (pre & b & st1 & Hq & _ & _ & Hrun).
    rewrite Hrun, events_prepend, result_prepend.
    destruct (log_picks_split pre l 0%N term (events (bootstrap_log b l 0%N [] st1)) Hq)
      as (Hj & Hini & _).
    rewrite Hj, Hini, bootstrap_log_initialize. cbn zeta.
    destruct (fst (log_Initialize l (world st1))) as [e|].
    + split; [reflexivity|]. exists (Some e). split; reflexivity.
    + split; [reflexivity|]. exists None. split; reflexivity.
  - intros st. cbn zeta. intros Hd Hnp.
    destruct (openServer_decision [] st 0%N Hd) as (pre & n & st1 & Hq & _ & _ & Hrun).
    rewrite Hrun in Hnp |- *. rewrite events_prepend, result_prepend in *.
    destruct (data_picks_split pre (1 * second) n 0%N
                (events (bootstrap_server n 0%N [] st1)) Hq) as (Hj & Hini & _).
    rewrite Hj, Hini.
    destruct (bootstrap_server_zero n [] st1) as (evs & Hqe & _ & [[p Hp]|[u [_ Hb]]]).
    + exfalso. rewrite Hp in Hnp. exact (Hnp p eq_refl).
    + cbn zeta in Hb. rewrite Hb. cbn [events result fst snd].
      destruct (quiet_data_picks evs Hqe) as (Hje & Hie).
      unfold server_joins, server_initializes in *. rewrite !pick_app, Hje, Hie.
      destruct (joinOrInitializeServer_run n u [] st1) as (_ & fails & Hf & Hc).
      cbn zeta in Hc.
      destruct Hc as [(a & _ & _ & He & Hres)|[(Hne & _)|[(j' & rest & a & Hu & _)
                                                       |(j' & rest & Hu & _)]]].
      * rewrite He, Hres.
        destruct (initialize_trace_picks n u a) as (Hj' & Hi' & _).
        unfold server_joins, server_initializes in *. rewrite Hj', Hi'.
        split; [reflexivity|]. exists n, u, a. split; [reflexivity|].
        destruct a; reflexivity.
      * congruence.
      * destruct fails; discriminate Hu.
      * destruct fails; discriminate Hu.
Qed.

Lemma succeeded_failed_attempts (u : URL) (fails : list (URL * error)) :
  filter (fun a : option error => match a with None => true | Some _ => false end)
         (map snd (map (fun je => (u, fst je, Some (snd je))) fails)) = [].
Proof. induction fails as [|je fails IH]; [reflexivity | exact IH]. Qed.

(** What [bootstrap_server] calls, whatever the world answers. *)
Lemma bootstrap_server_picks n id urls (st : state W) :
  let t := events (bootstrap_server n id urls st) in
  id_reads t = [] /\
  (id <> 0%N -> server_joins t = [] /\ server_initializes t = []) /\
  (List.length (succeeded (map snd (server_joins t)) ++
                succeeded (map snd (server_initializes t))) <= 1)%nat /\
  (List.length (server_initializes t) <= 1)%nat /\
  (server_initializes t <> [] ->
   urls = [] \/ In (Some ErrDataNodeNotFound) (map snd (server_joins t))) /\
  (urls = [] -> server_joins t = []).
Proof.
  cbn zeta. destruct (N.eq_dec id 0) as [->|Hi].
  2:{ rewrite (bootstrap_server_member n id urls st Hi). cbn.
      repeat split; auto; intros; congruence. }
  destruct (bootstrap_server_zero n urls st) as (evs & Hq & Hr & [[p Hp]|[u [_ Hb]]]);
    destruct (quiet_data_picks evs Hq) as (Hje & Hie);
    destruct (no_read_picks evs Hr) as (Hre & _).
  - rewrite Hp. cbn [events fst snd]. rewrite Hje, Hie, Hre. cbn.
    repeat split; auto; intros; congruence.
  - cbn zeta in Hb. rewrite Hb. cbn [events fst snd].
    destruct (joinOrInitializeServer_run n u urls st) as (_ & fails & Hf & Hc).
    cbn zeta in Hc.
    destruct (failed_attempts_picks n u fails) as (Hfj & Hfi & Hfr).
    unfold server_joins, server_initializes, id_reads in *.
    destruct Hc as [(a & Hu & _ & He & _)|[(Hne & Hu & He & _)|[(j' & rest & a & Hu & He & _)
                                                           |(j' & rest & Hu & He & _)]]];
      rewrite He; rewrite ?pick_app, ?Hje, ?Hie, ?Hre, ?Hfj, ?Hfi, ?Hfr.
    + destruct (initialize_trace_picks n u a) as (Hj' & Hi' & Hr').
      unfold server_joins, server_initializes, id_reads in *.
      rewrite Hj', Hi', Hr'. cbn [app map snd List.length succeeded filter].
      repeat split; intros; auto; try congruence. destruct a; cbn; lia.
    + unfold succeeded. cbn [app]. rewrite succeeded_failed_attempts. cbn.
      repeat split; auto; intros; congruence.
    + cbn [pick server_join_of server_initialize_of id_read_of].
      destruct (initialize_trace_picks n u a) as (Hj' & Hi' & Hr').
      unfold server_joins, server_initializes, id_reads in *.
      rewrite Hj', Hi', Hr'. cbn [app]. rewrite ?app_nil_r.
      unfold succeeded. rewrite !map_app, !filter_app, succeeded_failed_attempts.
      cbn. repeat split; intros; auto; try congruence.
      * destruct a; cbn; lia.
      * right. apply in_or_app. right. left. reflexivity.
      * exfalso. subst urls.
        match goal with Hx : _ ++ _ :: _ = [] |- _ => destruct fails; discriminate Hx end.
    + cbn [pick server_join_of server_initialize_of id_read_of].
      cbn [app]. rewrite ?app_nil_r.
      unfold succeeded. rewrite !map_app, !filter_app, succeeded_failed_attempts.
      cbn. repeat split; intros; auto; try congruence.
      exfalso. subst urls.
        match goal with Hx : _ ++ _ :: _ = [] |- _ => destruct fails; discriminate Hx end.
Qed.

End DataLayer.

(** ** Both layers *)

Lemma split_at_loud (q : event -> bool) (pre0 rest pre : list event) e post :
  forallb q pre0 = true -> q e = false ->
  pre ++ e :: post = pre0 ++ rest ->
  exists x, rest = x ++ e :: post.
Proof.
  revert pre. induction pre0 as [|a pre0 IH]; intros pre Hq He Heq.
  - exists pre. symmetry. exact Heq.
  - cbn in Hq. apply andb_true_iff in Hq as [Ha Hq].
    destruct pre as [|a' pre]; cbn in Heq; injection Heq as Hhd Htl.
    + subst a. congruence.
    + exact (IH pre Hq He Htl).
Qed.

Lemma pick_suffix_nil {X} (f : event -> option X) (x post : list event) e :
  pick f (x ++ e :: post) = [] -> pick f post = [].
Proof.
  rewrite pick_app. intros Hp. apply app_eq_nil in Hp as [_ Hp].
  cbn in Hp. destruct (f e); [discriminate Hp | exact Hp].
Qed.

Section Membership.
Context {W : Type} `{Collaborators W}.
Variables (version commit messagingClientFile : string).
Variable filepath_Join : string -> string -> string.

(** C7, as the code has it.  Log layer, for every run of [openBroker]: the
    index is read at most once and never after a join or an initialize call;
    unless it was read as 0 neither is called; with an empty list of seeds no
    join is tried, with a non-empty list [Initialize] is not called, so the
    two never occur together, and [Initialize] is called at most once.  Data
    layer, for every run of [openServer]: behind the grace delay the identity
    is read at most once; unless it was read there as 0 neither join nor
    initialize is called; at most one call among them succeeds, [Initialize]
    is called at most once, and only when the list of candidates is empty or
    a join was answered "no data nodes found"; with an empty list no join is
    tried. *)
Theorem one_bootstrap_path_per_layer :
  (forall urls h (st : state W),
      let evs := events (openBroker filepath_Join urls h st) in
      (List.length (index_reads evs) <= 1)%nat /\
      (forall pre e post,
          evs = pre ++ e :: post -> quiet_log e = false -> index_reads post = []) /\
      (index_reads evs <> [0%N] -> log_joins evs = [] /\ log_initializes evs = []) /\
      (urls = [] -> log_joins evs = []) /\
      (urls <> [] -> log_initializes evs = []) /\
      (log_joins evs = [] \/ log_initializes evs = []) /\
      (List.length (log_initializes evs) <= 1)%nat)
  /\
  (forall urls (st : state W),
      let evs :=
        events (openServer version commit messagingClientFile filepath_Join urls st) in
      (List.length (id_reads (after_sleep evs)) <= 1)%nat /\
      (decisive_id evs <> Some 0%N ->
       server_joins evs = [] /\ server_initializes evs = []) /\
      (List.length (succeeded (map snd (server_joins evs)) ++
                    succeeded (map snd (server_initializes evs))) <= 1)%nat /\
      (List.length (server_initializes evs) <= 1)%nat /\
      (server_initializes evs <> [] ->
       urls = [] \/ In (Some ErrDataNodeNotFound) (map snd (server_joins evs))) /\
      (urls = [] -> server_joins evs = [])).
Proof.
  split.
  - intros urls h st. cbn zeta.
    destruct (openBroker_run filepath_Join urls h st)
      as [[_ Hq]|(pre0 & b & l & st1 & Hq & _ & _ & Hrun)].
    + destruct (quiet_log_picks _ Hq) as (Hj & Hi & Hr). rewrite Hj, Hi, Hr.
      cbn. repeat split; intros; auto.
      exfalso. rewrite forallb_forall in Hq.
      match goal with
      | Heq : _ = ?pre ++ ?e :: ?post, He : quiet_log ?e = false |- _ =>
          assert (Hin : In e (events (openBroker filepath_Join urls h st)))
            by (rewrite Heq; apply in_or_app; right; left; reflexivity);
          rewrite (Hq e Hin) in He; discriminate He
      end.
    + cbn zeta in Hrun. rewrite Hrun, events_prepend.
      set (i := fst (log_LastLogIndexTerm l (world st1))) in *.
      set (t := snd (log_LastLogIndexTerm l (world st1))) in *.
      destruct (log_picks_split pre0 l i t (events (bootstrap_log b l i urls st1)) Hq)
        as (Hj & Hini & Hr).
      destruct (bootstrap_log_picks b l i urls st1) as (Htr & Hne & Hnil & Hcons & Hlen).
      cbn zeta in *. rewrite Hj, Hini, Hr, Htr.
      repeat split; intros; auto.
      * match goal with
        | Heq : _ = ?pre ++ ?e :: ?post, He : quiet_log ?e = false |- _ =>
            rewrite <- app_assoc in Heq; cbn [app] in Heq;
            destruct (split_at_loud quiet_log pre0 _ pre e post Hq He (eq_sym Heq))
              as [x Hx]
        end.
        destruct x as [|y x]; cbn in Hx; injection Hx as Hhd Htl.
        -- rewrite <- Htl. exact Htr.
        -- rewrite Htl in Htr. exact (pick_suffix_nil _ _ _ _ Htr).
      * apply Hne. intros Hz.
        match goal with Hx : _ <> [0%N] |- _ => apply Hx; rewrite Hz; reflexivity end.
      * apply Hne. intros Hz.
        match goal with Hx : _ <> [0%N] |- _ => apply Hx; rewrite Hz; reflexivity end.
      * destruct urls; [left; apply Hnil; reflexivity | right; apply Hcons; discriminate].
  - intros urls st. cbn zeta.
    destruct (openServer_run version commit messagingClientFile filepath_Join urls st)
      as [[_ Hq]|(pre0 & n & st1 & Hq & _ & _ & Hrun)].
    + destruct (quiet_data_picks _ Hq) as (Hj & Hi).
      unfold decisive_id. rewrite Hj, Hi, (after_sleep_quiet _ Hq).
      cbn. repeat split; intros; auto; congruence.
    + cbn zeta in Hrun. rewrite Hrun, events_prepend.
      set (id := server_ID n (world st1)) in *.
      destruct (data_picks_split pre0 (1 * second) n id
                  (events (bootstrap_server n id urls st1)) Hq) as (Hj & Hini & Has).
      destruct (bootstrap_server_picks n id urls st1)
        as (Hr & Hne & Hsucc & Hlen & Honly & Hnil).
      cbn zeta in *. unfold decisive_id. rewrite Hj, Hini, Has.
      change (id_reads (EServerID n id :: events (bootstrap_server n id urls st1)))
        with (id :: id_reads (events (bootstrap_server n id urls st1))).
      rewrite Hr.
      repeat split; intros; auto.
      * apply Hne. intros Hz.
        match goal with Hx : _ <> Some 0%N |- _ => apply Hx; rewrite Hz; reflexivity end.
      * apply Hne. intros Hz.
        match goal with Hx : _ <> Some 0%N |- _ => apply Hx; rewrite Hz; reflexivity end.
Qed.

End Membership.

(** ** Shutdown *)

Section Shutdown.
Context {W : Type} `{Collaborators W}.

Lemma check_run (m k : M W (option error)) (st : state W) :
  check m k st =
  match result (m st) with
  | Ret None => prepend (events (m st)) (k (final (m st)))
  | Ret (Some e) => (events (m st), Ret (Some e), final (m st))
  | Fatal f a => (events (m st), Fatal f a, final (m st))
  | Panic p => (events (m st), Panic p, final (m st))
  end.
Proof.
  unfold check. rewrite bind_prepend.
  destruct (m st) as [[ev [[e|]|f a|p]] s]; cbn [result events final fst snd]; try reflexivity.
  unfold prepend, ret. cbn. rewrite app_nil_r. reflexivity.
Qed.

Lemma closeClusterListener_run (st : state W) :
  closeClusterListener st =
  match clusterListener (node st) with
  | Some l =>
      ([EClose (OListener l) (fst (obj_Close (OListener l) (world st)))],
       Ret (fst (obj_Close (OListener l) (world st))),
       mkState (set_clusterListener None (node st))
               (snd (obj_Close (OListener l) (world st))))
  | None => ([], Ret None, st)
  end.
Proof.
  unfold closeClusterListener. rewrite bind_get_node.
  destruct (clusterListener (node st)) as [l|]; [|reflexivity].
  rewrite bind_call, bind_modify_node. reflexivity.
Qed.

Lemma closeAPIListener_run (st : state W) :
  closeAPIListener st =
  match apiListener (node st) with
  | Some l =>
      ([EClose (OListener l) (fst (obj_Close (OListener l) (world st)))],
       Ret (fst (obj_Close (OListener l) (world st))),
       mkState (set_apiListener None (node st))
               (snd (obj_Close (OListener l) (world st))))
  | None => ([], Ret None, st)
  end.
Proof.
  unfold closeAPIListener. rewrite bind_get_node.
  destruct (apiListener (node st)) as [l|]; [|reflexivity].
  rewrite bind_call, bind_modify_node. reflexivity.
Qed.

(** *** Each step of [Close] closes its part of the plan *)

Lemma closing_one (o : obj) (n : Node) (w : W) :
  let c := close_seq [o] w in
  let r := call (obj_Close o) (EClose o) (mkState n w) in
  events r = fst (fst c) /\ result r = Ret (snd (fst c)) /\ world (final r) = snd c /\
  node (final r) = n.
Proof.
  cbn. destruct (obj_Close o w) as [[e|] w']; cbn; repeat split.
Qed.

Lemma closing_closeClusterListener :
  closing closeClusterListener (fun n => opt_obj OListener (clusterListener n)).
Proof.
  intros n w. cbn zeta. rewrite closeClusterListener_run. cbn [node world].
  destruct (clusterListener n) as [l|]; cbn; [|repeat split].
  destruct (obj_Close (OListener l) w) as [[e|] w']; cbn; repeat split.
Qed.

Lemma closing_closeAPIListener :
  closing closeAPIListener (fun n => opt_obj OListener (apiListener n)).
Proof.
  intros n w. cbn zeta. rewrite closeAPIListener_run. cbn [node world].
  destruct (apiListener n) as [l|]; cbn; [|repeat split].
  destruct (obj_Close (OListener l) w) as [[e|] w']; cbn; repeat split.
Qed.

Lemma closing_closeAdminServer :
  closing closeAdminServer (fun n => opt_obj OAdmin (adminServer n)).
Proof.
  intros n w. cbn zeta. unfold closeAdminServer. rewrite bind_get_node. cbn [node].
  destruct (adminServer n) as [a|]; cbn; [|repeat split].
  destruct (obj_Close (OAdmin a) w) as [[e|] w']; cbn; repeat split.
Qed.

Lemma closing_close_if_set (mk : ref -> obj) (field : Node -> option ref) :
  closing (bind get_node (fun s => close_if_set (option_map mk (field s))))
          (fun n => opt_obj mk (field n)).
Proof.
  intros n w. cbn zeta. rewrite bind_get_node. cbn [node].
  destruct (field n) as [a|]; cbn; [|repeat split].
  destruct (obj_Close (mk a) w) as [[e|] w']; cbn; repeat split.
Qed.

Lemma keeps_node_close_if_set (mk : ref -> obj) (field : Node -> option ref) :
  keeps_node (bind get_node (fun s => close_if_set (option_map mk (field s)))).
Proof.
  intros st. rewrite bind_get_node. destruct (field (node st)); reflexivity.
Qed.

Lemma keeps_node_closeAdminServer : keeps_node closeAdminServer.
Proof.
  intros st. unfold closeAdminServer. rewrite bind_get_node.
  destruct (adminServer (node st)); reflexivity.
Qed.

Lemma keeps_node_check (m k : M W (option error)) :
  keeps_node m -> keeps_node k -> keeps_node (check m k).
Proof.
  intros Hm Hk st. rewrite check_run. specialize (Hm st).
  destruct (m st) as [[ev [[e|]|f a|p]] s]; cbn [result events final fst snd] in *;
    try exact Hm.
  rewrite final_prepend, Hk. exact Hm.
Qed.

Lemma close_seq_app (a b : list obj) (w : W) :
  close_seq (a ++ b) w =
  match close_seq a w with
  | (ev, Some e, w') => (ev, Some e, w')
  | (ev, None, w') =>
      (ev ++ fst (fst (close_seq b w')), snd (fst (close_seq b w')),
       snd (close_seq b w'))
  end.
Proof.
  revert w. induction a as [|o a IH]; intros w.
  - cbn. destruct (close_seq b w) as [[ev r] w']. reflexivity.
  - cbn [app close_seq]. destruct (obj_Close o w) as [[e|] w']; cbn [fst snd].
    + reflexivity.
    + rewrite IH. destruct (close_seq a w') as [[ev [e|]] w'']; reflexivity.
Qed.

Lemma closing_check (m k : M W (option error)) (f f' : Node -> list obj)
    (g : Node -> Node) :
  closing m f ->
  (forall n w, node (final (m (mkState n w))) = g n) ->
  closing k f' ->
  (forall n, f' (g n) = f' n) ->
  closing (check m k) (fun n => f n ++ f' n).
Proof.
  intros Hm Hg Hk Hf n w. cbn zeta. rewrite check_run, close_seq_app.
  specialize (Hm n w). specialize (Hg n w). cbn zeta in Hm.
  destruct Hm as (Hev & Hres & Hw).
  revert Hev Hres Hw Hg.
  generalize (m (mkState n w)). intros [[ev o] [n1 w1]].
  cbn [events result final fst snd node world]. intros -> -> -> ->.
  destruct (close_seq (f n) w) as [[eva [e|]] wa]; cbn [fst snd].
  - repeat split.
  - specialize (Hk (g n) wa). cbn zeta in Hk. rewrite Hf in Hk.
    rewrite events_prepend, result_prepend, final_prepend.
    destruct Hk as (He & Hr & Hw). rewrite He. repeat split; assumption.
Qed.

Lemma closing_ext (m : M W (option error)) (f f' : Node -> list obj) :
  closing m f -> (forall n, f n = f' n) -> closing m f'.
Proof. intros Hm Hf n w. rewrite <- Hf. apply Hm. Qed.

Lemma closing_ret : closing (W:=W) (ret None) (fun _ => []).
Proof. intros n w. repeat split. Qed.

Lemma close_GraphiteServers_run (gs : list ref) (n : Node) (w : W) :
  let c := close_seq (map OGraphite gs) w in
  let r := close_GraphiteServers gs (mkState n w) in
  events r = fst (fst c) /\ result r = Ret (snd (fst c)) /\ world (final r) = snd c /\
  node (final r) = n.
Proof.
  cbn zeta. revert w. induction gs as [|g gs IH]; intros w; [repeat split|].
  cbn [close_GraphiteServers map close_seq]. rewrite check_run.
  destruct (closing_one (OGraphite g) n w) as (Hev & Hres & Hw & Hn).
  revert Hev Hres Hw Hn.
  generalize (call (obj_Close (OGraphite g)) (EClose (OGraphite g)) (mkState n w)).
  intros [[ev o] [n1 w1]].
  cbn [close_seq events result final fst snd node world]. intros -> -> -> ->.
  destruct (obj_Close (OGraphite g) w) as [[e|] w']; cbn [fst snd].
  - repeat split.
  - rewrite events_prepend, result_prepend, final_prepend.
    destruct (IH w') as (He & Hr & Hw & Hn). rewrite He. repeat split; assumption.
Qed.

Lemma closing_close_GraphiteServers :
  closing (bind get_node (fun s => close_GraphiteServers (GraphiteServers s)))
          (fun n => map OGraphite (GraphiteServers n)).
Proof.
  intros n w. cbn zeta. rewrite bind_get_node. cbn [node].
  destruct (close_GraphiteServers_run (GraphiteServers n) n w) as (He & Hr & Hw & _).
  repeat split; assumption.
Qed.

Lemma keeps_node_close_GraphiteServers :
  keeps_node (bind get_node (fun s => close_GraphiteServers (GraphiteServers s))).
Proof.
  intros [n w]. rewrite bind_get_node. cbn [node].
  apply (close_GraphiteServers_run (GraphiteServers n) n w).
Qed.

Lemma keeps_node_ret {A} (a : A) : keeps_node (W:=W) (ret a).
Proof. intros st. reflexivity. Qed.

Lemma keeps_node_Close_services : keeps_node Close_services.
Proof.
  unfold Close_services.
  repeat (apply keeps_node_check;
          [first [ apply keeps_node_closeAdminServer
                 | apply keeps_node_close_GraphiteServers
                 | apply keeps_node_close_if_set ]|]).
  apply keeps_node_ret.
Qed.

Lemma keeps_node_as_id {A} (m : M W A) :
  keeps_node m -> forall n w, node (final (m (mkState n w))) = (fun x => x) n.
Proof. intros Hm n w. exact (Hm (mkState n w)). Qed.

Lemma closing_Close_services :
  closing Close_services
    (fun n =>
       opt_obj OAdmin (adminServer n) ++
       map OGraphite (GraphiteServers n) ++
       opt_obj OOpenTSDB (OpenTSDBServer n) ++
       opt_obj OServer (DataNode n) ++
       opt_obj OLog (raftLog n) ++
       opt_obj OBroker (Broker n)).
Proof.
  apply (closing_ext _
    (fun n =>
       opt_obj OAdmin (adminServer n) ++
       map OGraphite (GraphiteServers n) ++
       opt_obj OOpenTSDB (OpenTSDBServer n) ++
       opt_obj OServer (DataNode n) ++
       opt_obj OLog (raftLog n) ++
       opt_obj OBroker (Broker n) ++ [])).
  2:{ intros n. rewrite app_nil_r. reflexivity. }
  unfold Close_services.
  apply (closing_check _ _ _ _ (fun x => x));
    [apply closing_closeAdminServer
    |apply keeps_node_as_id, keeps_node_closeAdminServer | |reflexivity].
  apply (closing_check _ _ _ _ (fun x => x));
    [apply closing_close_GraphiteServers
    |apply keeps_node_as_id, keeps_node_close_GraphiteServers | |reflexivity].
  do 4 (apply (closing_check _ _ _ _ (fun x => x));
        [apply closing_close_if_set
        |apply keeps_node_as_id, keeps_node_close_if_set | |reflexivity]).
  apply closing_ret.
Qed.

(** [Close] closes the handles of [close_plan], in that order, up to the
    first error. *)
Lemma closing_Close : closing Close close_plan.
Proof.
  change Close with (check closeClusterListener (check closeAPIListener Close_services)).
  unfold close_plan.
  apply (closing_check _ _ _ _ (set_clusterListener None)).
  - apply closing_closeClusterListener.
  - intros n w. rewrite closeClusterListener_run. cbn [node].
    destruct (clusterListener n) eqn:E; [reflexivity|].
    destruct n; cbn in E |- *; subst; reflexivity.
  - apply (closing_check _ _ _ _ (set_apiListener None)).
    + apply closing_closeAPIListener.
    + intros n w. rewrite closeAPIListener_run. cbn [node].
      destruct (apiListener n) eqn:E; [reflexivity|].
      destruct n; cbn in E |- *; subst; reflexivity.
    + apply closing_Close_services.
    + intros n. reflexivity.
  - intros n. reflexivity.
Qed.

(** The trace of [close_seq]: successes, then at most one failure. *)
Lemma close_seq_shape (os : list obj) (w : W) :
  let c := close_seq os w in
  (snd (fst c) = None /\ fst (fst c) = map (fun o => EClose o None) os)
  \/ (exists done o rest e,
        os = done ++ o :: rest /\
        snd (fst c) = Some e /\
        fst (fst c) = map (fun o => EClose o None) done ++ [EClose o (Some e)]).
Proof.
  cbn zeta. revert w. induction os as [|o os IH]; intros w.
  - left. split; reflexivity.
  - cbn [close_seq]. destruct (obj_Close o w) as [[e|] w']; cbn [fst snd].
    + right. exists [], o, os, e. repeat split.
    + destruct (IH w') as [[Hr He]|(done & o' & rest & e & Hos & Hr & He)].
      * left. split; [exact Hr|]. cbn [map]. f_equal. exact He.
      * right. exists (o :: done), o', rest, e. subst os.
        split; [reflexivity|]. split; [exact Hr|]. cbn [map app]. f_equal. exact He.
Qed.

(** C6.  [Close] goes through the handles of the node in the order of the
    plan.  Either every close succeeds, all of them are closed and [Close]
    returns [nil]; or some close fails, the ones before it succeeded, nothing
    behind it is closed, and [Close] returns the error of that close. *)
Theorem Close_stops_at_first_error (st : state W) :
  let run := Close st in
  let plan := close_plan (node st) in
  (result run = Ret None /\
   events run = map (fun o => EClose o None) plan)
  \/ (exists done o rest e,
        plan = done ++ o :: rest /\
        result run = Ret (Some e) /\
        events run = map (fun o => EClose o None) done ++ [EClose o (Some e)]).
Proof.
  cbn zeta. destruct st as [n w].
  destruct (closing_Close n w) as (Hev & Hres & _). cbn zeta in *.
  rewrite Hev, Hres. cbn [node].
  destruct (close_seq_shape (close_plan n) w) as [[Hr He]|(done & o & rest & e & Hp & Hr & He)].
  - left. rewrite Hr. split; [reflexivity | exact He].
  - right. exists done, o, rest, e. rewrite Hr. repeat split; assumption.
Qed.

(** C9.  Closing a listener a second time does nothing: after
    [closeAPIListener] (or [closeClusterListener]) has run once, running it
    again, in whatever world, calls no [Close], leaves node and world as they
    are and returns [nil]; the same holds whenever the field is [nil]. *)
Theorem closing_a_listener_twice :
  (forall (st : state W) w',
      let again := mkState (node (final (closeAPIListener st))) w' in
      closeAPIListener again = ([], Ret None, again)) /\
  (forall (st : state W) w',
      let again := mkState (node (final (closeClusterListener st))) w' in
      closeClusterListener again = ([], Ret None, again)) /\
  (forall n (w : W),
      closeAPIListener (mkState (set_apiListener None n) w)
      = ([], Ret None, mkState (set_apiListener None n) w)) /\
  (forall n (w : W),
      closeClusterListener (mkState (set_clusterListener None n) w)
      = ([], Ret None, mkState (set_clusterListener None n) w)).
Proof.
  split; [|split; [|split]].
  - intros st w'. cbn zeta. rewrite (closeAPIListener_run st), closeAPIListener_run.
    destruct (apiListener (node st)) eqn:E; cbn [final snd node]; [reflexivity|].
    rewrite E. reflexivity.
  - intros st w'. cbn zeta. rewrite (closeClusterListener_run st), closeClusterListener_run.
    destruct (clusterListener (node st)) eqn:E; cbn [final snd node]; [reflexivity|].
    rewrite E. reflexivity.
  - intros n w. rewrite closeAPIListener_run. reflexivity.
  - intros n w. rewrite closeClusterListener_run. reflexivity.
Qed.

Lemma close_seq_events (os : list obj) (w : W) o r :
  In (EClose o r) (fst (fst (close_seq os w))) -> In o os.
Proof.
  revert w. induction os as [|o' os IH]; intros w; cbn [close_seq];
    [cbn; intros []|].
  destruct (obj_Close o' w) as [[e|] w']; cbn [fst snd In].
  - intros [Heq|[]]. injection Heq as -> _. left. reflexivity.
  - intros [Heq|Hin]; [injection Heq as -> _; left; reflexivity|].
    right. exact (IH w' Hin).
Qed.

Lemma close_plan_listener (n : Node) l :
  In (OListener l) (close_plan n) ->
  clusterListener n = Some l \/ apiListener n = Some l.
Proof.
  assert (Hopt : forall (mk : ref -> obj) (p : option ref),
             In (OListener l) (opt_obj mk p) -> exists r, p = Some r /\ mk r = OListener l).
  { intros mk [r|] Hin; [|destruct Hin].
    destruct Hin as [Heq|[]]. exists r. split; [reflexivity | exact Heq]. }
  unfold close_plan. intros Hin.
  apply in_app_or in Hin as [Hin|Hin].
  { left. apply Hopt in Hin as (r & -> & Heq). congruence. }
  apply in_app_or in Hin as [Hin|Hin].
  { right. apply Hopt in Hin as (r & -> & Heq). congruence. }
  exfalso.
  apply in_app_or in Hin as [Hin|Hin].
  { apply Hopt in Hin as (r & _ & Heq). discriminate Heq. }
  apply in_app_or in Hin as [Hin|Hin].
  { apply in_map_iff in Hin as (g & Heq & _). discriminate Heq. }
  apply in_app_or in Hin as [Hin|Hin].
  { apply Hopt in Hin as (r & _ & Heq). discriminate Heq. }
  apply in_app_or in Hin as [Hin|Hin].
  { apply Hopt in Hin as (r & _ & Heq). discriminate Heq. }
  apply in_app_or in Hin as [Hin|Hin].
  { apply Hopt in Hin as (r & _ & Heq). discriminate Heq. }
  apply Hopt in Hin as (r & _ & Heq). discriminate Heq.
Qed.

(** Where [Close] leaves the two listener fields: both [nil], unless the
    close of the cluster listener failed, which is then all that happened. *)
Lemma Close_final_node (st : state W) :
  let r := Close st in
  (exists cl e,
      clusterListener (node st) = Some cl /\
      events r = [EClose (OListener cl) (Some e)] /\
      result r = Ret (Some e) /\
      node (final r) = set_clusterListener None (node st))
  \/ (clusterListener (node (final r)) = None /\
      apiListener (node (final r)) = None).
Proof.
  cbn zeta.
  change Close with (check closeClusterListener (check closeAPIListener Close_services)).
  destruct st as [n w].
  assert (Hapi : forall n1 w1,
             clusterListener n1 = None ->
             let r := check closeAPIListener Close_services (mkState n1 w1) in
             clusterListener (node (final r)) = None /\
             apiListener (node (final r)) = None).
  { intros n1 w1 Hc. cbn zeta. rewrite check_run, closeAPIListener_run. cbn [node world].
    destruct (apiListener n1) as [al|] eqn:Ea.
    - destruct (obj_Close (OListener al) w1) as [[e|] w2];
        cbn [result events final fst snd]; rewrite ?final_prepend, ?keeps_node_Close_services;
        cbn [node]; destruct n1; cbn in *; subst; split; reflexivity.
    - cbn [result events final fst snd]. rewrite final_prepend, keeps_node_Close_services.
      cbn [node]. split; assumption. }
  rewrite check_run, closeClusterListener_run. cbn [node world].
  destruct (clusterListener n) as [cl|] eqn:Ec.
  - destruct (obj_Close (OListener cl) w) as [[e|] w1]; cbn [result events final fst snd].
    + left. exists cl, e. repeat split.
    + right. rewrite final_prepend. apply Hapi. destruct n; reflexivity.
  - right. cbn [result events final fst snd]. rewrite final_prepend. apply Hapi. exact Ec.
Qed.

(** C10.  After [closeAPIListener] or [closeClusterListener] has run, its
    field is [nil], whether the close of the listener succeeded or failed;
    after [Close] the cluster listener is [nil].  So when [Close] reports the
    failure of closing a listener (one held in a single field of the node),
    a later [Close] on the node it left, in whatever world, does not close
    that listener again, and so cannot report its error again. *)
Theorem listener_cleared_after_close :
  (forall (st : state W), apiListener (node (final (closeAPIListener st))) = None) /\
  (forall (st : state W),
      clusterListener (node (final (closeClusterListener st))) = None) /\
  (forall (st : state W), clusterListener (node (final (Close st))) = None) /\
  (forall (st : state W) l e,
      In (EClose (OListener l) (Some e)) (events (Close st)) ->
      clusterListener (node st) <> apiListener (node st) ->
      forall w' r,
        ~ In (EClose (OListener l) r)
             (events (Close (mkState (node (final (Close st))) w')))).
Proof.
  split; [|split; [|split]].
  - intros st. rewrite closeAPIListener_run.
    destruct (apiListener (node st)) eqn:E; cbn [final snd node]; [|exact E].
    destruct (node st); reflexivity.
  - intros st. rewrite closeClusterListener_run.
    destruct (clusterListener (node st)) eqn:E; cbn [final snd node]; [|exact E].
    destruct (node st); reflexivity.
  - intros st. destruct (Close_final_node st) as [(cl & e & _ & _ & _ & Hn)|[Hc _]].
    + rewrite Hn. destruct (node st); reflexivity.
    + exact Hc.
  - intros st l e Hin Halias w' r Hagain.
    destruct (closing_Close (node (final (Close st))) w') as (Hev & _). cbn zeta in Hev.
    rewrite Hev in Hagain. apply close_seq_events in Hagain.
    apply close_plan_listener in Hagain.
    destruct (Close_final_node st) as [(cl & e' & Hcl & He & _ & Hn)|[Hc Ha]].
    + rewrite He in Hin. destruct Hin as [Heq|[]]. injection Heq as -> _.
      rewrite Hn in Hagain. destruct (node st) eqn:En; cbn in *.
      destruct Hagain as [Hx|Hx]; [discriminate Hx|]. congruence.
    + rewrite Hc, Ha in Hagain. destruct Hagain as [Hx|Hx]; discriminate Hx.
Qed.

End Shutdown.

(** ** The cluster URL *)

Section ClusterAddress.
Context {W : Type} `{Collaborators W}.

(** C8.  With an open cluster listener, [ClusterURL] reads the address the
    listener is bound to, once, and consults neither the configuration nor
    anything else.  When that address splits into host and port, the URL
    returned has scheme http and, as its host, the node's [hostname] joined
    with that port; in particular, when the address is an IP and a port
    joined the way [net] renders a TCP address, the port of the URL is that
    very port.  When the address does not split, the call panics with the
    error of [net.SplitHostPort], without a second attempt. *)
Theorem ClusterURL_bound_port (st : state W) l :
  clusterListener (node st) = Some l ->
  let addr := listener_Addr l (world st) in
  (forall h p,
      SplitHostPort addr = inl (h, p) ->
      ClusterURL st =
      ([EListenerAddr l addr],
       Ret {| Scheme := "http"; Host := JoinHostPort (hostname (node st)) p |},
       st)) /\
  (forall ip port,
      addr = JoinHostPort ip port ->
      lacks "[" ip -> lacks "]" ip ->
      lacks ":" port -> lacks "[" port -> lacks "]" port ->
      ClusterURL st =
      ([EListenerAddr l addr],
       Ret {| Scheme := "http"; Host := JoinHostPort (hostname (node st)) port |},
       st)) /\
  (forall e,
      SplitHostPort addr = inr e ->
      ClusterURL st = ([EListenerAddr l addr], Panic (PError e), st)) /\
  (forall c,
      let st' := mkState (set_config c (node st)) (world st) in
      events (ClusterURL st') = events (ClusterURL st) /\
      result (ClusterURL st') = result (ClusterURL st)).
Proof.
  intros Hl. cbn zeta.
  split; [|split; [|split]].
  - intros h p Hs. rewrite ClusterURL_run, Hl. cbn zeta. rewrite Hs. reflexivity.
  - intros ip port Ha Il Ir Pc Pl Pr. rewrite ClusterURL_run, Hl. cbn zeta.
    rewrite Ha, (SplitHostPort_JoinHostPort ip port Il Ir Pc Pl Pr). reflexivity.
  - intros e Hs. rewrite ClusterURL_run, Hl. cbn zeta. rewrite Hs. reflexivity.
  - intros c. rewrite !ClusterURL_run. cbn [node world].
    destruct (node st) as [b d r cf hn a cl al gs o]. cbn in Hl |- *. rewrite Hl.
    destruct (SplitHostPort (listener_Addr l (world st))) as [[h p]|e]; split; reflexivity.
Qed.

End ClusterAddress.

(** ** Start order against stop order *)

Section StartStop.
Context {W : Type} `{Collaborators W}.
Variables (version commit messagingClientFile : string).
Variable filepath_Join : string -> string -> string.

Lemma joinLog_acquires_nothing l urls (st : state W) :
  acquired (events (joinLog l urls st)) = [].
Proof.
  revert st. induction urls as [|u urls IH]; intros st; cbn [joinLog]; [reflexivity|].
  rewrite bind_call. destruct (log_Join l u (world st)) as [[e|] w']; cbn [fst snd].
  - assert (Hretry : acquired (events (prepend [ELogJoin l u (Some e)]
              (bind (Printf "join: failed to connect to raft cluster: %s: %s"
                            [VURL u; VError e])
                    (fun _ => joinLog l urls) (mkState (node st) w')))) = []).
    { rewrite bind_Printf, !events_prepend. unfold acquired in *.
      rewrite !pick_app, IH. reflexivity. }
    destruct e; try exact Hretry. reflexivity.
  - reflexivity.
Qed.

Lemma bootstrap_log_acquires_nothing b l index urls (st : state W) :
  let r := bootstrap_log b l index urls st in
  acquired (events r) = [] /\ node (final r) = node st.
Proof.
  cbn zeta. destruct (N.eq_dec index 0) as [->|Hi].
  - destruct urls as [|u urls].
    + rewrite bootstrap_log_initialize. cbn zeta.
      destruct (fst (log_Initialize l (world st))); split; reflexivity.
    + rewrite bootstrap_log_join by discriminate.
      split; [apply joinLog_acquires_nothing | apply (joinLog_run l (u :: urls) st)].
  - rewrite (bootstrap_log_member b l index urls st Hi). split; reflexivity.
Qed.

(** A run of [openBroker] that returns has opened the broker, then the raft
    log, and has stored both in the node. *)
Lemma openBroker_acquires urls h (st : state W) :
  let r := openBroker filepath_Join urls h st in
  returned (result r) = true ->
  exists b l,
    acquired (events r) = [OBroker b; OLog l] /\
    node (final r) = set_raftLog (Some l) (set_Broker (Some b) (node st)).
Proof.
  cbn zeta. intros Hret.
  destruct (openBroker_run filepath_Join urls h st)
    as [[Hd _]|(pre & b & l & st1 & _ & Hn & Ha & Hrun)].
  - destruct (result (openBroker filepath_Join urls h st)); [destruct Hd | discriminate Hret ..].
  - cbn zeta in Hrun. rewrite Hrun, events_prepend, final_prepend.
    destruct (bootstrap_log_acquires_nothing b l
                (fst (log_LastLogIndexTerm l (world st1))) urls st1) as (Hacq & Hnode).
    exists b, l. split.
    + unfold acquired in *. rewrite !pick_app, Hacq. cbn [app] in Ha. rewrite Ha. reflexivity.
    + rewrite Hnode. exact Hn.
Qed.

Lemma failed_attempts_acquires_nothing n u fails :
  acquired (failed_attempts n u fails) = [].
Proof.
  induction fails as [|je fails IH]; [reflexivity|].
  unfold failed_attempts, acquired in *. cbn. exact IH.
Qed.

Lemma joinOrInitializeServer_acquires_nothing n u urls (st : state W) :
  acquired (events (joinOrInitializeServer n u urls st)) = [].
Proof.
  destruct (joinOrInitializeServer_run n u urls st) as (_ & fails & _ & Hc).
  cbn zeta in Hc.
  pose proof (failed_attempts_acquires_nothing n u fails) as Hf.
  unfold acquired in *.
  destruct Hc as [(a & _ & _ & He & _)|[(_ & _ & He & _)|[(j & rest & a & _ & He & _)
                                                     |(j & rest & _ & He & _)]]];
    rewrite He, ?pick_app, ?Hf; try (destruct a); reflexivity.
Qed.

Lemma bootstrap_server_acquires_nothing n id urls (st : state W) :
  let r := bootstrap_server n id urls st in
  returned (result r) = true ->
  acquired (events r) = [] /\ node (final r) = node st /\ result r = Ret n.
Proof.
  cbn zeta. destruct (N.eq_dec id 0) as [->|Hi].
  2:{ rewrite (bootstrap_server_member n id urls st Hi). repeat split. }
  destruct (bootstrap_server_zero n urls st) as (evs & _ & _ & [[p Hp]|[u [Hu Hb]]]).
  - rewrite Hp. discriminate.
  - cbn zeta in Hb. rewrite Hb. cbn [events result final fst snd]. intros Hret.
    destruct (joinOrInitializeServer_run n u urls st) as (Hn & _).
    pose proof (joinOrInitializeServer_acquires_nothing n u urls st) as Hj.
    assert (He : acquired evs = []).
    { pose proof (f_equal events Hu) as Hev. rewrite ClusterURL_run in Hev.
      cbn [events fst] in Hev. rewrite <- Hev.
      destruct (clusterListener (node st)); [|reflexivity].
      cbn zeta. destruct (SplitHostPort _) as [[hh p]|e]; reflexivity. }
    unfold acquired in *. rewrite pick_app, He, Hj.
    repeat split; [exact Hn|].
    destruct (result (joinOrInitializeServer n u urls st)); [reflexivity | discriminate Hret ..].
Qed.

(** A run of [openServer] that returns has opened the data node it returns
    and has left the node as it was. *)
Lemma openServer_acquires urls (st : state W) :
  let r := openServer version commit messagingClientFile filepath_Join urls st in
  returned (result r) = true ->
  exists d,
    result r = Ret d /\
    acquired (events r) = [OServer d] /\
    node (final r) = node st.
Proof.
  cbn zeta. intros Hret.
  destruct (openServer_run version commit messagingClientFile filepath_Join urls st)
    as [[Hd _]|(pre & n & st1 & _ & Hn & Ha & Hrun)].
  - destruct (result (openServer _ _ _ _ urls st)); [destruct Hd | discriminate Hret ..].
  - cbn zeta in Hrun. rewrite Hrun in Hret |- *.
    rewrite events_prepend, final_prepend, result_prepend in *.
    destruct (bootstrap_server_acquires_nothing n (server_ID n (world st1)) urls st1 Hret)
      as (Hacq & Hnode & Hres).
    exists n. split; [exact Hres|]. split.
    + unfold acquired in *. rewrite !pick_app, Hacq. cbn [app] in Ha.
      change (pick acquired_by [ESleep (1 * second); EServerID n (server_ID n (world st1))])
        with (@nil obj).
      rewrite !app_nil_r. exact Ha.
    + rewrite Hnode. exact Hn.
Qed.

Lemma check_returns_nil (m k : M W (option error)) (st : state W) :
  result (check m k st) = Ret None ->
  result (m st) = Ret None /\
  result (k (final (m st))) = Ret None /\
  events (check m k st) = events (m st) ++ events (k (final (m st))) /\
  final (check m k st) = final (k (final (m st))).
Proof.
  rewrite check_run.
  destruct (m st) as [[ev [[e|]|f a|p]] s]; cbn [result events final fst snd];
    try discriminate.
  rewrite result_prepend. intros Hk. repeat split. exact Hk.
Qed.

Lemma bind_returns {A B} (m : M W A) (k : A -> M W B) (st : state W) b :
  result (bind m k st) = Ret b ->
  exists a,
    result (m st) = Ret a /\
    result (k a (final (m st))) = Ret b /\
    events (bind m k st) = events (m st) ++ events (k a (final (m st))) /\
    final (bind m k st) = final (k a (final (m st))).
Proof.
  rewrite bind_prepend.
  destruct (m st) as [[ev [a|f ar|p]] s]; cbn [result events final fst snd];
    try discriminate.
  rewrite result_prepend. intros Hk. exists a. repeat split. exact Hk.
Qed.

Lemma openClusterListener_acquires addr h (st : state W) :
  let r := openClusterListener addr h st in
  result r = Ret None ->
  exists l,
    acquired (events r) = [OListener l] /\
    node (final r) = set_clusterListener (Some l) (node st).
Proof.
  cbn zeta. unfold openClusterListener, openListener.
  rewrite !bind_assoc, bind_call.
  destruct (net_Listen addr (world st)) as [[l|e] w']; cbn [fst snd].
  - rewrite bind_assoc, bind_call_, bind_ret, bind_modify_node. cbn [listener_of error_of].
    intros _. exists l. split; reflexivity.
  - rewrite bind_ret, bind_modify_node. cbn [listener_of error_of]. discriminate.
Qed.

Lemma openAPIListener_acquires addr h (st : state W) :
  let r := openAPIListener addr h st in
  result r = Ret None ->
  exists l,
    acquired (events r) = [OListener l] /\
    node (final r) = set_apiListener (Some l) (node st).
Proof.
  cbn zeta. unfold openAPIListener, openListener.
  rewrite !bind_assoc, bind_call.
  destruct (net_Listen addr (world st)) as [[l|e] w']; cbn [fst snd].
  - rewrite bind_assoc, bind_call_, bind_ret, bind_modify_node. cbn [listener_of error_of].
    intros _. exists l. split; reflexivity.
  - rewrite bind_ret, bind_modify_node. cbn [listener_of error_of]. discriminate.
Qed.

Lemma openAdminServer_acquires port (st : state W) :
  let r := openAdminServer port st in
  result r = Ret None ->
  exists a,
    acquired (events r) = [OAdmin a] /\
    node (final r) = set_adminServer (Some a) (node st).
Proof.
  cbn zeta. unfold openAdminServer. rewrite bind_call.
  destruct (admin_NewServer _ (world st)) as [a w']; cbn [fst snd].
  rewrite bind_modify_node. unfold call, prepend.
  cbn [events result final fst snd node world app].
  destruct (obj_ListenAndServe (OAdmin a) w') as [[e|] w'']; cbn [fst snd];
    [discriminate|].
  intros _. exists a. split; reflexivity.
Qed.

Lemma start_graphites_acquires gs (st : state W) :
  let r := start_graphites gs st in
  result r = Ret None ->
  acquired (events r) = map OGraphite gs /\
  node (final r) = set_GraphiteServers (GraphiteServers (node st) ++ gs) (node st).
Proof.
  cbn zeta. revert st. induction gs as [|g gs IH]; intros st; cbn [start_graphites].
  - intros _. split; [reflexivity|]. cbn. rewrite app_nil_r. destruct (node st); reflexivity.
  - intros Hres. apply check_returns_nil in Hres as (Hg & Hk & Hev & Hfin).
    rewrite Hev, Hfin. destruct (IH _ Hk) as (Hacq & Hnode).
    unfold acquired in *. rewrite pick_app, Hacq, Hnode.
    revert Hg. unfold start_graphite. rewrite bind_call.
    destruct (obj_ListenAndServe (OGraphite g) (world st)) as [[e|] w']; cbn [fst snd].
    + rewrite result_prepend. discriminate.
    + rewrite bind_get_node, bind_modify_node. intros _.
      cbn [prepend events result final fst snd node world app pick acquired_by].
      split; [reflexivity|].
      destruct (node st); cbn. rewrite <- app_assoc. reflexivity.
Qed.

Lemma start_opentsdb_acquires o (st : state W) :
  let r := start_opentsdb o st in
  result r = Ret None ->
  acquired (events r) = opt_obj OOpenTSDB o /\
  node (final r) =
    match o with
    | Some t => set_OpenTSDBServer (Some t) (node st)
    | None => node st
    end.
Proof.
  cbn zeta. destruct o as [t|]; cbn [start_opentsdb]; [|intros _; split; reflexivity].
  rewrite bind_call.
  destruct (obj_ListenAndServe (OOpenTSDB t) (world st)) as [[e|] w']; cbn [fst snd].
  - rewrite result_prepend. discriminate.
  - rewrite bind_modify_node. intros _. split; reflexivity.
Qed.

Lemma released_successes (os : list obj) :
  released (map (fun o => EClose o None) os) = os.
Proof.
  induction os as [|o os IH]; [reflexivity|].
  unfold released in *. cbn. rewrite IH. reflexivity.
Qed.

(** C5, as the code has it.  [Close] releases the handles of the node in the
    order of [close_plan]: cluster listener, API listener, admin server,
    graphite servers in the order of the slice, OpenTSDB server, data node,
    raft log, broker; what it has released is always a prefix of the plan,
    and the whole plan when it returns [nil].  After a start in the stated
    order that went through, the handles were acquired as cluster listener,
    API listener, broker, raft log, data node, admin server, ingest servers,
    and the plan of the node is cluster listener, API listener, admin
    server, ingest servers, data node, raft log, broker: the stop order
    reverses the start order among broker, raft log and data node, and puts
    these three last; the listeners, the admin server and the ingest servers
    are released first and in the order they were acquired. *)
Theorem Close_order_against_Start :
  (forall (st : state W),
      let run := Close st in
      exists rest,
        close_plan (node st) = released (events run) ++ rest /\
        (result run = Ret None -> rest = [])) /\
  (forall clusterAddr apiAddr h brokerURLs joinURLs adminPort graphite opentsdb
          (st : state W),
      GraphiteServers (node st) = [] ->
      OpenTSDBServer (node st) = None ->
      let up := Start version commit messagingClientFile filepath_Join
                      clusterAddr apiAddr h brokerURLs joinURLs adminPort
                      graphite opentsdb st in
      result up = Ret None ->
      exists cl al b l d a,
        acquired (events up) =
          [OListener cl; OListener al; OBroker b; OLog l; OServer d; OAdmin a] ++
          map OGraphite graphite ++ opt_obj OOpenTSDB opentsdb /\
        close_plan (node (final up)) =
          [OListener cl; OListener al; OAdmin a] ++
          map OGraphite graphite ++ opt_obj OOpenTSDB opentsdb ++
          [OServer d; OLog l; OBroker b]).
Proof.
  split.
  - intros [n w]. cbn zeta.
    destruct (closing_Close n w) as (Hev & Hres & _). cbn zeta in *.
    rewrite Hev, Hres. cbn [node].
    destruct (close_seq_shape (close_plan n) w)
      as [[Hr He]|(done & o & rest & e & Hp & Hr & He)]; rewrite He, Hr.
    + exists []. rewrite released_successes, app_nil_r. split; reflexivity.
    + exists rest. unfold released. rewrite pick_app.
      fold (released (map (fun o0 : obj => EClose o0 None) done)).
      rewrite released_successes, Hp, <- app_assoc. split; [reflexivity | discriminate].
  - intros clusterAddr apiAddr h brokerURLs joinURLs adminPort graphite opentsdb st
           Hgs Hts. cbn zeta. unfold Start. intros Hres.
    apply check_returns_nil in Hres as (Hcl & Hres & Hev1 & Hfin1).
    destruct (openClusterListener_acquires clusterAddr h st Hcl) as (cl & Acl & Ncl).
    apply check_returns_nil in Hres as (Hal & Hres & Hev2 & Hfin2).
    destruct (openAPIListener_acquires apiAddr h _ Hal) as (al & Aal & Nal).
    apply bind_returns in Hres as ([] & Hb & Hres & Hev3 & Hfin3).
    destruct (openBroker_acquires brokerURLs h _ ltac:(rewrite Hb; reflexivity))
      as (b & l & Ab & Nb).
    apply bind_returns in Hres as (d' & Hd & Hres & Hev4 & Hfin4).
    destruct (openServer_acquires joinURLs _ ltac:(rewrite Hd; reflexivity))
      as (d & Hd' & Ad & Nd).
    rewrite Hd in Hd'. injection Hd' as ->.
    rewrite bind_modify_node in Hres, Hev4, Hfin4.
    apply check_returns_nil in Hres as (Ha & Hres & Hev5 & Hfin5).
    destruct (openAdminServer_acquires adminPort _ Ha) as (a & Aa & Na).
    apply check_returns_nil in Hres as (Hg & Hres & Hev6 & Hfin6).
    destruct (start_graphites_acquires graphite _ Hg) as (Ag & Ng).
    apply check_returns_nil in Hres as (Ho & _ & Hev7 & Hfin7).
    destruct (start_opentsdb_acquires opentsdb _ Ho) as (Ao & No).
    exists cl, al, b, l, d, a. split.
    + rewrite Hev1, Hev2, Hev3, Hev4, Hev5, Hev6, Hev7.
      unfold acquired in *. rewrite !pick_app, Acl, Aal, Ab, Ad, Aa, Ag, Ao.
      cbn [events fst ret pick app]. rewrite app_nil_r. reflexivity.
    + rewrite Hfin1, Hfin2, Hfin3, Hfin4, Hfin5, Hfin6, Hfin7.
      cbn [final snd ret]. rewrite No, Ng, Na. cbn [node]. rewrite Nd, Nb, Nal, Ncl.
      destruct (node st) as [b0 d0 r0 c0 hn0 a0 cl0 al0 gs0 o0].
      cbn in Hgs, Hts. subst gs0 o0.
      destruct opentsdb; reflexivity.
Qed.

End StartStop.

(** * Further properties of the code *)

(** ** Listeners and the admin server *)

Section Listeners.
Context {W : Type} `{Collaborators W}.

Lemma openListener_run desc addr h (st : state W) :
  openListener desc addr h st =
  match fst (net_Listen addr (world st)) with
  | inl l =>
      ([EListen addr (inl l); EServe desc addr l h], Ret (inl l),
       mkState (node st) (http_Serve desc addr l h (snd (net_Listen addr (world st)))))
  | inr e =>
      ([EListen addr (inr e)], Ret (inr e),
       mkState (node st) (snd (net_Listen addr (world st))))
  end.
Proof.
  unfold openListener. rewrite bind_call.
  destruct (net_Listen addr (world st)) as [[l|e] w']; cbn [fst snd].
  - rewrite bind_call_. reflexivity.
  - reflexivity.
Qed.

Lemma openAPIListener_run addr h (st : state W) :
  openAPIListener addr h st =
  match fst (net_Listen addr (world st)) with
  | inl l =>
      ([EListen addr (inl l); EServe "API" addr l h], Ret None,
       mkState (set_apiListener (Some l) (node st))
               (http_Serve "API" addr l h (snd (net_Listen addr (world st)))))
  | inr e =>
      ([EListen addr (inr e)], Ret (Some e),
       mkState (set_apiListener None (node st)) (snd (net_Listen addr (world st))))
  end.
Proof.
  unfold openAPIListener. rewrite (bind_prepend (openListener "API" addr h)), openListener_run.
  destruct (fst (net_Listen addr (world st))) as [l|e];
    cbn [result events final fst snd]; rewrite bind_modify_node; reflexivity.
Qed.

Lemma openClusterListener_run addr h (st : state W) :
  openClusterListener addr h st =
  match fst (net_Listen addr (world st)) with
  | inl l =>
      ([EListen addr (inl l); EServe "Cluster" addr l h], Ret None,
       mkState (set_clusterListener (Some l) (node st))
               (http_Serve "Cluster" addr l h (snd (net_Listen addr (world st)))))
  | inr e =>
      ([EListen addr (inr e)], Ret (Some e),
       mkState (set_clusterListener None (node st)) (snd (net_Listen addr (world st))))
  end.
Proof.
  unfold openClusterListener.
  rewrite (bind_prepend (openListener "Cluster" addr h)), openListener_run.
  destruct (fst (net_Listen addr (world st))) as [l|e];
    cbn [result events final fst snd]; rewrite bind_modify_node; reflexivity.
Qed.

(** X1.  Opening a listener.  [openAPIListener] and [openClusterListener]
    always return.  When they return an error, it is the error of
    [net.Listen], no goroutine was started to serve, nothing was closed, and
    the field of the node is [nil], whatever it held before.  When they
    return [nil], the field holds the new listener and exactly one goroutine
    was started, serving that listener with the handler given. *)
Theorem open_listener_outcome addr h (st : state W) :
  (let r := openAPIListener addr h st in
   (exists e,
       result r = Ret (Some e) /\ events r = [EListen addr (inr e)] /\
       apiListener (node (final r)) = None)
   \/ (exists l,
         result r = Ret None /\ serves (events r) = [("API", addr, l, h)] /\
         acquired (events r) = [OListener l] /\
         apiListener (node (final r)) = Some l)) /\
  (let r := openClusterListener addr h st in
   (exists e,
       result r = Ret (Some e) /\ events r = [EListen addr (inr e)] /\
       clusterListener (node (final r)) = None)
   \/ (exists l,
         result r = Ret None /\ serves (events r) = [("Cluster", addr, l, h)] /\
         acquired (events r) = [OListener l] /\
         clusterListener (node (final r)) = Some l)).
Proof.
  split; cbn zeta.
  - rewrite openAPIListener_run.
    destruct (fst (net_Listen addr (world st))) as [l|e].
    + right. exists l. destruct (node st). repeat split.
    + left. exists e. destruct (node st). repeat split.
  - rewrite openClusterListener_run.
    destruct (fst (net_Listen addr (world st))) as [l|e].
    + right. exists l. destruct (node st). repeat split.
    + left. exists e. destruct (node st). repeat split.
Qed.

(** X2.  Open, then close.  After [openClusterListener] (or
    [openAPIListener]) has returned [nil], the matching close function, run
    on the node it left in whatever world, calls [Close] once, on the
    listener that was opened, returns what that call returns, and leaves the
    field [nil]. *)
Theorem open_then_close_listener addr h (st : state W) w' :
  (result (openClusterListener addr h st) = Ret None ->
   exists l,
     acquired (events (openClusterListener addr h st)) = [OListener l] /\
     let r := closeClusterListener
                (mkState (node (final (openClusterListener addr h st))) w') in
     events r = [EClose (OListener l) (fst (obj_Close (OListener l) w'))] /\
     result r = Ret (fst (obj_Close (OListener l) w')) /\
     clusterListener (node (final r)) = None) /\
  (result (openAPIListener addr h st) = Ret None ->
   exists l,
     acquired (events (openAPIListener addr h st)) = [OListener l] /\
     let r := closeAPIListener
                (mkState (node (final (openAPIListener addr h st))) w') in
     events r = [EClose (OListener l) (fst (obj_Close (OListener l) w'))] /\
     result r = Ret (fst (obj_Close (OListener l) w')) /\
     apiListener (node (final r)) = None).
Proof.
  split.
  - rewrite openClusterListener_run.
    destruct (fst (net_Listen addr (world st))) as [l|e]; [|discriminate].
    intros _. exists l. split; [reflexivity|]. cbn zeta.
    rewrite closeClusterListener_run. cbn [final snd node world].
    destruct (node st). cbn. repeat split.
  - rewrite openAPIListener_run.
    destruct (fst (net_Listen addr (world st))) as [l|e]; [|discriminate].
    intros _. exists l. split; [reflexivity|]. cbn zeta.
    rewrite closeAPIListener_run. cbn [final snd node world].
    destruct (node st). cbn. repeat split.
Qed.

(** X3.  The admin server.  [openAdminServer] creates a server for the
    address made of an empty host and the port in decimal, stores it in the
    node before it starts it, and returns what [ListenAndServe] returns.  The
    handle is therefore kept when the start fails, and [closeAdminServer] on
    the node left behind closes exactly that server. *)
Theorem openAdminServer_keeps_handle port (st : state W) w' :
  let r := openAdminServer port st in
  exists a ans,
    events r = [ENewAdminServer (String ":" (Itoa port)) a;
                EListenAndServe (OAdmin a) ans] /\
    result r = Ret ans /\
    adminServer (node (final r)) = Some a /\
    closeAdminServer (mkState (node (final r)) w') =
    ([EClose (OAdmin a) (fst (obj_Close (OAdmin a) w'))],
     Ret (fst (obj_Close (OAdmin a) w')),
     mkState (node (final r)) (snd (obj_Close (OAdmin a) w'))).
Proof.
  cbn zeta. unfold openAdminServer.
  change (JoinHostPort "" (Itoa port)) with (String ":" (Itoa port)).
  rewrite bind_call.
  destruct (admin_NewServer (String ":" (Itoa port)) (world st)) as [a w1]. cbn [fst snd].
  rewrite bind_modify_node. unfold call at 1, prepend.
  cbn [events result final fst snd node world app].
  exists a, (fst (obj_ListenAndServe (OAdmin a) w1)).
  split; [reflexivity|]. split; [reflexivity|].
  split; [destruct (node st); reflexivity|].
  unfold closeAdminServer. rewrite bind_get_node. cbn [node].
  destruct (node st). reflexivity.
Qed.

End Listeners.

(** ** More on shutdown *)

Section ShutdownAgain.
Context {W : Type} `{Collaborators W}.

Lemma same_services_refl (n : Node) : same_services n n.
Proof. repeat split. Qed.

Lemma same_services_trans (a b c : Node) :
  same_services a b -> same_services b c -> same_services a c.
Proof.
  unfold same_services.
  intros (A1 & A2 & A3 & A4 & A5 & A6 & A7 & A8) (B1 & B2 & B3 & B4 & B5 & B6 & B7 & B8).
  repeat split; congruence.
Qed.

Lemma close_seq_all_succeed (os : list obj) (w : W) :
  snd (fst (close_seq os w)) = None ->
  fst (fst (close_seq os w)) = map (fun o => EClose o None) os.
Proof.
  intros Hnil.
  destruct (close_seq_shape os w) as [[_ He]|(done & o & rest & e & _ & Hr & _)].
  - exact He.
  - rewrite Hr in Hnil. discriminate Hnil.
Qed.

(** The node [Close] leaves when it returns [nil]. *)
Lemma Close_nil_node (st : state W) :
  result (Close st) = Ret None ->
  node (final (Close st)) = set_apiListener None (set_clusterListener None (node st)).
Proof.
  change Close with (check closeClusterListener (check closeAPIListener Close_services)).
  intros Hres.
  apply check_returns_nil in Hres as (_ & Hres & _ & Hfin). rewrite Hfin.
  apply check_returns_nil in Hres as (_ & _ & _ & Hfin2). rewrite Hfin2.
  rewrite keeps_node_Close_services.
  rewrite closeAPIListener_run, closeClusterListener_run.
  destruct st as [n w]. cbn [node world].
  destruct (clusterListener n) eqn:Ec; cbn [final snd node world].
  - destruct n; cbn in *. destruct apiListener0; reflexivity.
  - destruct (apiListener n) eqn:Ea; cbn [final snd node]; destruct n; cbn in *; subst;
      reflexivity.
Qed.

Lemma Close_same_services (st : state W) :
  same_services (node st) (node (final (Close st))).
Proof.
  destruct (Close_final_node st) as [(cl & e & _ & _ & _ & Hn)|[Hc Ha]].
  - rewrite Hn. destruct (node st). repeat split.
  - clear Hc Ha.
    change Close with (check closeClusterListener (check closeAPIListener Close_services)).
    rewrite check_run, closeClusterListener_run.
    assert (Hapi : forall st1 : state W,
               same_services (node st1)
                 (node (final (check closeAPIListener Close_services st1)))).
    { intros st1. rewrite check_run, closeAPIListener_run.
      destruct (apiListener (node st1)) as [al|].
      - destruct (obj_Close (OListener al) (world st1)) as [[e|] w2];
          cbn [result events final fst snd]; rewrite ?final_prepend, ?keeps_node_Close_services;
          cbn [node]; destruct (node st1); repeat split.
      - cbn [result events final fst snd]. rewrite final_prepend, keeps_node_Close_services.
        apply same_services_refl. }
    destruct (clusterListener (node st)) as [cl|].
    + destruct (obj_Close (OListener cl) (world st)) as [[e|] w1];
        cbn [result events final fst snd].
      * destruct (node st). repeat split.
      * rewrite final_prepend.
        apply (same_services_trans _ (set_clusterListener None (node st))).
        -- destruct (node st). repeat split.
        -- apply (Hapi (mkState (set_clusterListener None (node st)) w1)).
    + cbn [result events final fst snd]. rewrite final_prepend. apply Hapi.
Qed.

(** X4.  Shutdown of a node that holds nothing.  When no handle of the node
    is set, as on a node that [NewNodeWithConfig] has just built, [Close]
    calls nothing, leaves node and world as they are and returns [nil]. *)
Theorem Close_without_handles :
  (forall (st : state W),
      close_plan (node st) = [] -> Close st = ([], Ret None, st)) /\
  (forall c (w : W),
      Close (mkState (NewNodeWithConfig c) w)
      = ([], Ret None, mkState (NewNodeWithConfig c) w)).
Proof.
  assert (Hgen : forall (st : state W),
             close_plan (node st) = [] -> Close st = ([], Ret None, st)).
  { intros [n w] Hplan. cbn [node] in Hplan.
    destruct (closing_Close n w) as (Hev & Hres & Hw). cbn zeta in *.
    rewrite Hplan in Hev, Hres, Hw. cbn in Hev, Hres, Hw.
    pose proof (Close_nil_node (mkState n w) Hres) as Hn. cbn [node] in Hn.
    rewrite (run_eta (Close (mkState n w))), Hev, Hres.
    destruct (final (Close (mkState n w))) as [n' w']. cbn [node world] in *. subst n' w'.
    f_equal. f_equal.
    unfold close_plan in Hplan.
    destruct n as [b d r c hn a cl al gs o]. cbn in *.
    destruct cl; [discriminate Hplan|]. destruct al; [discriminate Hplan|]. reflexivity. }
  split; [exact Hgen|].
  intros c w. apply Hgen. reflexivity.
Qed.

(** X5.  What [Close] forgets and what it keeps.  [Close] changes no field
    of the node other than the two listeners.  So after a [Close] that
    returned [nil], a second [Close] closes no listener, but calls [Close]
    again on every other handle of the node, in the same order; when those
    calls succeed it returns [nil] once more. *)
Theorem Close_keeps_service_handles (st : state W) :
  same_services (node st) (node (final (Close st))) /\
  (result (Close st) = Ret None ->
   close_plan (node (final (Close st))) = service_plan (node st) /\
   forall w',
     let again := Close (mkState (node (final (Close st))) w') in
     result again = Ret None ->
     events again = map (fun o => EClose o None) (service_plan (node st))).
Proof.
  split; [apply Close_same_services|].
  intros Hres.
  assert (Hplan : close_plan (node (final (Close st))) = service_plan (node st)).
  { rewrite (Close_nil_node st Hres). destruct (node st). reflexivity. }
  split; [exact Hplan|].
  intros w'. cbn zeta. intros Hagain.
  destruct (closing_Close (node (final (Close st))) w') as (Hev & Hr & _). cbn zeta in *.
  rewrite Hev, <- Hplan. apply close_seq_all_succeed.
  rewrite Hr in Hagain. injection Hagain as Hnil. exact Hnil.
Qed.

End ShutdownAgain.

(** ** The stages of [openBroker] *)

Section LogStages.
Context {W : Type} `{Collaborators W}.
Variable filepath_Join : string -> string -> string.

Lemma broker_open_run_cons urls h c n0 e (r : list event * outcome unit * state W) :
  broker_setup_event e = true ->
  broker_open_run filepath_Join urls h c n0 r ->
  broker_open_run filepath_Join urls h c n0 (prepend [e] r).
Proof.
  intros He (setup & b & l & Hq & Hc). cbn zeta in Hc.
  exists (e :: setup), b, l. split; [cbn; rewrite He; exact Hq|].
  destruct Hc as [(e' & st' & Hn & ->)|[(e' & st' & Hn & ->)|(st1 & Hn & ->)]].
  - left. exists e', st'. split; [exact Hn | reflexivity].
  - right. left. exists e', st'. split; [exact Hn | reflexivity].
  - right. right. exists st1. split; [exact Hn|]. cbn zeta.
    rewrite prepend_prepend. reflexivity.
Qed.

(** [openBroker], stage by stage. *)
Lemma openBroker_stages urls h (st : state W) :
  let r := openBroker filepath_Join urls h st in
  (exists p, result r = Panic p /\
             (events r = [] \/ exists cl a, events r = [EListenerAddr cl a]) /\
             final r = st)
  \/ exists c, config (node st) = Some c /\
               broker_open_run filepath_Join urls h c (node st) r.
Proof.
  cbn zeta. destruct st as [n w]. cbn [node].
  unfold openBroker, the_config, ClusterURL, ClusterAddr.
  repeat step.
  destruct (config n) as [c|] eqn:Ec;
    [|step; left; exists PNilDereference; repeat split; left; reflexivity].
  repeat step.
  destruct (clusterListener n) as [cl|];
    [|repeat step; left; exists PNilDereference; repeat split; left; reflexivity].
  repeat step.
  destruct (SplitHostPort _) as [[hh p]|e];
    [|repeat step; left; exists (PError e); repeat split; right; eexists _, _; reflexivity].
  right. exists c. split; [reflexivity|].
  apply broker_open_run_cons; [reflexivity|].
  do 3 step.
  repeat
    (lazymatch goal with
     | |- broker_open_run _ _ _ _ _ (bind (call (broker_Open _ _) _) _ _) => fail
     | |- broker_open_run _ _ _ _ _ (bind _ _ _) =>
         step; try split_call; try (apply broker_open_run_cons; [reflexivity|]);
         try forget_world
     end).
  match goal with
  | |- context [broker_Open ?b _] =>
      match goal with
      | |- context [log_Open ?l _] => exists [], b, l
      end
  end.
  split; [reflexivity|]. cbn zeta.
  rewrite bind_call.
  match goal with
  | |- context [broker_Open ?b ?p ?w0] => destruct (broker_Open b p w0) as [[e|] ?]
  end; cbn [fst snd node world]; rewrite bind_fatal_if.
  { left. eexists e, _. split; [|reflexivity]. reflexivity. }
  rewrite bind_Printf, bind_set, bind_call. cbn [node world].
  match goal with
  | |- context [log_Open ?l ?p ?w0] => destruct (log_Open l p w0) as [[e|] ?]
  end; cbn [fst snd node world]; rewrite bind_fatal_if.
  { right. left. eexists e, _. split; [|reflexivity]. reflexivity. }
  right. right.
  rewrite bind_set, bind_set, bind_read. cbn [node world].
  match goal with
  | |- context [mkState ?n1 ?wl] => exists (mkState n1 wl)
  end.
  split; [reflexivity|].
  unfold bootstrap_log. rewrite !prepend_prepend. reflexivity.
Qed.

Lemma joinLog_bootstrap_events l urls (st : state W) :
  forallb log_bootstrap_event (events (joinLog l urls st)) = true.
Proof.
  revert st. induction urls as [|u urls IH]; intros st; cbn [joinLog]; [reflexivity|].
  rewrite bind_call. destruct (log_Join l u (world st)) as [[e|] w']; cbn [fst snd].
  - assert (Hretry : forallb log_bootstrap_event
              (events (prepend [ELogJoin l u (Some e)]
                 (bind (Printf "join: failed to connect to raft cluster: %s: %s"
                               [VURL u; VError e])
                       (fun _ => joinLog l urls) (mkState (node st) w')))) = true).
    { rewrite bind_Printf, !events_prepend. cbn. apply IH. }
    destruct e; try exact Hretry. reflexivity.
  - reflexivity.
Qed.

Lemma bootstrap_log_bootstrap_events b l index urls (st : state W) :
  forallb log_bootstrap_event (events (bootstrap_log b l index urls st)) = true.
Proof.
  destruct (N.eq_dec index 0) as [->|Hi].
  - destruct urls as [|u urls].
    + rewrite bootstrap_log_initialize. cbn zeta.
      destruct (fst (log_Initialize l (world st))); reflexivity.
    + rewrite bootstrap_log_join by discriminate. apply joinLog_bootstrap_events.
  - rewrite (bootstrap_log_member b l index urls st Hi). reflexivity.
Qed.

Lemma log_bootstrap_picks (evs : list event) :
  forallb log_bootstrap_event evs = true ->
  opens evs = [] /\ handler_writes evs = [].
Proof.
  intros Hq. split;
    (apply (pick_quiet _ log_bootstrap_event);
     [intros [] He; (reflexivity || discriminate He) | exact Hq]).
Qed.

Lemma broker_setup_picks (evs : list event) :
  forallb broker_setup_event evs = true ->
  opens evs = [] /\ handler_writes evs = [] /\ index_reads evs = [].
Proof.
  intros Hq. repeat split;
    (apply (pick_quiet _ broker_setup_event); [|exact Hq]);
    intros [] He; try reflexivity; try discriminate He.
  destruct o; try reflexivity; discriminate He.
Qed.

(** X6.  The stages of [openBroker].  A run ends in one of four ways.  It
    panics before anything is created, because the node has no
    configuration or no usable cluster address.  Or the broker fails to
    open: fatal, and the raft log is never opened.  Or the broker opens and
    the raft log fails to open: fatal.  Or both open, in this order: only
    then is the handler given the broker and the raft log, the very ones the
    node holds in [Broker] and [raftLog], and only then is the index read,
    once.  In the fatal cases the handler is not touched and the index is not
    read.  No field of the node other than [Broker] and [raftLog] changes. *)
Theorem openBroker_opens_broker_then_log urls h (st : state W) :
  let run := openBroker filepath_Join urls h st in
  let evs := events run in
  (exists p,
      result run = Panic p /\ opens evs = [] /\ handler_writes evs = [] /\
      final run = st)
  \/ (exists c b e,
        config (node st) = Some c /\
        opens evs = [(OBroker b, Some e)] /\
        handler_writes evs = [] /\ index_reads evs = [] /\
        result run = Fatal "failed to open broker at %s : %s"
                           [VString (BrokerDir c); VError e])
  \/ (exists b l e,
        opens evs = [(OBroker b, None); (OLog l, Some e)] /\
        handler_writes evs = [] /\ index_reads evs = [] /\
        result run = Fatal "raft: %s" [VError e])
  \/ (exists b l,
        opens evs = [(OBroker b, None); (OLog l, None)] /\
        handler_writes evs =
          [(h, "Broker", VRef (OBroker b)); (h, "Log", VRef (OLog l))] /\
        List.length (index_reads evs) = 1%nat /\
        Broker (node (final run)) = Some b /\
        raftLog (node (final run)) = Some l /\
        same_but_log_layer (node st) (node (final run))).
Proof.
  cbn zeta.
  destruct (openBroker_stages urls h st)
    as [(p & Hres & Hev & Hfin)|(c & Hc & setup & b & l & Hq & Hcases)].
  - left. exists p. split; [exact Hres|].
    destruct Hev as [->|(cl & a & ->)]; repeat split; exact Hfin.
  - right. cbn zeta in Hcases.
    destruct (broker_setup_picks setup Hq) as (Ho & Hh & Hi).
    destruct Hcases as [(e & st' & Hn & ->)|[(e & st' & Hn & ->)|(st1 & Hn & ->)]].
    + left. exists c, b, e. split; [exact Hc|].
      cbn [events result fst snd]. unfold opens, handler_writes, index_reads in *.
      rewrite !pick_app, Ho, Hh, Hi. repeat split.
    + right. left. exists b, l, e.
      cbn [events result fst snd]. unfold opens, handler_writes, index_reads in *.
      rewrite !pick_app, Ho, Hh, Hi. repeat split.
    + right. right. exists b, l. cbn zeta.
      rewrite events_prepend, final_prepend.
      set (it := log_LastLogIndexTerm l (world st1)).
      destruct (log_bootstrap_picks _
                  (bootstrap_log_bootstrap_events b l (fst it) urls st1)) as (Ho' & Hh').
      pose proof (bootstrap_log_reads_no_index b l (fst it) urls st1) as Hi'.
      destruct (bootstrap_log_acquires_nothing b l (fst it) urls st1) as (_ & Hnode).
      unfold opens, handler_writes, index_reads in *.
      rewrite !pick_app, Ho, Hh, Hi, Ho', Hh', Hi', Hnode, Hn.
      destruct (node st). repeat split.
Qed.

(** X7.  The cluster listener comes first.  On a node whose cluster listener
    is [nil], [ClusterURL], [openBroker] and [openServer] panic with a nil
    dereference before they call anything: nothing is created, node and
    world are as before. *)
Theorem open_needs_cluster_listener (st : state W) :
  clusterListener (node st) = None ->
  ClusterURL st = ([], Panic PNilDereference, st) /\
  (forall urls h,
      openBroker filepath_Join urls h st = ([], Panic PNilDereference, st)) /\
  (forall version commit messagingClientFile urls,
      openServer version commit messagingClientFile filepath_Join urls st
      = ([], Panic PNilDereference, st)).
Proof.
  intros Hcl.
  assert (Hurl : ClusterURL st = ([], Panic PNilDereference, st)).
  { rewrite ClusterURL_run, Hcl. reflexivity. }
  split; [exact Hurl|]. split.
  - intros urls h. unfold openBroker, the_config.
    rewrite bind_assoc, bind_get_node.
    destruct (config (node st)) as [c|]; [|reflexivity].
    rewrite bind_ret, (bind_prepend ClusterURL), Hurl. reflexivity.
  - intros version commit messagingClientFile urls. unfold openServer.
    rewrite (bind_prepend ClusterURL), Hurl. reflexivity.
Qed.

End LogStages.

(** ** The stages of [openServer] *)

Section DataStages.
Context {W : Type} `{Collaborators W}.
Variables (version commit messagingClientFile : string).
Variable filepath_Join : string -> string -> string.

Lemma server_open_run_cons urls cfg n0 c n e (r : list event * outcome ref * state W) :
  server_field_event n e = true ->
  server_open_run urls cfg n0 c n r ->
  server_open_run urls cfg n0 c n (prepend [e] r).
Proof.
  intros He (sets & Hq & Hc). cbn zeta in Hc.
  exists (e :: sets). split; [cbn; rewrite He; exact Hq|].
  destruct Hc as [(e' & st' & Hn & ->)|(id0 & st1 & Hn & ->)].
  - left. exists e', st'. split; [exact Hn | reflexivity].
  - right. exists id0, st1. split; [exact Hn|]. cbn zeta.
    rewrite prepend_prepend. reflexivity.
Qed.

Lemma client_open_run_cons urls n0 e (r : list event * outcome ref * state W) :
  client_setup_event e = true ->
  client_open_run messagingClientFile filepath_Join urls n0 r ->
  client_open_run messagingClientFile filepath_Join urls n0 (prepend [e] r).
Proof.
  intros He (setup & Hq & Hc).
  exists (e :: setup). split; [cbn; rewrite He; exact Hq|].
  destruct Hc as [(st' & Hcfg & Hn & ->)|(cfg & c & Hcfg & Hc)].
  - left. exists st'. repeat split; assumption.
  - right. exists cfg, c. split; [exact Hcfg|]. cbn zeta in *.
    destruct Hc as [(e' & st' & Hn & ->)|[(st' & Hn & ->)|(us & n & r' & Hus & Hs & ->)]].
    + left. exists e', st'. split; [exact Hn | reflexivity].
    + right. left. exists st'. split; [exact Hn | reflexivity].
    + right. right. exists us, n, r'. split; [exact Hus|]. split; [exact Hs|].
      rewrite prepend_prepend. reflexivity.
Qed.

Lemma client_open_run_server urls n0 cfg c us n
    (r' : list event * outcome ref * state W) :
  config n0 = Some cfg ->
  us <> [] ->
  server_open_run urls cfg n0 c n r' ->
  client_open_run messagingClientFile filepath_Join urls n0
    (prepend [EClientOpen c (filepath_Join (Data_Dir cfg) messagingClientFile) None;
              EClientURLs c us; ENewServer n] r').
Proof.
  intros Hcfg Hus Hs. exists []. split; [reflexivity|].
  right. exists cfg, c. split; [exact Hcfg|]. cbn zeta.
  right. right. exists us, n, r'. split; [exact Hus|]. split; [exact Hs | reflexivity].
Qed.

(** [openServer], stage by stage. *)
Lemma openServer_stages urls (st : state W) :
  let r := openServer version commit messagingClientFile filepath_Join urls st in
  (exists p, result r = Panic p /\
             (events r = [] \/ exists cl a, events r = [EListenerAddr cl a]) /\
             final r = st)
  \/ client_open_run messagingClientFile filepath_Join urls (node st) r.
Proof.
  cbn zeta. destruct st as [n0 w]. cbn [node].
  unfold openServer, the_config, ClusterURL, ClusterAddr.
  repeat step.
  destruct (clusterListener n0) as [cl|];
    [|repeat step; left; exists PNilDereference; repeat split; left; reflexivity].
  repeat step.
  destruct (SplitHostPort _) as [[hh p]|e];
    [|repeat step; left; exists (PError e); repeat split; right; eexists _, _; reflexivity].
  right.
  apply client_open_run_cons; [reflexivity|].
  do 4 step.
  split_call. apply client_open_run_cons; [reflexivity|]. try forget_world.
  step. apply client_open_run_cons; [reflexivity|]. try forget_world.
  rewrite bind_assoc, bind_get_node. cbn [node].
  destruct (config n0) as [cfg|] eqn:Ecfg.
  2:{ rewrite bind_panic. exists []. split; [reflexivity|]. left.
      eexists. repeat split; [exact Ecfg|]. reflexivity. }
  rewrite bind_ret, bind_call. cbn [node world].
  match goal with
  | |- context [client_Open ?c ?f ?w0] => destruct (client_Open c f w0) as [[e|] ?]
  end; cbn [fst snd]; rewrite bind_fatal_if.
  { exists []. split; [reflexivity|]. right. eexists cfg, _. split; [exact Ecfg|].
    cbn zeta. left. eexists e, _. split; [|reflexivity]. reflexivity. }
  rewrite bind_read. cbn [node world].
  match goal with
  | |- context [client_URLs ?c ?w0] => destruct (client_URLs c w0) as [|u0 us] eqn:Eus
  end; cbn [List.length Nat.eqb].
  { rewrite bind_fatal. exists []. split; [reflexivity|]. right.
    eexists cfg, _. split; [exact Ecfg|].
    cbn zeta. right. left. eexists. split; [|reflexivity]. reflexivity. }
  rewrite bind_ret, bind_call. cbn [node world]. split_call.
  rewrite !prepend_prepend. cbn [app].
  apply client_open_run_server; [exact Ecfg | discriminate |].
  repeat
    (lazymatch goal with
     | |- server_open_run _ _ _ _ _ (bind (call (server_Open _ _ _) _) _ _) => fail
     | |- server_open_run _ _ _ _ _ (bind _ _ _) =>
         step;
         try (apply server_open_run_cons; [cbn; apply Nat.eqb_refl|]);
         try forget_world
     end).
  exists []. split; [reflexivity|]. cbn zeta.
  rewrite bind_call. cbn [node world].
  match goal with
  | |- context [server_Open ?n ?d ?c ?w0] => destruct (server_Open n d c w0) as [[e|] ?]
  end; cbn [fst snd]; rewrite bind_fatal_if.
  { left. eexists e, _. split; [|reflexivity]. reflexivity. }
  right. rewrite bind_read, bind_Printf, bind_call_, bind_read. cbn [node world].
  match goal with
  | |- context [EServerID _ (server_ID _ ?w0)] =>
      match goal with
      | |- context [time_Sleep ?d w0] =>
          exists (server_ID a0 w0), (mkState n0 (time_Sleep d w0))
      end
  end.
  split; [reflexivity|]. cbn zeta.
  unfold bootstrap_server. rewrite !prepend_prepend. reflexivity.
Qed.

Lemma failed_attempts_bootstrap_events n u fails :
  forallb data_bootstrap_event (failed_attempts n u fails) = true.
Proof. induction fails as [|je fails IH]; [reflexivity | exact IH]. Qed.

Lemma initialize_trace_bootstrap_events n u a :
  forallb data_bootstrap_event (initialize_trace n u a) = true.
Proof. destruct a; reflexivity. Qed.

Lemma joinOrInitializeServer_bootstrap_events n u urls (st : state W) :
  forallb data_bootstrap_event (events (joinOrInitializeServer n u urls st)) = true.
Proof.
  destruct (joinOrInitializeServer_run n u urls st) as (_ & fails & _ & Hc).
  cbn zeta in Hc.
  pose proof (failed_attempts_bootstrap_events n u fails) as Hf.
  destruct Hc as [(a & _ & _ & He & _)|[(_ & _ & He & _)|[(j & rest & a & _ & He & _)
                                                     |(j & rest & _ & He & _)]]];
    rewrite He, ?forallb_app, ?Hf; try apply initialize_trace_bootstrap_events;
    try reflexivity.
  cbn [forallb data_bootstrap_event andb]. apply initialize_trace_bootstrap_events.
Qed.

(** [bootstrap_server] makes only calls of the bootstrap and leaves the
    node as it is, however it ends. *)
Lemma bootstrap_server_bootstrap_events n id urls (st : state W) :
  let r := bootstrap_server n id urls st in
  forallb data_bootstrap_event (events r) = true /\ node (final r) = node st.
Proof.
  cbn zeta. destruct (N.eq_dec id 0) as [->|Hi].
  2:{ rewrite (bootstrap_server_member n id urls st Hi). split; reflexivity. }
  unfold bootstrap_server. cbn [N.eqb].
  rewrite bind_assoc, (bind_prepend ClusterURL), ClusterURL_run.
  destruct (clusterListener (node st)) as [cl|]; [|split; reflexivity].
  cbn zeta. destruct (SplitHostPort _) as [[hh p]|e]; [|split; reflexivity].
  cbn [result events final fst snd].
  set (u := {| Scheme := "http"; Host := JoinHostPort (hostname (node st)) p |}).
  rewrite bind_prepend, events_prepend, final_prepend.
  pose proof (joinOrInitializeServer_bootstrap_events n u urls st) as Hev.
  destruct (joinOrInitializeServer_run n u urls st) as (Hn & _).
  destruct (joinOrInitializeServer n u urls st) as [[ev [[]|fm ar|pp]] s1];
    cbn [result events final fst snd prepend ret] in *;
    rewrite ?app_nil_r; split; assumption.
Qed.

Lemma client_setup_picks (evs : list event) :
  forallb client_setup_event evs = true ->
  opens evs = [] /\ new_servers evs = [] /\ client_urls_reads evs = [] /\
  server_joins evs = [] /\ server_initializes evs = [] /\ id_reads evs = [].
Proof.
  intros Hq. repeat split;
    (apply (pick_quiet _ client_setup_event);
     [intros [] He; (reflexivity || discriminate He) | exact Hq]).
Qed.

Lemma server_field_picks n (evs : list event) :
  forallb (server_field_event n) evs = true ->
  opens evs = [] /\ new_servers evs = [] /\ client_urls_reads evs = [] /\
  server_joins evs = [] /\ server_initializes evs = [] /\ id_reads evs = [].
Proof.
  intros Hq. repeat split;
    (apply (pick_quiet _ (server_field_event n));
     [intros [] He; (reflexivity || discriminate He) | exact Hq]).
Qed.

Lemma data_bootstrap_picks (evs : list event) :
  forallb data_bootstrap_event evs = true ->
  opens evs = [] /\ new_servers evs = [] /\ client_urls_reads evs = [].
Proof.
  intros Hq. repeat split;
    (apply (pick_quiet _ data_bootstrap_event);
     [intros [] He; (reflexivity || discriminate He) | exact Hq]).
Qed.

(** X8.  The stages of [openServer].  A run never changes the node (the
    data node it opens is only returned), and it ends in one of five ways.
    It panics before the messaging client is opened (no cluster address, no
    configuration).  Or the client fails to open: fatal.  Or the client
    opens and reports no broker URL: fatal, and no data node is created.
    Or a data node is created and fails to open: fatal, and no join or
    initialize is tried.  Or the data node opens: its identity is then read
    twice, and if the run returns it returns that data node. *)
Theorem openServer_opens_client_then_data_node urls (st : state W) :
  let run := openServer version commit messagingClientFile filepath_Join urls st in
  let evs := events run in
  node (final run) = node st /\
  ((exists p,
       result run = Panic p /\ opens evs = [] /\ new_servers evs = [])
   \/ (exists c e,
         opens evs = [(OClient c, Some e)] /\ new_servers evs = [] /\
         result run = Fatal "messaging client error: %s" [VError e])
   \/ (exists c,
         opens evs = [(OClient c, None)] /\ client_urls_reads evs = [[]] /\
         new_servers evs = [] /\
         result run = Fatal "messaging client has no broker URLs" [])
   \/ (exists c n e us,
         us <> [] /\ client_urls_reads evs = [us] /\ new_servers evs = [n] /\
         opens evs = [(OClient c, None); (OServer n, Some e)] /\
         server_joins evs = [] /\ server_initializes evs = [] /\ id_reads evs = [] /\
         result run = Fatal "failed to open data node: %v" [VError e])
   \/ (exists c n us,
         us <> [] /\ client_urls_reads evs = [us] /\ new_servers evs = [n] /\
         opens evs = [(OClient c, None); (OServer n, None)] /\
         List.length (id_reads evs) = 2%nat /\
         forall d, result run = Ret d -> d = n)).
Proof.
  cbn zeta.
  destruct (openServer_stages urls st)
    as [(p & Hres & Hev & Hfin)|(setup & Hq & Hcases)].
  { split; [rewrite Hfin; reflexivity|]. left. exists p. split; [exact Hres|].
    destruct Hev as [->|(cl & a & ->)]; split; reflexivity. }
  destruct (client_setup_picks setup Hq) as (So & Sn & Su & Sj & Si & Sr).
  unfold opens, new_servers, client_urls_reads, server_joins, server_initializes, id_reads
    in *.
  destruct Hcases as [(st' & _ & Hn & ->)|(cfg & c & _ & Hcases)].
  { split; [exact Hn|]. left. exists PNilDereference. cbn [events result fst snd].
    repeat split; assumption. }
  cbn zeta in Hcases.
  destruct Hcases
    as [(e & st' & Hn & ->)|[(st' & Hn & ->)|(us & n & r' & Hus & (sets & Hqs & Hs) & ->)]].
  { split; [exact Hn|]. right. left. exists c, e. cbn [events result fst snd].
    rewrite !pick_app, So, Sn. repeat split. }
  { split; [exact Hn|]. right. right. left. exists c. cbn [events result fst snd].
    rewrite !pick_app, So, Sn, Su. repeat split. }
  destruct (server_field_picks n sets Hqs) as (Fo & Fn & Fu & Fj & Fi & Fr).
  unfold opens, new_servers, client_urls_reads, server_joins, server_initializes, id_reads
    in *.
  cbn zeta in Hs.
  destruct Hs as [(e & st' & Hn & ->)|(id0 & st1 & Hn & ->)].
  { split; [exact Hn|]. right. right. right. left. exists c, n, e, us.
    split; [exact Hus|].
    rewrite events_prepend, result_prepend. cbn [events result fst snd].
    rewrite !pick_app, So, Sn, Su, Sj, Si, Sr, Fo, Fn, Fu, Fj, Fi, Fr. repeat split. }
  rewrite !final_prepend, !events_prepend, !result_prepend.
  set (id := server_ID n (world st1)).
  destruct (bootstrap_server_bootstrap_events n id urls st1) as (Hb & Hnode).
  destruct (data_bootstrap_picks _ Hb) as (Bo & Bn & Bu).
  destruct (bootstrap_server_picks n id urls st1) as (Br & _).
  unfold opens, new_servers, client_urls_reads, id_reads in *.
  split; [rewrite Hnode; exact Hn|].
  right. right. right. right. exists c, n, us. split; [exact Hus|].
  rewrite !pick_app, So, Sn, Su, Sr, Fo, Fn, Fu, Fr, Bo, Bn, Bu, Br.
  repeat split.
  intros d Hd.
  destruct (bootstrap_server_acquires_nothing n id urls st1) as (_ & _ & Hret).
  { rewrite Hd. reflexivity. }
  rewrite Hret in Hd. injection Hd as <-. reflexivity.
Qed.

(** X9.  A data node that is already a member.  When the identity read after
    the grace delay is not 0, [openServer] tries no join and no initialize,
    whatever the list of candidates; it logs that the data node is already a
    member and returns the data node it has opened. *)
Theorem openServer_member_ignores_candidates urls (st : state W) id :
  let run := openServer version commit messagingClientFile filepath_Join urls st in
  decisive_id (events run) = Some id ->
  id <> 0%N ->
  exists n pre,
    result run = Ret n /\
    acquired (events run) = [OServer n] /\
    server_joins (events run) = [] /\
    server_initializes (events run) = [] /\
    events run = pre ++
      [EPrintf "data node already member of cluster. Using existing state and ignoring join URLs" []].
Proof.
  cbn zeta. intros Hd Hid.
  destruct (openServer_run version commit messagingClientFile filepath_Join urls st)
    as [[_ Hq]|(pre & n & st1 & Hq & _ & Ha & Hr)].
  { unfold decisive_id in Hd. rewrite (after_sleep_quiet _ Hq) in Hd. discriminate Hd. }
  cbn zeta in Hr. rewrite Hr in Hd |- *. unfold decisive_id in Hd.
  rewrite events_prepend in Hd.
  destruct (data_picks_split pre (1 * second) n (server_ID n (world st1))
              (events (bootstrap_server n (server_ID n (world st1)) urls st1)) Hq)
    as (Hj & Hi & Has).
  rewrite Has in Hd. injection Hd as Hd.
  rewrite events_prepend, result_prepend, Hj, Hi.
  rewrite Hd in *.
  rewrite (bootstrap_server_member n id urls st1 Hid).
  exists n, (pre ++ [ESleep (1 * second); EServerID n id]).
  cbn [events result fst snd]. repeat split.
  unfold acquired in *. rewrite !pick_app. cbn [app] in Ha.
  cbn [pick acquired_by app]. rewrite !app_nil_r. exact Ha.
Qed.

Lemma failed_answers_retry (fails : list (URL * error)) :
  Forall (fun je => snd je <> ErrDataNodeNotFound) fails ->
  all_retry server_join_retry (map (fun je => Some (snd je)) fails).
Proof.
  unfold all_retry. induction 1 as [|je fails Hje _ IH]; [constructor|].
  cbn [map]. constructor; [|exact IH].
  destruct (snd je); try reflexivity. exfalso. apply Hje. reflexivity.
Qed.

Lemma failed_attempts_projections n u fails :
  join_candidates (failed_attempts n u fails) = map fst fails /\
  join_answers (failed_attempts n u fails) = map (fun je => Some (snd je)) fails /\
  Forall (fun x => fst (fst x) = u) (server_joins (failed_attempts n u fails)).
Proof.
  unfold join_candidates, join_answers.
  destruct (failed_attempts_picks n u fails) as (-> & _ & _).
  rewrite !map_map. cbn [fst snd]. repeat split.
  apply Forall_forall. intros x Hx. apply in_map_iff in Hx.
  destruct Hx as (je & <- & _). reflexivity.
Qed.

(** X10.  The join loop of the data layer.  [joinOrInitializeServer] tries
    the candidates in the order of the list and stops at the first answer
    that is no ordinary error, so the candidates tried are a prefix of the
    list; every join is given the local URL [u].  The call ends in one of
    four ways.  The list is empty: no join, one [Initialize], fatal (2) when
    it fails.  Every candidate answered with an ordinary error: the whole
    list was tried, nothing is initialized and the process ends with
    "failed to connect data node to any specified server".  The last
    candidate tried answered "no data nodes found": [Initialize] is called
    once with [u], fatal (1) when it fails.  The last candidate tried
    accepted the join: the call returns and nothing is initialized. *)
Theorem joinOrInitializeServer_tries_candidates_in_order n u urls (st : state W) :
  let run := joinOrInitializeServer n u urls st in
  let evs := events run in
  exists rest,
    urls = join_candidates evs ++ rest /\
    Forall (fun x => fst (fst x) = u) (server_joins evs) /\
    ((urls = [] /\ server_joins evs = [] /\
      exists a, server_initializes evs = [(u, a)] /\
                result run = initialize_outcome "server initialization error(2): %s" a)
     \/ (urls <> [] /\ rest = [] /\
         all_retry server_join_retry (join_answers evs) /\
         server_initializes evs = [] /\
         result run
         = Fatal "join: failed to connect data node to any specified server" [])
     \/ (exists init a,
           join_answers evs = init ++ [Some ErrDataNodeNotFound] /\
           all_retry server_join_retry init /\
           server_initializes evs = [(u, a)] /\
           result run = initialize_outcome "server initialization error(1): %s" a)
     \/ (exists init,
           join_answers evs = init ++ [None] /\
           all_retry server_join_retry init /\
           server_initializes evs = [] /\
           result run = Ret tt)).
Proof.
  cbn zeta.
  destruct (joinOrInitializeServer_run n u urls st) as (_ & fails & Hf & Hc).
  cbn zeta in Hc.
  destruct (failed_attempts_projections n u fails) as (Pc & Pa & Pu).
  destruct (failed_attempts_picks n u fails) as (Pj & Pi & _).
  pose proof (failed_answers_retry fails Hf) as Hretry.
  unfold join_candidates, join_answers, server_joins, server_initializes in *.
  destruct Hc as [(a & Hu & Hfl & He & Hr)|[(Hu & Hm & He & Hr)
                 |[(j & rest & a & Hu & He & Hr)|(j & rest & Hu & He & Hr)]]].
  - exists []. rewrite He, Hr. destruct (initialize_trace_picks n u a) as (Ij & Ii & _).
    unfold server_joins, server_initializes in *. rewrite Ij, Ii.
    split; [rewrite Hu; reflexivity|]. split; [constructor|].
    left. split; [exact Hu|]. split; [reflexivity|]. exists a. split; reflexivity.
  - exists []. rewrite He, Hr, Pc, Pa, Pi, app_nil_r.
    split; [exact Hm|]. split; [exact Pu|].
    right. left. split; [exact Hu|]. split; [reflexivity|].
    split; [exact Hretry|]. split; reflexivity.
  - exists rest. rewrite He, Hr.
    destruct (initialize_trace_picks n u a) as (Ij & Ii & _).
    unfold server_joins, server_initializes in *.
    rewrite !pick_app. cbn [pick server_join_of server_initialize_of app].
    rewrite Ij, Ii, Pi, !map_app, Pc, Pa. cbn [map fst snd app].
    split; [rewrite <- app_assoc; exact Hu|].
    split.
    { apply Forall_app. split; [exact Pu|]. constructor; [reflexivity|constructor]. }
    right. right. left. exists (map (fun je => Some (snd je)) fails), a.
    split; [reflexivity|]. split; [exact Hretry|]. split; reflexivity.
  - exists rest. rewrite He, Hr.
    rewrite !pick_app. cbn [pick server_join_of server_initialize_of app].
    rewrite Pi, !map_app, Pc, Pa. cbn [map fst snd app].
    split; [rewrite <- app_assoc; exact Hu|].
    split.
    { apply Forall_app. split; [exact Pu|]. constructor; [reflexivity|constructor]. }
    right. right. right. exists (map (fun je => Some (snd je)) fails).
    split; [reflexivity|]. split; [exact Hretry|]. split; reflexivity.
Qed.

End DataStages.

(** ** Where the node keeps its files *)

Section Paths.
Context {W : Type} `{Collaborators W}.
Variables version commit messagingClientFile : string.
Variable filepath_Join : string -> string -> string.

Lemma open_args_quiet (q : event -> bool) (evs : list event) :
  (forall e, q e = true -> open_arg_of e = None) ->
  forallb q evs = true -> open_args evs = [].
Proof. intros Hq Hall. exact (pick_quiet open_arg_of q evs Hq Hall). Qed.

Lemma open_args_broker_setup (evs : list event) :
  forallb broker_setup_event evs = true -> open_args evs = [].
Proof.
  apply open_args_quiet. intros [] He; try reflexivity; discriminate He.
Qed.

Lemma open_args_log_bootstrap (evs : list event) :
  forallb log_bootstrap_event evs = true -> open_args evs = [].
Proof.
  apply open_args_quiet. intros [] He; try reflexivity; discriminate He.
Qed.

Lemma open_args_client_setup (evs : list event) :
  forallb client_setup_event evs = true -> open_args evs = [].
Proof.
  apply open_args_quiet. intros [] He; try reflexivity; discriminate He.
Qed.

Lemma open_args_server_field n (evs : list event) :
  forallb (server_field_event n) evs = true -> open_args evs = [].
Proof.
  apply open_args_quiet. intros [] He; try reflexivity; discriminate He.
Qed.

Lemma open_args_data_bootstrap (evs : list event) :
  forallb data_bootstrap_event evs = true -> open_args evs = [].
Proof.
  apply open_args_quiet. intros [] He; try reflexivity; discriminate He.
Qed.

(** X12.  Where the files are.  On a node with configuration [c],
    [openBroker] opens nothing but the broker, at the broker directory of
    [c], and then the raft log, at "raft" joined to that directory;
    [openServer] opens nothing but the messaging client, at
    [messagingClientFile] joined to the data directory of [c], and then the
    data node, at that data directory and with that very client.  A run that
    ends early has made a prefix of these calls; none is made twice, and the
    candidates given play no part in the paths. *)
Theorem opens_use_configured_paths brokerURLs joinURLs h (st : state W) c :
  config (node st) = Some c ->
  (exists b l rest,
      [(OBroker b, BrokerDir c, None);
       (OLog l, filepath_Join (BrokerDir c) "raft", None)]
      = open_args (events (openBroker filepath_Join brokerURLs h st)) ++ rest) /\
  (exists cl n rest,
      [(OClient cl, filepath_Join (Data_Dir c) messagingClientFile, None);
       (OServer n, Data_Dir c, Some cl)]
      = open_args
          (events (openServer version commit messagingClientFile filepath_Join
                              joinURLs st)) ++ rest).
Proof.
  intros Hc. split.
  - destruct (openBroker_stages filepath_Join brokerURLs h st)
      as [(p & _ & Hev & _)|(c' & Hc' & setup & b & l & Hq & Hcases)].
    { exists 0, 0. eexists.
      destruct Hev as [->|(cl & a & ->)]; cbn [open_args pick open_arg_of app]; reflexivity. }
    rewrite Hc in Hc'. injection Hc' as <-.
    pose proof (open_args_broker_setup setup Hq) as Hs. unfold open_args in *.
    cbn zeta in Hcases. exists b, l.
    destruct Hcases as [(e & st' & _ & ->)|[(e & st' & _ & ->)|(st1 & _ & ->)]].
    + eexists. cbn [events fst snd]. rewrite pick_app, Hs. reflexivity.
    + exists []. cbn [events fst snd]. rewrite pick_app, Hs. reflexivity.
    + exists []. rewrite events_prepend, !pick_app, Hs.
      pose proof (open_args_log_bootstrap _
                    (bootstrap_log_bootstrap_events
                       b l (fst (log_LastLogIndexTerm l (world st1))) brokerURLs st1)) as Hb.
      unfold open_args in Hb. rewrite Hb. reflexivity.
  - destruct (openServer_stages version commit messagingClientFile filepath_Join joinURLs st)
      as [(p & _ & Hev & _)|(setup & Hq & Hcases)].
    { exists 0, 0. eexists.
      destruct Hev as [->|(cl & a & ->)]; cbn [open_args pick open_arg_of app]; reflexivity. }
    pose proof (open_args_client_setup setup Hq) as Hs. unfold open_args in *.
    destruct Hcases as [(st' & Hnone & _)|(c' & cl & Hc' & Hcases)];
      [rewrite Hc in Hnone; discriminate Hnone|].
    rewrite Hc in Hc'. injection Hc' as <-. cbn zeta in Hcases.
    destruct Hcases
      as [(e & st' & _ & ->)|[(st' & _ & ->)|(us & n & r' & _ & (sets & Hqs & Hr) & ->)]].
    + exists cl, 0. eexists. cbn [events fst snd]. rewrite pick_app, Hs. reflexivity.
    + exists cl, 0. eexists. cbn [events fst snd]. rewrite pick_app, Hs. reflexivity.
    + exists cl, n. pose proof (open_args_server_field n sets Hqs) as Hf.
      unfold open_args in Hf. cbn zeta in Hr.
      destruct Hr as [(e & st' & _ & ->)|(id0 & st1 & _ & ->)].
      * exists []. rewrite events_prepend. cbn [events fst snd].
        rewrite !pick_app, Hs, Hf. reflexivity.
      * exists []. rewrite !events_prepend, !pick_app, Hs, Hf.
        destruct (bootstrap_server_bootstrap_events
                    n (server_ID n (world st1)) joinURLs st1) as (Hb & _).
        apply open_args_data_bootstrap in Hb. unfold open_args in Hb. rewrite Hb.
        reflexivity.
Qed.

End Paths.

(** ** The URL a node advertises *)

Section AdvertisedURL.
Context {W : Type} `{Collaborators W}.
Local Open Scope string_scope.

Lemma LastIndexByte_none_inv (s : string) c :
  LastIndexByte s c = None -> IndexByte s c = None.
Proof.
  induction s as [|x s IH]; cbn; [reflexivity|].
  destruct (LastIndexByte s c); [discriminate|].
  destruct (Ascii.eqb x c); [discriminate|]. intros _. rewrite IH; reflexivity.
Qed.

Lemma LastIndexByte_split (s : string) c i :
  LastIndexByte s c = Some i ->
  exists a b, s = a ++ String c b /\ String.length a = i /\ IndexByte b c = None.
Proof.
  revert i. induction s as [|x s IH]; cbn; [discriminate|]. intros i.
  destruct (LastIndexByte s c) as [j|] eqn:Hl.
  - intros [= <-]. destruct (IH j eq_refl) as (a & b & -> & <- & Hb).
    exists (String x a), b. repeat split. exact Hb.
  - destruct (Ascii.eqb x c) eqn:Hx; [|discriminate]. intros [= <-].
    apply Ascii.eqb_eq in Hx. subst x.
    exists "", s. repeat split. apply LastIndexByte_none_inv. exact Hl.
Qed.

Lemma IndexByte_app_inv (a b : string) c :
  IndexByte (a ++ b) c = None -> IndexByte b c = None.
Proof.
  induction a as [|x a IH]; cbn; [trivial|].
  destruct (Ascii.eqb x c); [discriminate|].
  destruct (IndexByte (a ++ b) c); [discriminate|]. intros _. apply IH. reflexivity.
Qed.

Lemma IndexByte_tail x (b : string) c :
  IndexByte (String x b) c = None -> IndexByte b c = None.
Proof. apply (IndexByte_app_inv (String x "") b c). Qed.

(** The port [net.SplitHostPort] returns holds no colon and no bracket. *)
Lemma SplitHostPort_port (s h p : string) :
  SplitHostPort s = inl (h, p) -> lacks ":" p /\ lacks "[" p /\ lacks "]" p.
Proof.
  unfold SplitHostPort, addrErr, lacks.
  destruct (LastIndexByte s ":") as [i|] eqn:Hi; [|discriminate].
  destruct (LastIndexByte_split s ":" i Hi) as (a & b & -> & <- & Hb).
  cbv zeta. rewrite slice_from_port.
  destruct (byte_is (a ++ String ":" b) 0 "[").
  - destruct (IndexByte (a ++ String ":" b) "]") as [e|]; [|discriminate].
    destruct (Nat.eqb (e + 1) (String.length (a ++ String ":" b))); [discriminate|].
    destruct (Nat.eqb (e + 1) (String.length a)) eqn:He;
      [|destruct (byte_is _ _ _); discriminate].
    apply Nat.eqb_eq in He. rewrite He.
    destruct a as [|x a]; [cbn in He; lia|].
    change (String x a ++ String ":" b) with (String x "" ++ (a ++ String ":" b)).
    change 1 with (String.length (String x "")) at 1.
    rewrite slice_from_skip.
    change (String x "" ++ (a ++ String ":" b)) with (String x a ++ String ":" b).
    rewrite slice_from_skip.
    destruct (IndexByte (a ++ String ":" b) "[") eqn:H1; [discriminate|].
    destruct (IndexByte (String ":" b) "]") eqn:H2; [discriminate|].
    intros [= _ <-]. split; [exact Hb|]. split.
    + apply (IndexByte_tail ":"). apply (IndexByte_app_inv a). exact H1.
    + apply (IndexByte_tail ":"). exact H2.
  - destruct (IndexByte (slice (a ++ String ":" b) 0 (String.length a)) ":");
      [discriminate|].
    rewrite slice_from_0.
    destruct (IndexByte (a ++ String ":" b) "[") eqn:H1; [discriminate|].
    destruct (IndexByte (a ++ String ":" b) "]") eqn:H2; [discriminate|].
    intros [= _ <-]. split; [exact Hb|]. split.
    + apply (IndexByte_tail ":"). apply (IndexByte_app_inv a). exact H1.
    + apply (IndexByte_tail ":"). apply (IndexByte_app_inv a). exact H2.
Qed.

(** X11.  The advertised URL reads back.  When [ClusterURL] returns and the
    node's host name holds no bracket, the host of the URL, split again with
    [net.SplitHostPort], gives back the node's host name as it is and the
    port the cluster listener is bound to; the scheme is http. *)
Theorem ClusterURL_host_splits_back (st : state W) u :
  result (ClusterURL st) = Ret u ->
  lacks "[" (hostname (node st)) ->
  lacks "]" (hostname (node st)) ->
  Scheme u = "http" /\
  exists l h p,
    clusterListener (node st) = Some l /\
    SplitHostPort (listener_Addr l (world st)) = inl (h, p) /\
    SplitHostPort (Host u) = inl (hostname (node st), p).
Proof.
  intros Hres Hl Hr. rewrite ClusterURL_run in Hres.
  destruct (clusterListener (node st)) as [l|]; [|discriminate Hres].
  cbn zeta in Hres.
  destruct (SplitHostPort (listener_Addr l (world st))) as [[h p]|e] eqn:Hs;
    [|discriminate Hres].
  cbn [result fst snd] in Hres. injection Hres as <-. cbn [Scheme Host].
  split; [reflexivity|]. exists l, h, p. split; [reflexivity|]. split; [exact Hs|].
  destruct (SplitHostPort_port _ h p Hs) as (Pc & Pl & Pr).
  apply SplitHostPort_JoinHostPort; assumption.
Qed.

End AdvertisedURL.

(** * The theorems on concrete runs *)

Import Script.

Ltac find_in := vm_compute; repeat first [left; reflexivity | right].

(** Three seeds, nothing persisted: the first refuses, the second answers
    "already initialized". *)
Lemma openBroker_joins_seeds_in_order_witness :
  In (ELastLogIndexTerm 2 0%N 0%N) (events join_run) /\
  [s1; s2; s3] <> [] /\
  exists rest,
    [s1; s2; s3] = map fst (log_joins (events join_run)) ++ rest /\
    ((result join_run = Ret tt /\
      ends_loop log_join_retry (map snd (log_joins (events join_run))))
     \/ (result join_run
          = Fatal "join: failed to connect raft log to any specified server" [] /\
         rest = [] /\
         all_retry log_join_retry (map snd (log_joins (events join_run))))).
Proof.
  split; [find_in|]. split; [discriminate|].
  apply (openBroker_joins_seeds_in_order join_path [s1; s2; s3] 7
           (mkState node0 join_world) 2 0%N); [find_in | discriminate].
Defined.

(** A raft log with last index 5 and one seed. *)
Lemma openBroker_member_ignores_seeds_witness :
  In (ELastLogIndexTerm 2 5%N 1%N) (events member_run) /\
  5%N <> 0%N /\
  log_joins (events member_run) = [] /\
  log_initializes (events member_run) = [] /\
  result member_run = Ret tt /\
  exists pre,
    events member_run = pre ++
      [EPrintf "broker already member of cluster.  Using existing state and ignoring join URLs" []].
Proof.
  split; [find_in|]. split; [discriminate|].
  apply (openBroker_member_ignores_seeds join_path [s1] 7
           (mkState node0 member_world) 2 5%N 1%N); [find_in | discriminate].
Defined.

(** Two candidates: the first refuses, the second has no data nodes; the
    loop alone, and inside [openServer]. *)
Lemma joinOrInitializeServer_first_node_witness :
  (In (EServerJoin 5 local s2 (Some ErrDataNodeNotFound)) (events first_node_run) /\
   exists fails a,
     Forall (fun je => snd je <> ErrDataNodeNotFound) fails /\
     events first_node_run =
       failed_attempts 5 local fails ++
       [EServerJoin 5 local s2 (Some ErrDataNodeNotFound); EServerInitialize 5 local a] ++
       match a with
       | Some _ => []
       | None => [EPrintf "initialized data node: %s\n" [VURL local]]
       end /\
     result first_node_run =
       match a with
       | Some e => Fatal "server initialization error(1): %s" [VError e]
       | None => Ret tt
       end) /\
  (In (EServerJoin 2 local s2 (Some ErrDataNodeNotFound)) (events first_node_open) /\
   exists pre a p,
     local = {| Scheme := "http"; Host := JoinHostPort (hostname node0) p |} /\
     events first_node_open =
       pre ++
       [EServerJoin 2 local s2 (Some ErrDataNodeNotFound); EServerInitialize 2 local a] ++
       match a with
       | Some _ => []
       | None => [EPrintf "initialized data node: %s\n" [VURL local]]
       end /\
     result first_node_open =
       match a with
       | Some e => Fatal "server initialization error(1): %s" [VError e]
       | None => Ret 2
       end).
Proof.
  destruct (joinOrInitializeServer_first_node
              (W:=world) "0.9.0" "abc" "messaging" join_path) as [Hloop Hopen].
  split.
  - split; [find_in|].
    apply (Hloop 5 local [s1; s2] first_node_state 5 local s2). find_in.
  - split; [find_in|].
    apply (Hopen [s1; s2] (mkState node0 first_node_world) 2 local s2). find_in.
Defined.

(** Nothing persisted and no candidate, for the log layer and for the data
    layer. *)
Lemma founding_member_without_candidates_witness :
  (In (ELastLogIndexTerm 2 0%N 0%N) (events founder_log_run) /\
   log_joins (events founder_log_run) = [] /\
   exists a,
     log_initializes (events founder_log_run) = [a] /\
     result founder_log_run = match a with
                              | Some e => Fatal "initialize raft log: %s" [VError e]
                              | None => Ret tt
                              end) /\
  (decisive_id (events founder_data_run) = Some 0%N /\
   (forall p, result founder_data_run <> Panic p) /\
   server_joins (events founder_data_run) = [] /\
   exists n u a,
     server_initializes (events founder_data_run) = [(u, a)] /\
     result founder_data_run =
       match a with
       | Some e => Fatal "server initialization error(2): %s" [VError e]
       | None => Ret n
       end).
Proof.
  destruct (founding_member_without_candidates
              (W:=world) "0.9.0" "abc" "messaging" join_path) as [Hlog Hdata].
  split.
  - split; [find_in|].
    apply (Hlog 7 (mkState node0 blank) 2 0%N). find_in.
  - split; [reflexivity|]. split; [intros p; vm_compute; discriminate|].
    apply (Hdata (mkState node0 founder_world));
      [reflexivity | intros p; vm_compute; discriminate].
Defined.

(** A listener bound to port 8086 on every address, host name db1. *)
Lemma ClusterURL_bound_port_witness :
  clusterListener node0 = Some 0 /\
  ClusterURL (mkState node0 blank) =
  ([EListenerAddr 0 "[::]:8086"],
   Ret {| Scheme := "http"; Host := "db1:8086" |},
   mkState node0 blank).
Proof.
  split; [reflexivity|].
  destruct (ClusterURL_bound_port (mkState node0 blank) 0 eq_refl) as (_ & Hport & _).
  apply (Hport "::" "8086"); reflexivity.
Defined.

(** Two listeners, the close of the cluster listener fails. *)
Lemma listener_cleared_after_close_witness :
  In (EClose (OListener 1) (Some (ErrOther "close failed"))) (events (Close stuck_state)) /\
  clusterListener (node stuck_state) <> apiListener (node stuck_state) /\
  ~ In (EClose (OListener 1) (Some (ErrOther "close failed")))
       (events (Close (mkState (node (final (Close stuck_state))) blank))).
Proof.
  split; [find_in|]. split; [discriminate|].
  destruct (listener_cleared_after_close (W:=world)) as (_ & _ & _ & Hnever).
  apply (Hnever stuck_state 1 (ErrOther "close failed")); [find_in | discriminate].
Defined.

(** A full start with two graphite servers and an OpenTSDB server. *)
Lemma Close_order_against_Start_witness :
  GraphiteServers new_node = [] /\
  OpenTSDBServer new_node = None /\
  result started = Ret None /\
  exists cl al b l d a,
    acquired (events started) =
      [OListener cl; OListener al; OBroker b; OLog l; OServer d; OAdmin a] ++
      map OGraphite [20; 21] ++ opt_obj OOpenTSDB (Some 30) /\
    close_plan (node (final started)) =
      [OListener cl; OListener al; OAdmin a] ++
      map OGraphite [20; 21] ++ opt_obj OOpenTSDB (Some 30) ++
      [OServer d; OLog l; OBroker b].
Proof.
  split; [reflexivity|]. split; [reflexivity|]. split; [reflexivity|].
  destruct (Close_order_against_Start
              (W:=world) "0.9.0" "abc" "messaging" join_path) as [_ Hstart].
  apply (Hstart ":8086" ":8087" 7 [] [] 8083%Z [20; 21] (Some 30)
           (mkState new_node founder_world)); reflexivity.
Defined.

(** The data layer with two candidates, the second without data nodes. *)
Lemma one_bootstrap_path_per_layer_witness :
  decisive_id (events first_node_open) = Some 0%N /\
  server_initializes (events first_node_open) <> [] /\
  ([s1; s2] = [] \/
   In (Some ErrDataNodeNotFound) (map snd (server_joins (events first_node_open)))) /\
  (List.length (succeeded (map snd (server_joins (events first_node_open))) ++
                succeeded (map snd (server_initializes (events first_node_open))))
   <= 1)%nat.
Proof.
  split; [reflexivity|]. split; [vm_compute; discriminate|].
  destruct (one_bootstrap_path_per_layer
              (W:=world) "0.9.0" "abc" "messaging" join_path) as [_ Hdata].
  destruct (Hdata [s1; s2] (mkState node0 first_node_world))
    as (_ & _ & Hsucc & _ & Honly & _).
  split; [apply Honly; vm_compute; discriminate | exact Hsucc].
Defined.

(** A cluster listener and an API listener opened on a node just built,
    then closed in another world. *)
Lemma open_then_close_listener_witness :
  result (openClusterListener ":8086" 7 (mkState new_node blank)) = Ret None /\
  result (openAPIListener ":8087" 8 (mkState new_node blank)) = Ret None /\
  (exists l,
      acquired (events (openClusterListener ":8086" 7 (mkState new_node blank)))
      = [OListener l] /\
      clusterListener
        (node (final (closeClusterListener
                        (mkState (node (final (openClusterListener ":8086" 7
                                                 (mkState new_node blank))))
                                 member_world)))) = None) /\
  (exists l,
      acquired (events (openAPIListener ":8087" 8 (mkState new_node blank)))
      = [OListener l] /\
      apiListener
        (node (final (closeAPIListener
                        (mkState (node (final (openAPIListener ":8087" 8
                                                 (mkState new_node blank))))
                                 member_world)))) = None).
Proof.
  split; [reflexivity|]. split; [reflexivity|]. split.
  - destruct (open_then_close_listener ":8086" 7 (mkState new_node blank) member_world)
      as [Hc _].
    destruct (Hc eq_refl) as (l & Ha & _ & _ & Hn). exists l. split; [exact Ha | exact Hn].
  - destruct (open_then_close_listener ":8087" 8 (mkState new_node blank) member_world)
      as [_ Hp].
    destruct (Hp eq_refl) as (l & Ha & _ & _ & Hn). exists l. split; [exact Ha | exact Hn].
Defined.

(** A node that holds nothing but its configuration and host name. *)
Lemma Close_without_handles_witness :
  close_plan new_node = [] /\
  Close (mkState new_node blank) = ([], Ret None, mkState new_node blank).
Proof.
  split; [reflexivity|].
  destruct (Close_without_handles (W:=world)) as [Hgen _].
  apply (Hgen (mkState new_node blank)). reflexivity.
Defined.

(** A node that holds every kind of handle, closed twice. *)
Lemma Close_keeps_service_handles_witness :
  result (Close (mkState serving_node blank)) = Ret None /\
  result (Close (mkState (node (final (Close (mkState serving_node blank)))) blank))
  = Ret None /\
  events (Close (mkState (node (final (Close (mkState serving_node blank)))) blank))
  = map (fun o => EClose o None)
        [OAdmin 6; OGraphite 20; OGraphite 21; OOpenTSDB 30; OServer 5; OLog 4; OBroker 3].
Proof.
  split; [reflexivity|]. split; [reflexivity|].
  destruct (Close_keeps_service_handles (mkState serving_node blank)) as [_ Hagain].
  destruct (Hagain eq_refl) as [_ Hev].
  apply (Hev blank). reflexivity.
Defined.

(** A node just built: no cluster listener yet. *)
Lemma open_needs_cluster_listener_witness :
  clusterListener new_node = None /\
  ClusterURL (mkState new_node blank) = ([], Panic PNilDereference, mkState new_node blank) /\
  run_openBroker [s1] new_node blank = ([], Panic PNilDereference, mkState new_node blank) /\
  run_openServer [s1] new_node blank = ([], Panic PNilDereference, mkState new_node blank).
Proof.
  split; [reflexivity|].
  destruct (open_needs_cluster_listener join_path (mkState new_node blank) eq_refl)
    as (Hu & Hb & Hs).
  split; [exact Hu|]. split; [apply Hb | apply Hs].
Defined.

(** A data node with nothing persisted and no candidate: the run returns the
    data node it created. *)
Lemma openServer_opens_client_then_data_node_witness :
  result founder_data_run = Ret 2 /\
  node (final founder_data_run) = node0 /\
  new_servers (events founder_data_run) = [2].
Proof.
  split; [reflexivity|].
  destruct (openServer_opens_client_then_data_node
              "0.9.0" "abc" "messaging" join_path [] (mkState node0 founder_world))
    as (Hn & Hc).
  split; [exact Hn|].
  destruct Hc as [(p & Hr & _)|[(c & e & _ & _ & Hr)|[(c & _ & _ & _ & Hr)
                |[(c & n & e & us & _ & _ & _ & _ & _ & _ & _ & Hr)
                 |(c & n & us & _ & _ & Hs & _ & _ & Hd)]]]];
    try (exfalso; vm_compute in Hr; discriminate Hr).
  refine (eq_trans Hs _). f_equal. symmetry. apply Hd. reflexivity.
Defined.

(** A data node with identity 3 and two candidates. *)
Lemma openServer_member_ignores_candidates_witness :
  decisive_id (events member_data_run) = Some 3%N /\
  3%N <> 0%N /\
  exists n pre,
    result member_data_run = Ret n /\
    acquired (events member_data_run) = [OServer n] /\
    server_joins (events member_data_run) = [] /\
    server_initializes (events member_data_run) = [] /\
    events member_data_run = pre ++
      [EPrintf "data node already member of cluster. Using existing state and ignoring join URLs" []].
Proof.
  split; [reflexivity|]. split; [discriminate|].
  apply (openServer_member_ignores_candidates
           "0.9.0" "abc" "messaging" join_path [s1; s2] (mkState node0 member_data_world) 3%N);
    [reflexivity | discriminate].
Defined.

(** The configured directories, with no candidate on either layer. *)
Lemma opens_use_configured_paths_witness :
  config node0 = Some cfg /\
  (exists b l rest,
      [(OBroker b, BrokerDir cfg, None);
       (OLog l, join_path (BrokerDir cfg) "raft", None)]
      = open_args (events (run_openBroker [] node0 founder_world)) ++ rest) /\
  (exists cl n rest,
      [(OClient cl, join_path (Data_Dir cfg) "messaging", None);
       (OServer n, Data_Dir cfg, Some cl)]
      = open_args (events founder_data_run) ++ rest).
Proof.
  split; [reflexivity|].
  apply (opens_use_configured_paths "0.9.0" "abc" "messaging" join_path [] [] 7
           (mkState node0 founder_world) cfg).
  reflexivity.
Defined.

(** Host name db1, listener bound to port 8086 on every address. *)
Lemma ClusterURL_host_splits_back_witness :
  result (ClusterURL (mkState node0 blank)) = Ret (seed "db1:8086") /\
  lacks "[" (hostname node0) /\ lacks "]" (hostname node0) /\
  SplitHostPort (Host (seed "db1:8086")) = inl ("db1", "8086")%string.
Proof.
  assert (Hu : result (ClusterURL (mkState node0 blank)) = Ret (seed "db1:8086"))
    by reflexivity.
  assert (Hl : lacks "[" (hostname node0)) by reflexivity.
  assert (Hr : lacks "]" (hostname node0)) by reflexivity.
  split; [exact Hu|]. split; [exact Hl|]. split; [exact Hr|].
  destruct (ClusterURL_host_splits_back (mkState node0 blank) (seed "db1:8086") Hu Hl Hr)
    as (_ & l & h & p & _ & Hs & Hb).
  assert (Hp : p = "8086"%string).
  { vm_compute in Hs. injection Hs as _ <-. reflexivity. }
  rewrite Hp in Hb. exact Hb.
Defined.

(** * Where the specification and the code part *)

(** C5 fails as stated: after a full start in the stated order, [Close]
    does not release the handles in the reverse of the order in which they
    were acquired.  It starts with the two listeners, which were acquired
    first, and closes the admin server before the ingest servers. *)
Lemma Close_is_not_reverse_of_Start :
  result started = Ret None /\
  acquired (events started) =
    [OListener 1; OListener 2; OBroker 3; OLog 4; OServer 7; OAdmin 8;
     OGraphite 20; OGraphite 21; OOpenTSDB 30] /\
  result (Close (final started)) = Ret None /\
  released (events (Close (final started))) =
    [OListener 1; OListener 2; OAdmin 8; OGraphite 20; OGraphite 21; OOpenTSDB 30;
     OServer 7; OLog 4; OBroker 3] /\
  released (events (Close (final started))) <> rev (acquired (events started)).
Proof.
  split; [reflexivity|]. split; [reflexivity|]. split; [reflexivity|].
  split; [reflexivity|]. vm_compute. discriminate.
Qed.

(** C7 fails as stated.  In one run of [openServer] the data layer calls
    both [Join] and [Initialize] (a join answered "no data nodes found" is
    followed by a self-initialize); and two runs of [openBroker] that read
    the same persisted index, 0, in the same world take different paths, one
    initializing and one joining, because the path also depends on the list
    of seeds. *)
Lemma bootstrap_path_not_fixed_by_persisted_state :
  (server_joins (events first_node_open)
   = [(local, s1, refused); (local, s2, Some ErrDataNodeNotFound)] /\
   server_initializes (events first_node_open) = [(local, None)] /\
   result first_node_open = Ret 2) /\
  (index_reads (events seedless_run) = [0%N] /\
   index_reads (events seeded_run) = [0%N] /\
   log_initializes (events seedless_run) = [None] /\
   log_joins (events seedless_run) = [] /\
   log_initializes (events seeded_run) = [] /\
   log_joins (events seeded_run) = [(s1, None)]).
Proof. repeat split. Qed.
